(** * Clockify report aggregation: a shallow embedding of [app.py] and
    [csv_monthly_projects.py]

    The two source files share their helper functions word for word
    ([normalize_col], [find_duration_column], [parse_duration_value],
    [month_sort_key]); these are embedded once.  The two aggregators and the
    two workbook builders differ and live in the modules [App] and [Cli].

    Conventions of the embedding:
    - a Python [str] is a [string]; a character is a code point below 256;
    - a Python [float] is an IEEE-754 binary64 number, [spec_float] with
      [prec = 53] and [emax = 1024], computed with the operations of
      [SpecFloat] (round to nearest, ties to even);
    - a Python [int] is a [Z]; [int(s)] refuses a string of more than
      4300 digits, the default limit of the interpreter (3.11 and later,
      and the security releases of 3.7 to 3.10);
    - a NumPy scalar is a value of its own: [numpy.bool_] and
      [numpy.int64] are not instances of [int], [numpy.float64] is an
      instance of [float];
    - a raised exception is the [Raise] branch of [result]. *)

From Stdlib Require Import ZArith List Bool Ascii String Lia.
From Stdlib Require Import Sorted Permutation DecimalString.
From Stdlib Require Import Floats.SpecFloat.
Import ListNotations.

Local Open Scope string_scope.
Local Open Scope Z_scope.

(** ** Exceptions *)

Inductive exn : Type :=
| OverflowError
| ValueError
| AttributeError
| IllegalCharacterError
| ReadError (msg : string).

Inductive result (A : Type) : Type :=
| Ok (a : A)
| Raise (e : exn).

Arguments Ok {A} a.
Arguments Raise {A} e.

Definition bind {A B : Type} (r : result A) (k : A -> result B) : result B :=
  match r with
  | Ok a => k a
  | Raise e => Raise e
  end.

Notation "x <- r ;; k" := (bind r (fun x => k))
  (at level 61, r at next level, right associativity).

Fixpoint mapM {A B : Type} (f : A -> result B) (l : list A) : result (list B) :=
  match l with
  | [] => Ok []
  | a :: l' => b <- f a ;; bs <- mapM f l' ;; Ok (b :: bs)
  end.

(** A loop whose body may raise: the first exception ends it. *)
Fixpoint foldM {A B : Type} (f : A -> B -> result A) (l : list B) (a : A)
  : result A :=
  match l with
  | [] => Ok a
  | b :: l' => a' <- f a b ;; foldM f l' a'
  end.

Definition result_map {A B : Type} (g : A -> B) (r : result A) : result B :=
  match r with
  | Ok a => Ok (g a)
  | Raise e => Raise e
  end.

(** [l.append(x)] *)
Definition append {A : Type} (l : list A) (x : A) : list A := (l ++ [x])%list.

(** ** Python strings *)

Module PyStr.

Definition code (c : ascii) : nat := nat_of_ascii c.

Definition in_range (lo hi : nat) (c : ascii) : bool :=
  (Nat.leb lo (code c) && Nat.leb (code c) hi)%bool.

(** [str.isspace] on code points below 256; the same set is the class [\s]
    of a [str] pattern. *)
Definition is_space (c : ascii) : bool :=
  (in_range 9 13 c || in_range 28 32 c
   || Nat.eqb (code c) 133 || Nat.eqb (code c) 160)%bool.

(** The class [\d] of a [str] pattern on code points below 256. *)
Definition is_digit (c : ascii) : bool := in_range 48 57 c.

(** [str.lower] on one code point below 256. *)
Definition lower_char (c : ascii) : ascii :=
  if (in_range 65 90 c
      || (in_range 192 222 c && negb (Nat.eqb (code c) 215)))%bool
  then ascii_of_nat (code c + 32)
  else c.

Fixpoint lower (s : string) : string :=
  match s with
  | EmptyString => EmptyString
  | String c r => String (lower_char c) (lower r)
  end.

Fixpoint lstrip (s : string) : string :=
  match s with
  | EmptyString => EmptyString
  | String c r => if is_space c then lstrip r else s
  end.

Fixpoint rstrip (s : string) : string :=
  match s with
  | EmptyString => EmptyString
  | String c r =>
      match rstrip r with
      | EmptyString => if is_space c then EmptyString else String c EmptyString
      | r' => String c r'
      end
  end.

Definition strip (s : string) : string := rstrip (lstrip s).

(** [re.sub(class, '', s)] for a one-character class: keep the others. *)
Fixpoint remove (p : ascii -> bool) (s : string) : string :=
  match s with
  | EmptyString => EmptyString
  | String c r => if p c then remove p r else String c (remove p r)
  end.

(** [s.replace(a, b)] for one-character [a] and [b]. *)
Fixpoint replace (a b : ascii) (s : string) : string :=
  match s with
  | EmptyString => EmptyString
  | String c r => String (if Ascii.eqb c a then b else c) (replace a b r)
  end.

(** [s.split(sep)] and [re.split(class, s)] for a one-character separator:
    every separator cuts, empty pieces are kept. *)
Fixpoint split_on (sep : ascii -> bool) (s : string) : list string :=
  match s with
  | EmptyString => [EmptyString]
  | String c r =>
      if sep c then EmptyString :: split_on sep r
      else match split_on sep r with
           | w :: ws => String c w :: ws
           | [] => [String c EmptyString]
           end
  end.

(** [sub in s]. *)
Fixpoint contains (sub s : string) : bool :=
  (prefix sub s
   || match s with
      | EmptyString => false
      | String _ r => contains sub r
      end)%bool.

Fixpoint all_chars (p : ascii -> bool) (s : string) : bool :=
  match s with
  | EmptyString => true
  | String c r => (p c && all_chars p r)%bool
  end.

Fixpoint has_char (p : ascii -> bool) (s : string) : bool :=
  match s with
  | EmptyString => false
  | String c r => (p c || has_char p r)%bool
  end.

(** The longest prefix of characters in [p], and the rest. *)
Fixpoint span (p : ascii -> bool) (s : string) : string * string :=
  match s with
  | EmptyString => (EmptyString, EmptyString)
  | String c r =>
      if p c then let '(a, b) := span p r in (String c a, b)
      else (EmptyString, s)
  end.

Definition nonempty (s : string) : bool :=
  match s with EmptyString => false | _ => true end.

(** [s.lower().endswith(suffix)] helper: [s.endswith(suffix)]. *)
Definition endswith (s suffix : string) : bool :=
  let n := String.length s in
  let k := String.length suffix in
  (Nat.leb k n && String.eqb (substring (n - k) k s) suffix)%bool.

(** The number that a string of decimal digits denotes. *)
Definition digit_val (c : ascii) : Z := Z.of_nat (code c) - 48.

Fixpoint int_of_digits_from (acc : Z) (s : string) : Z :=
  match s with
  | EmptyString => acc
  | String c r => int_of_digits_from (acc * 10 + digit_val c) r
  end.

Definition int_of_digits (s : string) : Z := int_of_digits_from 0 s.

(** [sys.int_info.default_max_str_digits] *)
Definition max_str_digits : Z := 4300.

(** [int(p)] for a string of decimal digits: [ValueError] when it holds
    more digits than the limit, leading zeros counted. *)
Definition to_int (p : string) : result Z :=
  if max_str_digits <? Z.of_nat (String.length p) then Raise ValueError
  else Ok (int_of_digits p).

(** [str(z)] for an int. *)
Definition of_int (z : Z) : string := NilZero.string_of_int (Z.to_int z).

(** [sep.join(l)] *)
Fixpoint join (sep : string) (l : list string) : string :=
  match l with
  | [] => EmptyString
  | [x] => x
  | x :: rest => x ++ sep ++ join sep rest
  end.

End PyStr.

(** ** Python floats: binary64 *)

Module F64.

Definition prec : Z := 53.
Definition emax : Z := 1024.

Definition float : Type := spec_float.

Definition add : float -> float -> float := SFadd prec emax.
Definition div : float -> float -> float := SFdiv prec emax.
Definition eqb : float -> float -> bool := SFeqb.
Definition ltb : float -> float -> bool := SFltb.

(** The nearest binary64 number to an integer; may be an infinity. *)
Definition of_Z (z : Z) : float := binary_normalize prec emax z 0 false.

(** The nearest binary64 number to [n / d] with sign [s], for positive [n]
    and [d]: the quotient is rounded once. *)
Definition of_ratio (s : bool) (n d : positive) : float :=
  div (S754_finite s n 0) (S754_finite false d 0).

Definition zero : float := S754_zero false.
Definition f60 : float := Eval vm_compute in of_Z 60.
Definition f3600 : float := Eval vm_compute in of_Z 3600.

(** [float(z)] for a Python int: [OverflowError] when [z] is too large. *)
Definition of_int (z : Z) : result float :=
  match of_Z z with
  | S754_infinity _ => Raise OverflowError
  | f => Ok f
  end.

(** [float(s)] for [s] a decimal literal [sign digits . digits]: the
    nearest binary64 number; no exception, large values give an infinity. *)
Definition of_decimal (neg : bool) (ip fp : string) : float :=
  match PyStr.int_of_digits (ip ++ fp) with
  | Zpos n => of_ratio neg n (Z.to_pos (10 ^ Z.of_nat (String.length fp)))
  | _ => S754_zero neg
  end.

(** The nearest integer to [n / d], ties to even, for [0 <= n] and [0 < d]. *)
Definition round_half_even (n d : Z) : Z :=
  let q := n / d in
  let r := n mod d in
  match 2 * r ?= d with
  | Lt => q
  | Gt => q + 1
  | Eq => if Z.even q then q else q + 1
  end.

(** [round(x, 2)]: the exact value of [x] is rounded to two decimals (ties
    to even) and the decimal is converted back to the nearest binary64
    number; infinities, NaN and zeros round to themselves and the sign of
    [x] is kept. *)
Definition round2 (x : float) : float :=
  match x with
  | S754_finite s m e =>
      let n :=
        if 0 <=? e then Zpos m * 2 ^ e * 100
        else round_half_even (Zpos m * 100) (2 ^ (- e)) in
      match n with
      | Zpos p => of_ratio s p 100
      | _ => S754_zero s
      end
  | _ => x
  end.

(** The built-in [sum] over floats: additions from left to right, from the
    int 0.  Interpreters from 3.12 on also carry a compensation term; it
    stays zero, and the result is the same, whenever these additions are
    exact. *)
Definition sum (l : list float) : float := fold_left add l zero.

End F64.


(** ** Python values

    The values a cell of a frame read by [pandas.read_csv] hands to the
    helpers: [None], a bool, an int, a float (NaN stands for a missing
    cell) or a string, and the NumPy scalars that a row of [df.iterrows()]
    holds when the frame has one numeric or boolean dtype throughout:
    [numpy.bool_], [numpy.int64] and [numpy.float64]. *)

Inductive value : Type :=
| VNone
| VBool (b : bool)
| VInt (z : Z)
| VFloat (f : F64.float)
| VStr (s : string)
| VNpBool (b : bool)
| VNpInt (z : Z)
| VNpFloat (f : F64.float).

Definition nan : F64.float := S754_nan.

(** [pd.isna(v)] on a scalar. *)
Definition pd_isna (v : value) : bool :=
  match v with
  | VNone => true
  | VFloat S754_nan => true
  | VNpFloat S754_nan => true
  | _ => false
  end.

(** [isinstance(v, (int, float))]: [bool] is a subclass of [int] and
    [numpy.float64] one of [float]; [numpy.bool_] and [numpy.int64] are
    neither. *)
Definition is_number (v : value) : bool :=
  match v with
  | VBool _ | VInt _ | VFloat _ | VNpFloat _ => true
  | _ => false
  end.

(** [float(v)] for a number. *)
Definition py_float (v : value) : result F64.float :=
  match v with
  | VBool b => F64.of_int (if b then 1 else 0)
  | VInt z => F64.of_int z
  | VFloat f => Ok f
  | VNpFloat f => Ok f
  | _ => Raise ValueError
  end.

(** [str(v)], used by the source on the values that are not instances of
    [int] or [float] (those and [None] return earlier): strings, and the
    NumPy bools and ints. *)
Definition py_str (v : value) : string :=
  match v with
  | VStr s => s
  | VNone => "None"
  | VBool true | VNpBool true => "True"
  | VBool false | VNpBool false => "False"
  | VNpInt z => PyStr.of_int z
  | _ => ""
  end.

(** ** Duration Parser: [parse_duration_value] *)

Definition is_sign (c : ascii) : bool :=
  (Ascii.eqb c "+" || Ascii.eqb c "-")%bool.

(** The three groups of [[+-]?\d+(\.\d+)?] on a full match: is the sign a
    minus, the integer digits, the fraction digits. *)
Definition match_decimal (s : string) : option (bool * string * string) :=
  let '(neg, body) :=
    match s with
    | String c r => if is_sign c then (Ascii.eqb c "-", r) else (false, s)
    | EmptyString => (false, s)
    end in
  let '(ip, rest) := PyStr.span PyStr.is_digit body in
  if PyStr.nonempty ip then
    match rest with
    | EmptyString => Some (neg, ip, EmptyString)
    | String c fp =>
        if (Ascii.eqb c "." && PyStr.nonempty fp
            && PyStr.all_chars PyStr.is_digit fp)%bool
        then Some (neg, ip, fp)
        else None
    end
  else None.

Definition is_colon (c : ascii) : bool := Ascii.eqb c ":".

(** One segment of the clock form: [re.sub(r'[^\d]', '', p.strip())], then
    [int(p) if p else 0]; [int] raises on more than 4300 digits. *)
Definition segment_value (p : string) : result Z :=
  let p' := PyStr.remove (fun c => negb (PyStr.is_digit c)) (PyStr.strip p) in
  if PyStr.nonempty p' then PyStr.to_int p' else Ok 0.

(** [h + m/60.0 + sec/3600.0] on Python ints: each int operand is converted
    to float where it meets a float, which raises when it is too large. *)
Definition clock_hours (h m sec : Z) : result F64.float :=
  mf <- F64.of_int m ;;
  hf <- F64.of_int h ;;
  sf <- F64.of_int sec ;;
  Ok (F64.add (F64.add hf (F64.div mf F64.f60)) (F64.div sf F64.f3600)).

(** The body of the [try] block. *)
Definition parse_duration_try (v : value) : result F64.float :=
  if is_number v then py_float v
  else
    let s := PyStr.replace "," "." (PyStr.strip (py_str v)) in
    match match_decimal s with
    | Some (neg, ip, fp) => Ok (F64.of_decimal neg ip fp)
    | None =>
        if PyStr.has_char is_colon s then
          let parts := PyStr.split_on is_colon s in
          nums <- mapM segment_value (firstn 3 parts) ;;
          match nums with
          | [h; m] => clock_hours h m 0
          | [h; m; sec] => clock_hours h m sec
          | _ => Raise ValueError
          end
        else Ok F64.zero
    end.

(** The function as Python runs it: the [pd.isna] test stands before the
    [try], the handler catches every [Exception]. *)
Definition parse_duration_value_py (v : value) : result F64.float :=
  if pd_isna v then Ok F64.zero
  else
    match parse_duration_try v with
    | Ok f => Ok f
    | Raise _ => Ok F64.zero
    end.

(** The value the callers use. *)
Definition parse_duration_value (v : value) : F64.float :=
  match parse_duration_value_py v with
  | Ok f => f
  | Raise _ => F64.zero
  end.


(** ** Python dicts

    A [dict] keeps its keys in insertion order; assigning to a key that is
    present replaces the value and leaves the key where it is. *)

Section Dict.
Context {V : Type}.

Definition dict : Type := list (string * V).

Fixpoint dict_set (d : dict) (k : string) (v : V) : dict :=
  match d with
  | [] => [(k, v)]
  | (k', v') :: d' =>
      if String.eqb k' k then (k', v) :: d'
      else (k', v') :: dict_set d' k v
  end.

Fixpoint dict_get (d : dict) (k : string) : option V :=
  match d with
  | [] => None
  | (k', v') :: d' => if String.eqb k' k then Some v' else dict_get d' k
  end.

Definition dict_keys (d : dict) : list string := map fst d.
Definition dict_values (d : dict) : list V := map snd d.
End Dict.

Arguments dict V : clear implicits.

(** ** Column Sniffer *)

Definition is_col_noise (c : ascii) : bool :=
  (PyStr.is_space c || Ascii.eqb c "(" || Ascii.eqb c ")"
   || Ascii.eqb c "-" || Ascii.eqb c ".")%bool.

(** [re.sub(r'[\s\(\)\-\.]', '', str(c).strip().lower())] *)
Definition normalize_col (c : string) : string :=
  PyStr.remove is_col_noise (PyStr.lower (PyStr.strip c)).

Definition duration_candidates : list string :=
  ["durationdecimal"; "durationh"; "duration"].

Definition duration_like (n : string) : bool :=
  (PyStr.contains "duration" n || PyStr.contains "time" n
   || PyStr.contains "hours" n)%bool.

Definition description_like (n : string) : bool :=
  (PyStr.contains "description" n || PyStr.contains "details" n
   || PyStr.contains "note" n)%bool.

(** [{normalize_col(c): c for c in cols}] *)
Definition norm_to_orig (cols : list string) : dict string :=
  fold_left (fun d c => dict_set d (normalize_col c) c) cols [].

Fixpoint first_candidate (cands : list string) (d : dict string)
  : option string :=
  match cands with
  | [] => None
  | cand :: rest =>
      match dict_get d cand with
      | Some orig => Some orig
      | None => first_candidate rest d
      end
  end.

Fixpoint first_duration_like (items : dict string) : option string :=
  match items with
  | [] => None
  | (n, orig) :: rest =>
      if duration_like n then Some orig else first_duration_like rest
  end.

Definition find_duration_column (cols : list string) : option string :=
  let d := norm_to_orig cols in
  match first_candidate duration_candidates d with
  | Some orig => Some orig
  | None => first_duration_like d
  end.

(** The description column, found in line by both aggregators:
    the first column whose normalized name looks like a description. *)
Fixpoint find_description_column (cols : list string) : option string :=
  match cols with
  | [] => None
  | c :: rest =>
      if description_like (normalize_col c) then Some c
      else find_description_column rest
  end.

(** ** Month Label Orderer: [month_sort_key] *)

Definition MONTH_MAP (p : string) : option Z :=
  if String.eqb p "january" then Some 1
  else if String.eqb p "february" then Some 2
  else if String.eqb p "march" then Some 3
  else if String.eqb p "april" then Some 4
  else if String.eqb p "may" then Some 5
  else if String.eqb p "june" then Some 6
  else if String.eqb p "july" then Some 7
  else if String.eqb p "august" then Some 8
  else if String.eqb p "september" then Some 9
  else if String.eqb p "october" then Some 10
  else if String.eqb p "november" then Some 11
  else if String.eqb p "december" then Some 12
  else None.

Definition is_newline (c : ascii) : bool := Nat.eqb (PyStr.code c) 10.

(** [re.match(r'(\d{4})[-_](\d{2})$', n)]: the two groups as ints.  [$]
    stands at the end of the string or before a final newline. *)
Definition match_year_month (n : string) : option (Z * Z) :=
  let y := substring 0 4 n in
  let sep := substring 4 1 n in
  let mo := substring 5 2 n in
  let rest := substring 7 (String.length n - 7) n in
  if (Nat.eqb (String.length y) 4 && PyStr.all_chars PyStr.is_digit y
      && (String.eqb sep "-" || String.eqb sep "_")
      && Nat.eqb (String.length mo) 2 && PyStr.all_chars PyStr.is_digit mo
      && (Nat.eqb (String.length rest) 0
          || (Nat.eqb (String.length rest) 1
              && PyStr.all_chars is_newline rest)))%bool
  then Some (PyStr.int_of_digits y, PyStr.int_of_digits mo)
  else None.

(** [re.fullmatch(r'\d{4}', q)] *)
Definition is_year_token (q : string) : bool :=
  (Nat.eqb (String.length q) 4 && PyStr.all_chars PyStr.is_digit q)%bool.

Definition is_label_sep (c : ascii) : bool :=
  (Ascii.eqb c "_" || Ascii.eqb c "-" || PyStr.is_space c)%bool.

(** The first token that is a month name, as its number. *)
Fixpoint first_month (parts : list string) : option Z :=
  match parts with
  | [] => None
  | p :: rest =>
      match MONTH_MAP p with
      | Some mo => Some mo
      | None => first_month rest
      end
  end.

(** The inner loop: the first token of four digits, as an int. *)
Fixpoint first_year (parts : list string) : option Z :=
  match parts with
  | [] => None
  | q :: rest =>
      if is_year_token q then Some (PyStr.int_of_digits q)
      else first_year rest
  end.

Definition sort_key : Type := (Z * string)%type.

Definition month_sort_key (name : string) : sort_key :=
  if negb (PyStr.nonempty name) then (9999, name)
  else
    let n := PyStr.strip name in
    match match_year_month n with
    | Some (y, mo) => (y * 100 + mo, n)
    | None =>
        let parts := PyStr.split_on is_label_sep (PyStr.lower n) in
        match first_month parts with
        | Some mo =>
            match first_year parts with
            | Some year =>
                if negb (year =? 0) then (year * 100 + mo, n)
                else (2000 + mo, n)
            | None => (2000 + mo, n)
            end
        | None => (9999, n)
        end
    end.

(** Tuple comparison [k1 < k2] and [k1 <= k2] on [(int, str)]. *)
Definition key_ltb (k1 k2 : sort_key) : bool :=
  (Z.ltb (fst k1) (fst k2)
   || (Z.eqb (fst k1) (fst k2) && String.ltb (snd k1) (snd k2)))%bool.

Definition key_leb (k1 k2 : sort_key) : bool := negb (key_ltb k2 k1).

(** [sorted(l, key=f)]: a stable sort; among equal keys the input order is
    kept. *)
Section Sorted.
Context {A K : Type}.
Variable ltb : K -> K -> bool.
Variable f : A -> K.

Fixpoint insert_by (x : A) (l : list A) : list A :=
  match l with
  | [] => [x]
  | y :: l' => if ltb (f y) (f x) then y :: insert_by x l' else x :: l
  end.

Definition sorted_by (l : list A) : list A := fold_right insert_by [] l.
End Sorted.

(** [sorted(names)] on strings. *)
Definition sorted_str (l : list string) : list string :=
  sorted_by String.ltb (fun s => s) l.

(** [sorted(labels, key=month_sort_key)] *)
Definition sorted_months (l : list string) : list string :=
  sorted_by key_ltb month_sort_key l.


(** ** Frames, files and folders

    A frame read by [pandas.read_csv] is its column names, the dtype of
    each column and its rows; a cell is looked up by column name.  The
    cells are kept as the Python objects of their column: a bool in a
    [bool] column, an int in an [int64] column, a float in a [float64]
    column (NaN for a missing cell), and in an [object] column whatever
    the column holds: a string, NaN for a missing cell, a bool beside
    missing cells.  These are the objects that [df[c].apply(f)] hands to
    [f].  Reading a file is outside the sources:
    a file carries the outcome of reading it with the default encoding and
    with [encoding='latin1']. *)

Inductive dtype : Type :=
| DBool
| DInt64
| DFloat64
| DObject.

Record DataFrame : Type := {
  columns : list string;
  dtypes : list dtype;
  rows : list (list value)
}.

(** The dtype that holds two dtypes: equal dtypes are kept, [int64] and
    [float64] give [float64], and [bool] beside a number, like anything
    beside [object], gives [object]. *)
Definition common_dtype (a b : dtype) : dtype :=
  match a, b with
  | DBool, DBool => DBool
  | DInt64, DInt64 => DInt64
  | DInt64, DFloat64 | DFloat64, DInt64 | DFloat64, DFloat64 => DFloat64
  | _, _ => DObject
  end.

(** The dtype of [df.values], the array whose rows [df.iterrows()] hands
    out: the common dtype of the columns. *)
Definition values_dtype (df : DataFrame) : dtype :=
  match dtypes df with
  | [] => DObject
  | t :: ts => fold_left common_dtype ts t
  end.

(** A cell as it sits in [df.values]: in an [object] array the Python
    object as it is, in a [bool], [int64] or [float64] array the NumPy
    scalar, an int being converted to the nearest float in a [float64]
    array. *)
Definition np_scalar (t : dtype) (v : value) : value :=
  match t, v with
  | DBool, VBool b => VNpBool b
  | DInt64, VInt z => VNpInt z
  | DFloat64, VInt z => VNpFloat (F64.of_Z z)
  | DFloat64, VFloat f => VNpFloat f
  | _, _ => v
  end.

(** The rows of [df.iterrows()], in order. *)
Definition iterrows (df : DataFrame) : list (list value) :=
  map (map (np_scalar (values_dtype df))) (rows df).

Fixpoint index_of (c : string) (cols : list string) : option nat :=
  match cols with
  | [] => None
  | c' :: rest =>
      if String.eqb c' c then Some O
      else option_map S (index_of c rest)
  end.

(** [row[c]]; a cell the row lacks reads as NaN. *)
Definition row_get (cols : list string) (row : list value) (c : string)
  : value :=
  match index_of c cols with
  | Some i => nth i row (VFloat nan)
  | None => VFloat nan
  end.

(** [df[c]]: the cells of column [c], row by row. *)
Definition column (df : DataFrame) (c : string) : list value :=
  map (fun row => row_get (columns df) row c) (rows df).

(** An entry of a project folder: a file, with the two outcomes of reading
    it, or something [read_csv] cannot open (a sub-folder). *)
Inductive entry : Type :=
| File (read_default read_latin1 : result DataFrame)
| Unreadable.

Definition project_dir : Type := list (string * entry).

(** An entry of the root folder: a project folder or a plain file. *)
Inductive root_entry : Type :=
| Project (files : project_dir)
| Plain.

Definition root_dir : Type := list (string * root_entry).

(** [os.listdir] *)
Definition listdir {A : Type} (d : list (string * A)) : list string :=
  map fst d.

Fixpoint lookup {A : Type} (d : list (string * A)) (name : string)
  : option A :=
  match d with
  | [] => None
  | (n, x) :: rest => if String.eqb n name then Some x else lookup rest name
  end.

(** [os.path.isdir(os.path.join(root, name))] *)
Definition isdir (root : root_dir) (name : string) : bool :=
  match lookup root name with
  | Some (Project _) => true
  | _ => false
  end.

Definition not_a_file : exn := ReadError "not a readable file".

(** [pd.read_csv(fpath)] and [pd.read_csv(fpath, encoding='latin1')] *)
Definition read_csv (d : project_dir) (fname : string) : result DataFrame :=
  match lookup d fname with
  | Some (File r _) => r
  | _ => Raise not_a_file
  end.

Definition read_csv_latin1 (d : project_dir) (fname : string)
  : result DataFrame :=
  match lookup d fname with
  | Some (File _ r) => r
  | _ => Raise not_a_file
  end.

(** [p.rfind('.')] *)
Fixpoint rfind_dot (p : string) : option nat :=
  match p with
  | EmptyString => None
  | String c r =>
      match rfind_dot r with
      | Some i => Some (S i)
      | None => if Ascii.eqb c "." then Some O else None
      end
  end.

Definition is_dot (c : ascii) : bool := Ascii.eqb c ".".

(** [os.path.splitext(fname)[0]] for a name without a path separator, as
    [os.listdir] returns them: cut at the last dot, unless only dots stand
    before it. *)
Definition splitext_stem (fname : string) : string :=
  match rfind_dot fname with
  | Some i =>
      if PyStr.all_chars is_dot (substring 0 i fname) then fname
      else substring 0 i fname
  | None => fname
  end.

(** [fname.lower().endswith('.csv')] *)
Definition is_csv_name (fname : string) : bool :=
  PyStr.endswith (PyStr.lower fname) ".csv".

Record MonthRecord : Type := {
  total : F64.float;
  entries : list (value * F64.float)
}.

(** [hrs > 0] *)
Definition positive_hours (hrs : F64.float) : bool := F64.ltb F64.zero hrs.

(** One turn of the loop over [df.iterrows()]; [row] is a row as
    [iterrows] hands it. *)
Definition entry_step (cols : list string) (desc_col : option string)
    (duration_col : string) (acc : list (value * F64.float))
    (row : list value) : list (value * F64.float) :=
  let desc :=
    match desc_col with
    | Some c =>
        if (PyStr.nonempty c && existsb (String.eqb c) cols)%bool
        then row_get cols row c
        else VStr ""
    | None => VStr ""
    end in
  let hrs := parse_duration_value (row_get cols row duration_col) in
  if positive_hours hrs then append acc (desc, hrs) else acc.

Definition collect_entries (df : DataFrame) (desc_col : option string)
    (duration_col : string) : list (value * F64.float) :=
  fold_left (entry_step (columns df) desc_col duration_col) (iterrows df) [].

(** ** Sheets: the workbook of openpyxl

    A workbook is the list of its sheets; a sheet has an identity, a title
    and the rows appended to it.  The sink decides on titles and on cell
    values: a title with one of the characters [\ * ? : / [ ]] is refused,
    a title that another sheet already has, letter case ignored, gets a
    number appended, and a string cell is cut at 32767 characters and
    refused when it holds a control character. *)

Record sheet : Type := {
  sid : nat;
  title : string;
  cells : list (list value)
}.

(** [Workbook()]: one empty sheet. *)
Definition default_sheet : sheet :=
  {| sid := 0; title := "Sheet"; cells := [] |}.

Definition new_workbook : list sheet := [default_sheet].

(** [wb.sheetnames] *)
Definition sheetnames (wb : list sheet) : list string := map title wb.

Module Openpyxl.

(** The class of [INVALID_TITLE_REGEX]. *)
Definition is_invalid_title_char (c : ascii) : bool :=
  (Ascii.eqb c "\" || Ascii.eqb c "*" || Ascii.eqb c "?" || Ascii.eqb c ":"
   || Ascii.eqb c "/" || Ascii.eqb c "[" || Ascii.eqb c "]")%bool.

(** The class of [ILLEGAL_CHARACTERS_RE]: the control characters other
    than tab, line feed and carriage return. *)
Definition is_illegal_char (c : ascii) : bool :=
  (PyStr.in_range 0 8 c || PyStr.in_range 11 12 c
   || PyStr.in_range 14 31 c)%bool.

(** The pattern of [avoid_duplicate_name] at the head of [s]: the literal
    [v], letter case ignored; what follows it is returned. *)
Fixpoint match_title (v s : string) : option string :=
  match v, s with
  | EmptyString, _ => Some s
  | String a v', String c s' =>
      if Ascii.eqb (PyStr.lower_char a) (PyStr.lower_char c)
      then match_title v' s'
      else None
  | String _ _, EmptyString => None
  end.

Definition starts_with_comma (s : string) : bool :=
  match s with
  | String c _ => Ascii.eqb c ","
  | EmptyString => false
  end.

(** [sheet_title_regex.findall(names)], the group [count] of every match:
    the matches of the title, the digits after it and one comma, found
    from left to right without overlap.  [skip] counts the characters
    still covered by the last match. *)
Fixpoint findall_counts (v : string) (skip : nat) (s : string)
  : list string :=
  match s with
  | EmptyString => []
  | String _ r =>
      match skip with
      | S k => findall_counts v k r
      | O =>
          match match_title v s with
          | Some rest =>
              let '(digits, rest') := PyStr.span PyStr.is_digit rest in
              let consumed :=
                (String.length v + String.length digits
                 + if starts_with_comma rest' then 1 else 0)%nat in
              digits :: findall_counts v (Nat.pred consumed) r
          | None => findall_counts v 0 r
          end
      end
  end.

(** [max(counts)] with [highest = 0] for no count. *)
Definition highest (counts : list Z) : Z := fold_left Z.max counts 0.

(** A name of [names] equals the title, letter case ignored. *)
Definition known_title (names : list string) (value : string) : bool :=
  existsb (fun n => String.eqb (PyStr.lower n) (PyStr.lower value)) names.

(** [avoid_duplicate_name(names, value)] for a title that is not empty:
    when a name equals the title, letter case ignored, the title gets the
    number after the highest one that follows the title anywhere in the
    comma-joined names. *)
Definition avoid_duplicate_name (names : list string) (value : string)
  : result string :=
  if known_title names value
  then
    match findall_counts value 0 (PyStr.join "," names) with
    | [] => Ok value
    | matches =>
        counts <- mapM PyStr.to_int (filter PyStr.nonempty matches) ;;
        Ok (value ++ PyStr.of_int (highest counts + 1))
    end
  else Ok value.

(** The setter of [title], for a sheet whose title is [current], in a
    workbook whose sheets have the titles [names]. *)
Definition set_title (names : list string) (current value : string)
  : result string :=
  if PyStr.has_char is_invalid_title_char value then Raise ValueError
  else if String.eqb current value then Ok value
  else avoid_duplicate_name names value.

(** [title or self._default_title] *)
Definition title_or_default (t : string) : string :=
  if PyStr.nonempty t then t else "Sheet".

(** The length limit of a string cell. *)
Definition max_cell_length : nat := N.to_nat 32767.

(** [check_string(value)] *)
Definition check_string (s : string) : result string :=
  let s' := substring 0 max_cell_length s in
  if PyStr.has_char is_illegal_char s' then Raise IllegalCharacterError
  else Ok s'.

(** The value a cell keeps of the value it is given: numbers, bools, NumPy
    scalars and [None] as they are, a string through [check_string]. *)
Definition bind_value (v : value) : result value :=
  match v with
  | VStr s => s' <- check_string s ;; Ok (VStr s')
  | _ => Ok v
  end.

(** [ws.append(row)] *)
Definition append_row (ws : list (list value)) (row : list value)
  : result (list (list value)) :=
  r <- mapM bind_value row ;; Ok (append ws r).

End Openpyxl.

(** [wb.create_sheet(title=t)] followed by the [ws.append] calls that fill
    the sheet with the rows of [content], in order.  A new sheet has the
    empty title before its title is set, and an empty [t] stands for the
    default title. *)
Definition create_sheet (wb : list sheet) (t : string)
    (content : list (list value)) : result (list sheet) :=
  t' <- Openpyxl.set_title (sheetnames wb) EmptyString
          (Openpyxl.title_or_default t) ;;
  ws <- foldM Openpyxl.append_row content [] ;;
  Ok (append wb {| sid := List.length wb; title := t'; cells := ws |}).

(** [wb.remove(ws)] *)
Definition remove_sheet (wb : list sheet) (ws : sheet) : list sheet :=
  filter (fun x => negb (Nat.eqb (sid x) (sid ws))) wb.

(** [wb.active.title = t]: the active sheet is the first one; a workbook
    without sheets has no active sheet to set a title on. *)
Definition retitle_active (wb : list sheet) (t : string)
  : result (list sheet) :=
  match wb with
  | [] => Raise AttributeError
  | ws :: rest =>
      t' <- Openpyxl.set_title (sheetnames wb) (title ws) t ;;
      Ok ({| sid := sid ws; title := t'; cells := cells ws |} :: rest)
  end.

(** [month_totals[mn]]; the key is always present where it is used. *)
Definition month_of (month_totals : dict MonthRecord) (mn : string)
  : MonthRecord :=
  match dict_get month_totals mn with
  | Some r => r
  | None => {| total := F64.zero; entries := [] |}
  end.

(** The body of the loop over the sorted labels: four kinds of
    [ws.append]. *)
Definition append_month (month_totals : dict MonthRecord)
    (ws : list (list value)) (mn : string) : list (list value) :=
  let r := month_of month_totals mn in
  let ws1 := append ws [VStr mn; VFloat (total r)] in
  let ws2 := append ws1 [VStr "Description"; VStr "Hours"] in
  let ws3 :=
    fold_left (fun w e => append w [fst e; VFloat (snd e)]) (entries r) ws2 in
  append ws3 [].

(** [round(sum(m['total'] for m in month_totals.values()), 2)] *)
Definition grand_total (month_totals : dict MonthRecord) : F64.float :=
  F64.round2 (F64.sum (map total (dict_values month_totals))).

(** All the rows appended to the sheet of one project. *)
Definition sheet_rows (month_totals : dict MonthRecord)
  : list (list value) :=
  let ws0 := append [] [VStr "Month"; VStr "Total Hours"] in
  let ws1 :=
    fold_left (append_month month_totals)
      (sorted_months (dict_keys month_totals)) ws0 in
  let grand := grand_total month_totals in
  append (append ws1 []) [VStr "TOTAL"; VFloat grand].

(** [item.lower() in ('venv', '__pycache__') or item.startswith('.')] *)
Definition skipped_name (item : string) : bool :=
  (String.eqb (PyStr.lower item) "venv"
   || String.eqb (PyStr.lower item) "__pycache__"
   || prefix "." item)%bool.

(** The record of one readable, non-empty frame with a duration column:
    the total over the cells that [df[duration_col].apply] parses, the
    entries for the rows of [df.iterrows()] whose cell parses to a
    positive value. *)
Section MonthRecords.
(** [Series.sum()] of pandas, on the parsed hours: outside the sources. *)
Variable series_sum : list F64.float -> F64.float.

Definition month_record (df : DataFrame) (duration_col : string)
  : MonthRecord :=
  let desc_col := find_description_column (columns df) in
  let hours_series := map parse_duration_value (column df duration_col) in
  let total_hours := F64.round2 (series_sum hours_series) in
  {| total := total_hours;
     entries := collect_entries df desc_col duration_col |}.
End MonthRecords.

(** ** [app.py]: the aggregator and the workbook builder *)

Module App.

Inductive log_line : Type :=
| LogProcessing (item : string)
| LogNoMonths (item : string)
| LogReadError (project fname : string) (e : exn)
| LogEmpty (project fname : string)
| LogNoDuration (project fname : string) (cols : list string)
| LogOk (project fname : string) (hours : F64.float) (col : string).

Section Aggregator.
Variable series_sum : list F64.float -> F64.float.

(** The nested [try]: the default encoding, then Latin-1. *)
Definition read_frame (d : project_dir) (fname : string)
  : result DataFrame :=
  match read_csv d fname with
  | Ok df => Ok df
  | Raise _ => read_csv_latin1 d fname
  end.

(** One turn of the loop over the sorted file names. *)
Definition file_step (project_folder : string) (d : project_dir)
    (acc : dict MonthRecord * list log_line) (fname : string)
  : dict MonthRecord * list log_line :=
  let '(month_totals, logs) := acc in
  if negb (is_csv_name fname) then acc
  else
    let month_label := splitext_stem fname in
    match read_frame d fname with
    | Raise e =>
        (month_totals, append logs (LogReadError project_folder fname e))
    | Ok df =>
        if Nat.eqb (List.length (rows df)) 0
        then (month_totals, append logs (LogEmpty project_folder fname))
        else
          match find_duration_column (columns df) with
          | None =>
              (month_totals,
               append logs (LogNoDuration project_folder fname (columns df)))
          | Some duration_col =>
              let r := month_record series_sum df duration_col in
              (dict_set month_totals month_label r,
               append logs (LogOk project_folder fname (total r) duration_col))
          end
    end.

Definition process_project_folder (root : root_dir)
    (project_folder : string) (logs : list log_line)
  : option (dict MonthRecord) * list log_line :=
  match lookup root project_folder with
  | Some (Project d) =>
      let '(month_totals, logs') :=
        fold_left (file_step project_folder d) (sorted_str (listdir d))
          ([], logs) in
      (Some month_totals, logs')
  | _ => (None, logs)
  end.

Record build_state : Type := {
  wb : list sheet;
  added : nat;
  project_summaries : list (string * F64.float);
  logs : list log_line
}.

(** One turn of the loop over the sorted names of the root folder; what
    the sink raises is not caught. *)
Definition project_step (root : root_dir) (st : build_state)
    (item : string) : result build_state :=
  if negb (isdir root item) then Ok st
  else if skipped_name item then Ok st
  else
    let logs1 := append (logs st) (LogProcessing item) in
    let '(res, logs2) := process_project_folder root item logs1 in
    match res with
    | Some ((_ :: _) as month_totals) =>
        w <- create_sheet (wb st) (substring 0 31 item)
               (sheet_rows month_totals) ;;
        Ok {| wb := w;
              added := S (added st);
              project_summaries :=
                append (project_summaries st)
                  (item, grand_total month_totals);
              logs := logs2 |}
    | _ =>
        Ok {| wb := wb st;
              added := added st;
              project_summaries := project_summaries st;
              logs := append logs2 (LogNoMonths item) |}
    end.

(** The default sheet goes when a project sheet was added, and is
    renamed otherwise. *)
Definition finish_workbook (w : list sheet) (n : nat)
  : result (list sheet) :=
  if Nat.ltb 0 n then Ok (remove_sheet w default_sheet)
  else retitle_active w "NoData".

Definition initial_state : build_state :=
  {| wb := new_workbook; added := 0; project_summaries := []; logs := [] |}.

(** [generate_workbook_bytes(root)]: the workbook handed to [wb.save],
    the summaries and the log, or the exception that ends the run; the
    bytes and the time-stamped file name are the sink's. *)
Definition generate_workbook_bytes (root : root_dir)
  : result (list sheet * list (string * F64.float) * list log_line) :=
  st <- foldM (project_step root) (sorted_str (listdir root))
          initial_state ;;
  w <- finish_workbook (wb st) (added st) ;;
  Ok (w, project_summaries st, logs st).
End Aggregator.

End App.

(** ** [csv_monthly_projects.py]: the stand-alone script *)

Module Cli.

(** The lines the script prints. *)
Inductive line : Type :=
| PrintScanning
| PrintProcessing (item : string)
| PrintNoMonths (item : string)
| PrintReadError (fname : string) (e : exn)
| PrintEmpty (fname : string)
| PrintNoDuration (fname : string) (cols : list string)
| PrintOk (fname : string) (hours : F64.float) (col : string)
| PrintSaved.

Section Aggregator.
Variable series_sum : list F64.float -> F64.float.

(** One turn of the loop over the sorted file names: one read only. *)
Definition file_step (d : project_dir)
    (acc : dict MonthRecord * list line) (fname : string)
  : dict MonthRecord * list line :=
  let '(month_totals, out) := acc in
  if negb (is_csv_name fname) then acc
  else
    let month_label := splitext_stem fname in
    match read_csv d fname with
    | Raise e => (month_totals, append out (PrintReadError fname e))
    | Ok df =>
        if Nat.eqb (List.length (rows df)) 0
        then (month_totals, append out (PrintEmpty fname))
        else
          match find_duration_column (columns df) with
          | None =>
              (month_totals, append out (PrintNoDuration fname (columns df)))
          | Some duration_col =>
              let r := month_record series_sum df duration_col in
              (dict_set month_totals month_label r,
               append out (PrintOk fname (total r) duration_col))
          end
    end.

Definition process_project_folder (root : root_dir)
    (project_folder : string) (out : list line)
  : option (dict MonthRecord) * list line :=
  match lookup root project_folder with
  | Some (Project d) =>
      let '(month_totals, out') :=
        fold_left (file_step d) (sorted_str (listdir d)) ([], out) in
      (Some month_totals, out')
  | _ => (None, out)
  end.

Record build_state : Type := {
  wb : list sheet;
  added : nat;
  out : list line
}.

Definition project_step (root : root_dir) (st : build_state)
    (item : string) : result build_state :=
  if negb (isdir root item) then Ok st
  else if skipped_name item then Ok st
  else
    let out1 := append (out st) (PrintProcessing item) in
    let '(res, out2) := process_project_folder root item out1 in
    match res with
    | Some ((_ :: _) as month_totals) =>
        w <- create_sheet (wb st) (substring 0 31 item)
               (sheet_rows month_totals) ;;
        Ok {| wb := w;
              added := S (added st);
              out := out2 |}
    | _ =>
        Ok {| wb := wb st;
              added := added st;
              out := append out2 (PrintNoMonths item) |}
    end.

Definition finish_workbook (w : list sheet) (n : nat)
  : result (list sheet) :=
  if Nat.ltb 0 n then Ok (remove_sheet w default_sheet)
  else retitle_active w "NoData".

Definition initial_state : build_state :=
  {| wb := new_workbook; added := 0; out := [PrintScanning] |}.

(** [main()]: the workbook handed to [wb.save] and the printed lines, or
    the exception that ends the run. *)
Definition main (root : root_dir) : result (list sheet * list line) :=
  st <- foldM (project_step root) (sorted_str (listdir root))
          initial_state ;;
  w <- finish_workbook (wb st) (added st) ;;
  Ok (w, append (out st) PrintSaved).
End Aggregator.

End Cli.

(** ** The clock form as the specification words it

    The string is cut at its colons, at most the first three pieces are
    kept, each piece is reduced to its digits and read as an int, an empty
    piece being 0; the result is hours + minutes/60 + seconds/3600. *)

Definition digits_of (p : string) : string :=
  PyStr.remove (fun c => negb (PyStr.is_digit c)) p.

Definition clock_segment (p : string) : Z :=
  let d := digits_of p in
  if PyStr.nonempty d then PyStr.int_of_digits d else 0.

Definition clock_spec (s : string) : result F64.float :=
  let nums := map clock_segment (firstn 3 (PyStr.split_on is_colon s)) in
  clock_hours (nth 0 nums 0) (nth 1 nums 0) (nth 2 nums 0).

(** A piece with more digits than [int] reads. *)
Definition too_many_digits (p : string) : bool :=
  PyStr.max_str_digits <? Z.of_nat (String.length (digits_of p)).

(** One of the first three pieces of the string has too many digits. *)
Definition clock_unreadable (s : string) : bool :=
  existsb too_many_digits (firstn 3 (PyStr.split_on is_colon s)).

(** Python's [a == b] on floats. *)
Definition float_eq (a b : F64.float) : bool := F64.eqb a b.

Definition digits_value (d : string) : Z :=
  if PyStr.nonempty d then PyStr.int_of_digits d else 0.

(** Cutting at colons, piece by piece: how one more character in front
    changes the digits of the pieces. *)
Definition cons_digits (c : ascii) (l : list string) : list string :=
  if is_colon c then EmptyString :: l
  else match l with
       | w :: ws => (if PyStr.is_digit c then String c w else w) :: ws
       | [] => [if PyStr.is_digit c then String c EmptyString else EmptyString]
       end.


(** [c * n] for a one-character string [c]. *)
Fixpoint repeat_char (c : ascii) (n : nat) : string :=
  match n with
  | O => EmptyString
  | S n' => String c (repeat_char c n')
  end.

(** The literal [10 ** 309] followed by [:00], a clock string whose hours
    do not fit a float. *)
Definition huge_clock : string := String "1" (repeat_char "0" 309) ++ ":00".

(** One hour written with 4300 zeros in front: ['0' * 4300 + '1:00']. *)
Definition padded_clock : string :=
  repeat_char "0" (N.to_nat 4300) ++ "1:00".

(** What is left of a string cell when the parser looks at it:
    [str(v).strip().replace(',', '.')]. *)
Definition cleaned (s : string) : string :=
  PyStr.replace "," "." (PyStr.strip s).

(** ** The sniffer in words

    [last_with_norm cols k] is the last column whose normalized name is
    [k]; [first_with_norm] the first one. *)

Definition norm_is (k : string) (c : string) : bool :=
  String.eqb (normalize_col c) k.

Definition last_with_norm (cols : list string) (k : string) : option string :=
  find (norm_is k) (rev cols).

Definition first_with_norm (cols : list string) (k : string) : option string :=
  find (norm_is k) cols.

Definition first_like (cols : list string) : option string :=
  find (fun c => duration_like (normalize_col c)) cols.

(** The exact-match stage over a pick of the column for a candidate. *)
Fixpoint first_exact (pick : string -> option string) (cands : list string)
  : option string :=
  match cands with
  | [] => None
  | k :: ks =>
      match pick k with
      | Some c => Some c
      | None => first_exact pick ks
      end
  end.

(** What the code computes: on a name that several columns normalize to,
    the last of them answers. *)
Definition sniff_duration (cols : list string) : option string :=
  match first_exact (last_with_norm cols) duration_candidates with
  | Some c => Some c
  | None =>
      match first_like cols with
      | Some c0 => last_with_norm cols (normalize_col c0)
      | None => None
      end
  end.

(** The sniffer as the specification words it: the second stage answers
    with the first duration-like column itself. *)
Definition sniff_duration_stated (cols : list string) : option string :=
  match first_exact (first_with_norm cols) duration_candidates with
  | Some c => Some c
  | None => first_like cols
  end.

(** A dict after a run of assignments [d[k] = v]. *)
Definition dict_update_all {V : Type} (d : dict V) (ups : list (string * V))
  : dict V :=
  fold_left (fun d kv => dict_set d (fst kv) (snd kv)) ups d.

Definition key_is {V : Type} (k : string) (kv : string * V) : bool :=
  String.eqb (fst kv) k.

(** ** Orders *)

(** The order of [sorted(l, key=f)]: [x] may stand before [y] when the key
    of [y] is not below the key of [x]; on labels, with [month_sort_key]. *)
Definition may_precede {A K : Type} (ltb : K -> K -> bool) (f : A -> K)
    (x y : A) : Prop :=
  ltb (f y) (f x) = false.

Definition label_le : string -> string -> Prop :=
  may_precede key_ltb month_sort_key.

(** A label the orderer does not recognize: it is empty, or it is neither
    of the form year-month nor holds a month name among its tokens. *)
Definition label_tokens (name : string) : list string :=
  PyStr.split_on is_label_sep (PyStr.lower (PyStr.strip name)).

Definition unrecognized (name : string) : Prop :=
  name = EmptyString
  \/ (match_year_month (PyStr.strip name) = None
      /\ first_month (label_tokens name) = None).

(** ** What a file contributes

    [file_record read d fname] is the label and the record that the file
    [fname] of the folder [d] adds to [month_totals], if it adds one, for
    an aggregator that reads frames with [read]. *)

Section FileRecord.
Variable series_sum : list F64.float -> F64.float.
Variable read : project_dir -> string -> result DataFrame.

Definition file_record (d : project_dir) (fname : string)
  : option (string * MonthRecord) :=
  if is_csv_name fname then
    match read d fname with
    | Ok df =>
        match rows df, find_duration_column (columns df) with
        | _ :: _, Some duration_col =>
            Some (splitext_stem fname,
                  month_record series_sum df duration_col)
        | _, _ => None
        end
    | Raise _ => None
    end
  else None.

(** The assignments to [month_totals] that a run over [names] makes, in
    order. *)
Definition folder_records (d : project_dir) (names : list string)
  : list (string * MonthRecord) :=
  flat_map (fun fname =>
              match file_record d fname with
              | Some kr => [kr]
              | None => []
              end) names.
End FileRecord.

(** The hours of a row and its description, as the record keeps them;
    [row] is a row of the frame for the total and a row of [iterrows] for
    the entries. *)
Definition row_hours (df : DataFrame) (duration_col : string)
    (row : list value) : F64.float :=
  parse_duration_value (row_get (columns df) row duration_col).

Definition row_description (df : DataFrame) (row : list value) : value :=
  match find_description_column (columns df) with
  | Some c => row_get (columns df) row c
  | None => VStr ""
  end.

(** ** Sample data *)

Definition f2_5 : F64.float := Eval vm_compute in F64.of_ratio false 5 2.
Definition f5 : F64.float := Eval vm_compute in F64.of_Z 5.
Definition f6_75 : F64.float := Eval vm_compute in F64.of_ratio false 27 4.
Definition f8_25 : F64.float := Eval vm_compute in F64.of_ratio false 33 4.
Definition f10_5 : F64.float := Eval vm_compute in F64.of_ratio false 21 2.
Definition f15_5 : F64.float := Eval vm_compute in F64.of_ratio false 31 2.

(** A month file: a clock value, a decimal, a negative adjustment and a
    missing cell; the hours sum to 8.25. *)
Definition sample_frame : DataFrame :=
  {| columns := ["Start Date"; "Duration (h)"; "Description"];
     dtypes := [DObject; DObject; DObject];
     rows := [ [VStr "2024-01-02"; VStr "02:30"; VStr "design"];
               [VStr "2024-01-03"; VStr "6.75"; VStr "review"];
               [VStr "2024-01-04"; VStr "-1"; VStr "correction"];
               [VStr "2024-01-05"; VFloat nan; VStr "holiday"] ] |}.

Definition small_frame : DataFrame :=
  {| columns := ["Hours"];
     dtypes := [DInt64];
     rows := [ [VInt 5] ] |}.

(** A file of booleans alone: [Hours] with the rows [True] and [False]. *)
Definition flags_frame : DataFrame :=
  {| columns := ["Hours"];
     dtypes := [DBool];
     rows := [ [VBool true]; [VBool false] ] |}.

(** Twenty minutes: the hours 0.3333333333333333 round to 0.33. *)
Definition third_frame : DataFrame :=
  {| columns := ["Duration"; "Description"];
     dtypes := [DObject; DObject];
     rows := [ [VStr "00:20"; VStr "call"] ] |}.

(** A file of numbers alone: the hours as floats, the notes as ints. *)
Definition numbers_frame : DataFrame :=
  {| columns := ["Hours"; "Note"];
     dtypes := [DFloat64; DInt64];
     rows := [ [VFloat f2_5; VInt 1] ] |}.

(** A file of ints alone. *)
Definition counts_frame : DataFrame :=
  {| columns := ["Hours"; "Note"];
     dtypes := [DInt64; DInt64];
     rows := [ [VInt 2; VInt 7] ] |}.

(** A column of booleans beside a column of ints. *)
Definition flag_count_frame : DataFrame :=
  {| columns := ["Hours"; "Items"];
     dtypes := [DBool; DInt64];
     rows := [ [VBool true; VInt 3] ] |}.

Definition f1 : F64.float := Eval vm_compute in F64.of_Z 1.
Definition f2 : F64.float := Eval vm_compute in F64.of_Z 2.
Definition f0_33 : F64.float := Eval vm_compute in F64.of_ratio false 33 100.
Definition f1_3 : F64.float := Eval vm_compute in F64.of_ratio false 1 3.

(** A folder with the twenty-minute file alone. *)
Definition third_folder : project_dir :=
  [ ("Mar_2024.csv", File (Ok third_frame) (Ok third_frame)) ].

Definition decode_error : exn := ReadError "codec can't decode byte".

(** Project [ProjectA] with a readable January file and an unreadable
    February file, beside a plain file and a hidden folder. *)
Definition sample_root : root_dir :=
  [ ("notes.txt", Plain);
    ("ProjectA",
     Project [ ("Jan_2024.csv", File (Ok sample_frame) (Ok sample_frame));
               ("Feb_2024.csv", File (Raise decode_error) (Raise decode_error));
               ("readme.md", File (Ok small_frame) (Ok small_frame)) ]);
    (".git", Project []) ].

(** A folder whose one file reads under Latin-1 only. *)
Definition latin1_folder : project_dir :=
  [ ("Jan_2024.csv", File (Raise decode_error) (Ok sample_frame)) ].

(** A folder with two files of the same stem. *)
Definition twin_folder : project_dir :=
  [ ("Jan.csv", File (Ok sample_frame) (Ok sample_frame));
    ("Jan.CSV", File (Ok small_frame) (Ok small_frame)) ].

(** The month records of the round-trip example of the specification. *)
Definition sample_months : dict MonthRecord :=
  [ ("Jan_2024", {| total := f10_5; entries := [] |});
    ("Feb_2024", {| total := f5; entries := [] |}) ].

Definition full_name_months : dict MonthRecord :=
  [ ("January_2024", {| total := f10_5; entries := [] |});
    ("February_2024", {| total := f5; entries := [] |}) ].

(** ** What the sink keeps

    The title asked for a project, and the value a cell keeps of a value
    that the sink accepts. *)

Definition asked_title (item : string) : string :=
  Openpyxl.title_or_default (substring 0 31 item).

Definition valid_title (t : string) : bool :=
  negb (PyStr.has_char Openpyxl.is_invalid_title_char t).

Definition kept_value (v : value) : value :=
  match v with
  | VStr s => VStr (substring 0 Openpyxl.max_cell_length s)
  | _ => v
  end.

Definition kept_rows (content : list (list value)) : list (list value) :=
  map (map kept_value) content.

Definition legal_value (v : value) : bool :=
  match v with
  | VStr s =>
      negb (PyStr.has_char Openpyxl.is_illegal_char
              (substring 0 Openpyxl.max_cell_length s))
  | _ => true
  end.

Definition legal_rows (content : list (list value)) : bool :=
  forallb (forallb legal_value) content.

(** A sheet to make: the title passed to [create_sheet] and the rows
    appended to it.  [add_sheets] makes the sheets of a list of requests
    one after the other. *)
Definition request : Type := (string * list (list value))%type.

Definition add_sheets (wb : list sheet) (reqs : list request)
  : result (list sheet) :=
  foldM (fun w r => create_sheet w (fst r) (snd r)) reqs wb.

Definition request_title (r : request) : string :=
  Openpyxl.title_or_default (fst r).

Definition request_accepted (r : request) : bool :=
  (valid_title (request_title r) && legal_rows (snd r))%bool.

(** ** What a project contributes

    [project_months read root item] is the dict an aggregator that reads
    with [read] returns for the folder [item]; [yields_sheet] tells whether
    the workbook builder makes a sheet of it. *)

Section ProjectMonths.
Variable series_sum : list F64.float -> F64.float.
Variable read : project_dir -> string -> result DataFrame.

Definition project_months (root : root_dir) (item : string)
  : option (dict MonthRecord) :=
  match lookup root item with
  | Some (Project d) =>
      Some (dict_update_all []
              (folder_records series_sum read d (sorted_str (listdir d))))
  | _ => None
  end.

Definition months_or_empty (root : root_dir) (item : string)
  : dict MonthRecord :=
  match project_months root item with
  | Some mt => mt
  | None => []
  end.

Definition yields_sheet (root : root_dir) (item : string) : bool :=
  (isdir root item && negb (skipped_name item)
   && match months_or_empty root item with
      | [] => false
      | _ :: _ => true
      end)%bool.

(** The projects that get a sheet, in the order of their sheets. *)
Definition sheet_projects (root : root_dir) : list string :=
  filter (yields_sheet root) (sorted_str (listdir root)).

(** The rows handed to the sheet of a project, and the rows the sheet
    keeps of them. *)
Definition project_rows (root : root_dir) (item : string)
  : list (list value) :=
  sheet_rows (months_or_empty root item).

Definition project_cells (root : root_dir) (item : string)
  : list (list value) :=
  kept_rows (project_rows root item).

(** What the builder asks of the sink for a project. *)
Definition sheet_request (root : root_dir) (item : string) : request :=
  (substring 0 31 item, project_rows root item).

(** Title and rows of the sheet of a project whose title is taken as it
    is asked for. *)
Definition project_sheet (root : root_dir) (item : string)
  : string * list (list value) :=
  (asked_title item, project_cells root item).

Definition project_summary (root : root_dir) (item : string)
  : string * F64.float :=
  (item, grand_total (months_or_empty root item)).

(** The sink takes the sheet of a project whatever the other sheets are:
    the title asked for has no refused character, and no string of its
    rows a control character. *)
Definition sheet_accepted (root : root_dir) (item : string) : bool :=
  (valid_title (asked_title item) && legal_rows (project_rows root item))%bool.
End ProjectMonths.

Definition sheet_view (s : sheet) : string * list (list value) :=
  (title s, cells s).

(** The titles asked for are new to the workbook, one after the other:
    none is "Sheet" and no two are equal, letter case ignored. *)
Definition distinct_titles (items : list string) : Prop :=
  NoDup (map PyStr.lower ("Sheet" :: map asked_title items)).

(** The default sheet under its new name. *)
Definition nodata_sheet : sheet :=
  {| sid := 0; title := "NoData"; cells := [] |}.

(** The workbook at the end of a run whose loop asked for the sheets of
    [reqs]: the sink made them after the default sheet, and the last step
    took the default sheet out, or renamed it when it was alone. *)
Definition built_from (reqs : list request) (w : list sheet) : Prop :=
  exists created,
    add_sheets new_workbook reqs = Ok (default_sheet :: created)
    /\ Forall (fun s => (1 <= sid s)%nat) created
    /\ w = match created with
           | [] => [nodata_sheet]
           | _ :: _ => created
           end.

Definition twin_root : root_dir := [ ("Twins", Project twin_folder) ].

(** The record a label holds after a run over the files of a folder: the
    one assigned last. *)
Definition last_record (records : list (string * MonthRecord))
    (label : string) : option MonthRecord :=
  option_map snd (find (key_is label) (rev records)).

(** ** The rows of a sheet, block by block *)

Definition header_row : list value := [VStr "Month"; VStr "Total Hours"].

Definition month_block (mn : string) (r : MonthRecord) : list (list value) :=
  [VStr mn; VFloat (total r)]
    :: [VStr "Description"; VStr "Hours"]
    :: (map (fun e => [fst e; VFloat (snd e)]) (entries r) ++ [[]])%list.

Definition total_row (month_totals : dict MonthRecord) : list value :=
  [VStr "TOTAL";
   VFloat (F64.round2 (F64.sum (map total (dict_values month_totals))))].

(** ** Further notions used by the properties of the helpers *)

(** A character the column normalization keeps. *)
Definition kept_in_col (c : ascii) : bool := negb (is_col_noise c).

(** Python's [0.0 <= f]. *)
Definition at_least_zero (f : F64.float) : Prop :=
  SFleb F64.zero f = true.

(** Floats of positive sign: +0.0, the positive numbers and +inf. *)
Definition signless (f : F64.float) : Prop :=
  match f with
  | S754_zero false | S754_infinity false | S754_finite false _ _ => True
  | _ => False
  end.

(** The year and the month the orderer reads from a label, when it reads
    both: from the form year-month, or from a month name with a token of
    four digits that is not 0000. *)
Definition label_date (name : string) : option (Z * Z) :=
  if PyStr.nonempty name then
    match match_year_month (PyStr.strip name) with
    | Some ym => Some ym
    | None =>
        match first_month (label_tokens name),
              first_year (label_tokens name) with
        | Some mo, Some year => if year =? 0 then None else Some (year, mo)
        | _, _ => None
        end
    end
  else None.

(** A label of seven characters: four for the year, a separator, two for
    the month. *)
Definition year_month_label (y1 y2 y3 y4 sep m1 m2 : ascii) : string :=
  String y1 (String y2 (String y3 (String y4
    (String sep (String m1 (String m2 EmptyString)))))).

(** Equality of sort keys, [k1 == k2]. *)
Definition key_eqb (k1 k2 : sort_key) : bool :=
  (Z.eqb (fst k1) (fst k2) && String.eqb (snd k1) (snd k2))%bool.

(** The labels of a list that have the key [k], in list order. *)
Definition with_key (k : sort_key) (l : list string) : list string :=
  filter (fun x => key_eqb (month_sort_key x) k) l.

(** Kinds of log lines. *)
Definition is_ok_line (l : App.log_line) : bool :=
  match l with App.LogOk _ _ _ _ => true | _ => false end.

Definition is_processing_line (l : App.log_line) : bool :=
  match l with App.LogProcessing _ => true | _ => false end.

Definition is_no_months_line (l : App.log_line) : bool :=
  match l with App.LogNoMonths _ => true | _ => false end.

Definition count_lines (p : App.log_line -> bool)
    (l : list App.log_line) : nat :=
  List.length (filter p l).

(** A folder the builder examines: a directory whose name is not set
    aside. *)
Definition examined (root : root_dir) (item : string) : bool :=
  (isdir root item && negb (skipped_name item))%bool.

(** No file of the root is readable under Latin-1 only. *)
Definition no_latin1_rescue (root : root_dir) : Prop :=
  forall item d fname e,
    lookup root item = Some (Project d) ->
    read_csv d fname = Raise e ->
    exists e', read_csv_latin1 d fname = Raise e'.

(** A sheet and the summary of the same project agree: the last row
    carries the summary's total. *)
Definition sheet_matches_summary (s : sheet) (sm : string * F64.float)
  : Prop :=
  last (cells s) [] = [VStr "TOTAL"; VFloat (snd sm)].

(** Ascending order of strings, [a <= b]. *)
Definition str_le : string -> string -> Prop :=
  may_precede String.ltb (fun s => s).

(** A decimal literal from its digits: [ip] alone, or [ip.fp]. *)
Definition decimal_literal (ip fp : string) : string :=
  if PyStr.nonempty fp then ip ++ String "." fp else ip.

(** A character that stripping and the comma replacement leave alone. *)
Definition plain_char (c : ascii) : bool :=
  (negb (PyStr.is_space c) && negb (Ascii.eqb c ","))%bool.

(** [-f] *)
Definition float_neg (f : F64.float) : F64.float := SFopp f.

(** Three project folders with a month file each: two names that differ
    in letter case only, and the name of the default sheet. *)
Definition case_root : root_dir :=
  [ ("Proj", Project third_folder);
    ("proj", Project third_folder);
    ("Sheet", Project third_folder) ].

(** A project folder whose name holds characters that a sheet title may
    not hold. *)
Definition bracket_root : root_dir :=
  [ ("Site [old]", Project third_folder) ].

(** A month file with a control character (BEL) in a description. *)
Definition bell_frame : DataFrame :=
  {| columns := ["Duration"; "Description"];
     dtypes := [DObject; DObject];
     rows := [ [VStr "01:00"; VStr (String "007" "ring")] ] |}.

Definition bell_root : root_dir :=
  [ ("Alarm",
     Project [ ("Jan_2024.csv", File (Ok bell_frame) (Ok bell_frame)) ]) ].

(** A description of 32768 characters, one more than a cell holds. *)
Definition long_text : string := repeat_char "a" (N.to_nat 32768).

Definition long_frame : DataFrame :=
  {| columns := ["Duration"; "Description"];
     dtypes := [DObject; DObject];
     rows := [ [VStr "01:00"; VStr long_text] ] |}.

Definition long_root : root_dir :=
  [ ("Essay",
     Project [ ("Jan_2024.csv", File (Ok long_frame) (Ok long_frame)) ]) ].

(** The number of characters of a string cell, 0 for another cell. *)
Definition cell_size (v : value) : N :=
  match v with
  | VStr s => N.of_nat (String.length s)
  | _ => 0%N
  end.
(** * Properties *)

(** ** Strings *)

Lemma split_on_not_nil (sep : ascii -> bool) (s : string) :
  PyStr.split_on sep s <> [].
Proof.
  destruct s as [|c r]; simpl; [discriminate|].
  destruct (sep c); [discriminate|].
  destruct (PyStr.split_on sep r); discriminate.
Qed.

Lemma space_not_digit (c : ascii) :
  PyStr.is_space c = true -> PyStr.is_digit c = false.
Proof.
  unfold PyStr.is_space, PyStr.is_digit, PyStr.in_range.
  intros H.
  repeat (apply orb_true_iff in H; destruct H as [H|H]);
    try (apply andb_true_iff in H; destruct H as [H1 H2];
         apply Nat.leb_le in H1; apply Nat.leb_le in H2);
    try apply Nat.eqb_eq in H;
    apply andb_false_iff;
    destruct (Nat.leb_spec 48 (PyStr.code c)); auto;
    right; apply Nat.leb_gt; lia.
Qed.

Lemma space_not_colon (c : ascii) :
  PyStr.is_space c = true -> is_colon c = false.
Proof.
  intros H. unfold is_colon.
  destruct (Ascii.eqb_spec c ":") as [->|]; [discriminate H|reflexivity].
Qed.

Lemma digits_split_cons (c : ascii) (r : string) :
  map digits_of (PyStr.split_on is_colon (String c r))
  = cons_digits c (map digits_of (PyStr.split_on is_colon r)).
Proof.
  unfold cons_digits. simpl.
  destruct (is_colon c); [reflexivity|].
  destruct (PyStr.split_on is_colon r) as [|w ws] eqn:E.
  - exfalso. exact (split_on_not_nil _ _ E).
  - simpl. unfold digits_of at 1. simpl.
    destruct (PyStr.is_digit c); reflexivity.
Qed.

Lemma cons_digits_space (c : ascii) (l : list string) :
  PyStr.is_space c = true -> l <> [] -> cons_digits c l = l.
Proof.
  intros Hs Hl. unfold cons_digits.
  rewrite (space_not_colon _ Hs), (space_not_digit _ Hs).
  destruct l; [contradiction|reflexivity].
Qed.

Lemma map_split_not_nil (r : string) :
  map digits_of (PyStr.split_on is_colon r) <> [].
Proof.
  intros H. apply map_eq_nil in H. exact (split_on_not_nil _ _ H).
Qed.

Lemma digits_split_lstrip (s : string) :
  map digits_of (PyStr.split_on is_colon (PyStr.lstrip s))
  = map digits_of (PyStr.split_on is_colon s).
Proof.
  induction s as [|c r IH]; [reflexivity|].
  cbn [PyStr.lstrip].
  destruct (PyStr.is_space c) eqn:Hs; [|reflexivity].
  rewrite IH, digits_split_cons.
  symmetry. apply cons_digits_space; [assumption|apply map_split_not_nil].
Qed.

Lemma digits_split_rstrip (s : string) :
  map digits_of (PyStr.split_on is_colon (PyStr.rstrip s))
  = map digits_of (PyStr.split_on is_colon s).
Proof.
  induction s as [|c r IH]; [reflexivity|].
  cbn [PyStr.rstrip].
  rewrite (digits_split_cons c r), <- IH.
  destruct (PyStr.rstrip r) as [|c' r'] eqn:E.
  - destruct (PyStr.is_space c) eqn:Hs.
    + symmetry. apply cons_digits_space; [assumption|discriminate].
    + apply digits_split_cons.
  - apply digits_split_cons.
Qed.

Lemma digits_split_replace (s : string) :
  map digits_of (PyStr.split_on is_colon (PyStr.replace "," "." s))
  = map digits_of (PyStr.split_on is_colon s).
Proof.
  induction s as [|c r IH]; [reflexivity|].
  cbn [PyStr.replace].
  rewrite !digits_split_cons, IH.
  destruct (Ascii.eqb_spec c ",") as [->|]; reflexivity.
Qed.

Lemma digits_split_normalized (s : string) :
  map digits_of
    (PyStr.split_on is_colon (PyStr.replace "," "." (PyStr.strip s)))
  = map digits_of (PyStr.split_on is_colon s).
Proof.
  unfold PyStr.strip.
  rewrite digits_split_replace, digits_split_rstrip.
  apply digits_split_lstrip.
Qed.

Lemma digits_of_lstrip (p : string) : digits_of (PyStr.lstrip p) = digits_of p.
Proof.
  induction p as [|c r IH]; [reflexivity|].
  cbn [PyStr.lstrip].
  destruct (PyStr.is_space c) eqn:Hs; [|reflexivity].
  rewrite IH. unfold digits_of. simpl.
  rewrite (space_not_digit _ Hs). reflexivity.
Qed.

Lemma digits_of_rstrip (p : string) : digits_of (PyStr.rstrip p) = digits_of p.
Proof.
  induction p as [|c r IH]; [reflexivity|].
  cbn [PyStr.rstrip].
  assert (Hc : forall t, digits_of (String c t)
                 = if PyStr.is_digit c then String c (digits_of t)
                   else digits_of t).
  { intros t. unfold digits_of. simpl.
    destruct (PyStr.is_digit c); reflexivity. }
  rewrite (Hc r), <- IH.
  destruct (PyStr.rstrip r) as [|c' r'] eqn:E.
  - destruct (PyStr.is_space c) eqn:Hs.
    + rewrite (space_not_digit _ Hs). reflexivity.
    + apply Hc.
  - apply Hc.
Qed.

Lemma segment_value_clock (p : string) :
  segment_value p
  = if too_many_digits p then Raise ValueError else Ok (clock_segment p).
Proof.
  unfold segment_value, clock_segment, too_many_digits, PyStr.strip,
    PyStr.to_int.
  fold (digits_of (PyStr.rstrip (PyStr.lstrip p))).
  rewrite digits_of_rstrip, digits_of_lstrip.
  destruct (digits_of p) as [|c r]; [reflexivity|].
  cbn [PyStr.nonempty]. reflexivity.
Qed.

(** Reading the pieces in order: the first piece with too many digits
    raises, otherwise every piece gives its int. *)
Lemma mapM_segment_value (l : list string) :
  mapM segment_value l
  = if existsb too_many_digits l then Raise ValueError
    else Ok (map clock_segment l).
Proof.
  induction l as [|p l IH]; [reflexivity|].
  cbn [mapM existsb map]. rewrite segment_value_clock.
  destruct (too_many_digits p); [reflexivity|].
  cbn [bind orb]. rewrite IH.
  destruct (existsb too_many_digits l); reflexivity.
Qed.

Lemma too_many_digits_map (l l' : list string) :
  map digits_of l = map digits_of l' ->
  existsb too_many_digits l = existsb too_many_digits l'.
Proof.
  revert l'. induction l as [|p l IH]; intros [|p' l'] H; simpl in H;
    try discriminate; [reflexivity|].
  inversion H as [[Hp Hl]]. cbn [existsb].
  rewrite (IH _ Hl). unfold too_many_digits. rewrite Hp. reflexivity.
Qed.

Lemma clock_segments_digits (l : list string) :
  map clock_segment l = map digits_value (map digits_of l).
Proof. rewrite map_map. reflexivity. Qed.

Lemma has_colon_split (s : string) :
  PyStr.has_char is_colon s
  = Nat.leb 2 (List.length (PyStr.split_on is_colon s)).
Proof.
  induction s as [|c r IH]; [reflexivity|].
  simpl. destruct (is_colon c); simpl.
  - destruct (PyStr.split_on is_colon r) eqn:E; [|reflexivity].
    exfalso. exact (split_on_not_nil _ _ E).
  - rewrite IH.
    destruct (PyStr.split_on is_colon r) as [|w ws] eqn:E.
    + exfalso. exact (split_on_not_nil _ _ E).
    + reflexivity.
Qed.

Lemma span_spec (p : ascii -> bool) (s a b : string) :
  PyStr.span p s = (a, b) -> s = a ++ b /\ PyStr.all_chars p a = true.
Proof.
  revert a b. induction s as [|c r IH]; intros a b H; simpl in H.
  - inversion H. split; reflexivity.
  - destruct (p c) eqn:Hp.
    + destruct (PyStr.span p r) as [a' b'] eqn:E.
      inversion H; subst. destruct (IH a' b eq_refl) as [-> Ha].
      split; [reflexivity|]. simpl. rewrite Hp. exact Ha.
    + inversion H; subst. split; reflexivity.
Qed.

Lemma has_char_app (p : ascii -> bool) (a b : string) :
  PyStr.has_char p (a ++ b) = (PyStr.has_char p a || PyStr.has_char p b)%bool.
Proof.
  induction a as [|c r IH]; [reflexivity|].
  simpl. rewrite IH. apply orb_assoc.
Qed.

Lemma digits_no_colon (a : string) :
  PyStr.all_chars PyStr.is_digit a = true -> PyStr.has_char is_colon a = false.
Proof.
  induction a as [|c r IH]; [reflexivity|].
  simpl. intros H. apply andb_true_iff in H. destruct H as [Hc Hr].
  rewrite (IH Hr), orb_false_r.
  unfold is_colon. destruct (Ascii.eqb_spec c ":") as [->|]; [|reflexivity].
  discriminate Hc.
Qed.

(** A string that is a decimal literal holds no colon. *)
Lemma match_decimal_no_colon (s : string) (g : bool * string * string) :
  match_decimal s = Some g -> PyStr.has_char is_colon s = false.
Proof.
  unfold match_decimal.
  set (sb := match s with
             | String c r =>
                 if is_sign c then (Ascii.eqb c "-", r) else (false, s)
             | EmptyString => (false, s)
             end).
  assert (Hs : PyStr.has_char is_colon s = PyStr.has_char is_colon (snd sb)).
  { subst sb. destruct s as [|c r]; [reflexivity|].
    destruct (is_sign c) eqn:Hc; [|reflexivity].
    simpl. unfold is_sign in Hc. unfold is_colon.
    destruct (Ascii.eqb_spec c ":") as [->|]; [discriminate Hc|reflexivity]. }
  destruct sb as [neg body]. simpl in Hs. rewrite Hs. clear Hs.
  destruct (PyStr.span PyStr.is_digit body) as [ip rest] eqn:E.
  destruct (span_spec _ _ _ _ E) as [-> Hip].
  rewrite has_char_app, (digits_no_colon _ Hip). simpl.
  destruct (PyStr.nonempty ip); [|discriminate].
  destruct rest as [|c fp]; [reflexivity|].
  destruct (Ascii.eqb_spec c ".") as [->|]; simpl; [|discriminate].
  destruct (PyStr.nonempty fp); simpl; [|discriminate].
  destruct (PyStr.all_chars PyStr.is_digit fp) eqn:Hfp; [|discriminate].
  intros _. apply digits_no_colon. exact Hfp.
Qed.

(** The clock branch of the parser computes what the specification says,
    unless a piece has too many digits for [int]. *)
Lemma parse_clock_form (s : string) :
  PyStr.has_char is_colon s = true ->
  parse_duration_try (VStr s)
  = if clock_unreadable s then Raise ValueError else clock_spec s.
Proof.
  intros Hc.
  unfold parse_duration_try. cbn [is_number py_str].
  set (s' := PyStr.replace "," "." (PyStr.strip s)).
  assert (Hd : map digits_of (PyStr.split_on is_colon s')
               = map digits_of (PyStr.split_on is_colon s))
    by apply digits_split_normalized.
  assert (Hl : List.length (PyStr.split_on is_colon s')
               = List.length (PyStr.split_on is_colon s)).
  { rewrite <- (length_map digits_of), Hd. apply length_map. }
  assert (Hc' : PyStr.has_char is_colon s' = true).
  { rewrite has_colon_split, Hl, <- has_colon_split. exact Hc. }
  destruct (match_decimal s') as [g|] eqn:Em.
  { apply match_decimal_no_colon in Em. congruence. }
  rewrite Hc'.
  assert (Hf : map digits_of (firstn 3 (PyStr.split_on is_colon s'))
               = map digits_of (firstn 3 (PyStr.split_on is_colon s))).
  { rewrite <- !firstn_map, Hd. reflexivity. }
  rewrite mapM_segment_value.
  unfold clock_unreadable. rewrite (too_many_digits_map _ _ Hf).
  destruct (existsb too_many_digits _); [reflexivity|].
  assert (Hn : map clock_segment (firstn 3 (PyStr.split_on is_colon s'))
               = map clock_segment (firstn 3 (PyStr.split_on is_colon s))).
  { rewrite !clock_segments_digits, Hf. reflexivity. }
  rewrite Hn. unfold clock_spec. cbn [bind].
  rewrite has_colon_split in Hc. apply Nat.leb_le in Hc.
  destruct (PyStr.split_on is_colon s) as [|a [|b [|c rest]]];
    simpl in Hc; try lia; reflexivity.
Qed.

(** ** Duration Parser *)

Lemma parse_value_of_py (v : value) (f : F64.float) :
  parse_duration_value_py v = Ok f -> parse_duration_value v = f.
Proof. unfold parse_duration_value. intros ->. reflexivity. Qed.

Lemma parse_py_total (v : value) :
  parse_duration_value_py v = Ok (parse_duration_value v).
Proof.
  unfold parse_duration_value, parse_duration_value_py.
  destruct (pd_isna v); [reflexivity|].
  destruct (parse_duration_try v); reflexivity.
Qed.

Lemma parse_of_try_ok (v : value) (f : F64.float) :
  pd_isna v = false -> parse_duration_try v = Ok f ->
  parse_duration_value v = f.
Proof.
  intros Hn Ht. apply parse_value_of_py.
  unfold parse_duration_value_py. rewrite Hn, Ht. reflexivity.
Qed.

Lemma parse_of_try_raise (v : value) (e : exn) :
  parse_duration_try v = Raise e -> parse_duration_value v = F64.zero.
Proof.
  intros Ht. apply parse_value_of_py.
  unfold parse_duration_value_py. rewrite Ht.
  destruct (pd_isna v); reflexivity.
Qed.

Lemma parse_of_isna (v : value) :
  pd_isna v = true -> parse_duration_value v = F64.zero.
Proof.
  intros Hn. apply parse_value_of_py.
  unfold parse_duration_value_py. rewrite Hn. reflexivity.
Qed.

(** An int too large for a float is turned into 0.0 by the handler, on its
    own and as the hours of a clock string. *)
Lemma parse_overflow_examples :
  py_float (VInt (2 ^ 1024)) = Raise OverflowError
  /\ parse_duration_value (VInt (2 ^ 1024)) = F64.zero
  /\ clock_spec huge_clock = Raise OverflowError
  /\ parse_duration_value (VStr huge_clock) = F64.zero.
Proof. vm_compute. repeat split. Qed.

(** C2, the statement as written fails: NaN is a float, [float(NaN)] is
    NaN, and the parser returns 0.0 for it (the [pd.isna] test comes
    first); so [parse(x) == float(x)] does not hold for every numeric
    [x].  It fails on the clock form too: ['0' * 4300 + '1:00'] is one
    hour by the formula, [int] refuses its 4301 digits, and the parser
    returns 0.0. *)
Lemma C2_counterexample :
  is_number (VFloat nan) = true
  /\ py_float (VFloat nan) = Ok nan
  /\ parse_duration_value (VFloat nan) = F64.zero
  /\ float_eq (parse_duration_value (VFloat nan)) nan = false
  /\ ~ (forall x, is_number x = true ->
          exists f, py_float x = Ok f
                    /\ float_eq (parse_duration_value x) f = true)
  /\ PyStr.has_char is_colon padded_clock = true
  /\ clock_spec padded_clock = Ok (F64.of_Z 1)
  /\ parse_duration_value (VStr padded_clock) = F64.zero
  /\ ~ (forall s, PyStr.has_char is_colon s = true ->
          exists f, clock_spec s = Ok f
                    /\ float_eq (parse_duration_value (VStr s)) f = true).
Proof.
  assert (Hp : PyStr.has_char is_colon padded_clock = true
               /\ clock_spec padded_clock = Ok (F64.of_Z 1)
               /\ parse_duration_value (VStr padded_clock) = F64.zero)
    by (vm_compute; repeat split).
  destruct Hp as (Hcol & Hc & Hv).
  split; [reflexivity|]. split; [reflexivity|]. split; [reflexivity|].
  split; [reflexivity|]. split.
  { intros H. destruct (H (VFloat nan) eq_refl) as [f [Hf He]].
    inversion Hf; subst f. discriminate He. }
  split; [exact Hcol|]. split; [exact Hc|]. split; [exact Hv|].
  intros H. destruct (H padded_clock Hcol) as [f [Hf He]].
  rewrite Hc in Hf. inversion Hf; subst f. rewrite Hv in He.
  discriminate He.
Qed.

(** C2 (amended): the seven examples hold; for a numeric input that is not
    NaN and that [float] accepts, the parser returns [float(x)]; NaN and an
    int too large for a float give 0.0; for a string with a colon the
    result is hours + minutes/60 + seconds/3600 over the digits of at most
    the first three pieces (an empty piece is 0), in float arithmetic, and
    0.0 when one of these pieces has more than 4300 digits or one of the
    three ints is too large for a float. *)
Theorem C2_parse_duration_value :
  (parse_duration_value (VStr "90") = F64.of_Z 90
   /\ parse_duration_value (VStr "1,5") = F64.of_ratio false 3 2
   /\ parse_duration_value (VStr "02:30") = F64.of_ratio false 5 2
   /\ parse_duration_value (VStr "01:30:00") = F64.of_ratio false 3 2
   /\ parse_duration_value (VStr "") = F64.zero
   /\ parse_duration_value VNone = F64.zero
   /\ parse_duration_value (VStr "garbage") = F64.zero)
  /\ (forall x f, is_number x = true -> pd_isna x = false ->
        py_float x = Ok f -> parse_duration_value x = f)
  /\ (forall x, is_number x = true -> pd_isna x = true ->
        parse_duration_value x = F64.zero)
  /\ (forall x e, is_number x = true -> py_float x = Raise e ->
        parse_duration_value x = F64.zero)
  /\ (forall s, PyStr.has_char is_colon s = true ->
        parse_duration_value (VStr s)
        = if clock_unreadable s then F64.zero
          else match clock_spec s with
               | Ok f => f
               | Raise _ => F64.zero
               end)
  /\ (clock_unreadable padded_clock = true
      /\ parse_duration_value (VStr padded_clock) = F64.zero
      /\ clock_unreadable huge_clock = false
      /\ clock_spec huge_clock = Raise OverflowError
      /\ parse_duration_value (VStr huge_clock) = F64.zero).
Proof.
  split; [vm_compute; repeat split|].
  split.
  { intros x f Hx Hn Hf. apply parse_of_try_ok; [exact Hn|].
    unfold parse_duration_try. rewrite Hx. exact Hf. }
  split.
  { intros x _ Hn. apply parse_of_isna. exact Hn. }
  split.
  { intros x e Hx Hf. apply (parse_of_try_raise x e).
    unfold parse_duration_try. rewrite Hx. exact Hf. }
  split; [|vm_compute; repeat split].
  intros s Hc.
  pose proof (parse_clock_form s Hc) as Ht.
  destruct (clock_unreadable s).
  { apply (parse_of_try_raise _ ValueError). exact Ht. }
  destruct (clock_spec s) as [f|e].
  - apply parse_of_try_ok; [reflexivity|exact Ht].
  - apply (parse_of_try_raise _ e). exact Ht.
Qed.

Lemma C2_witness :
  parse_duration_value (VInt 7) = F64.of_Z 7
  /\ parse_duration_value (VNpFloat f2_5) = f2_5
  /\ parse_duration_value (VFloat nan) = F64.zero
  /\ parse_duration_value (VInt (2 ^ 1024)) = F64.zero
  /\ parse_duration_value (VStr " 1:30 pm") = F64.of_ratio false 3 2.
Proof.
  destruct C2_parse_duration_value as (_ & Hnum & Hnan & Hbig & Hclock & _).
  split; [apply Hnum; vm_compute; reflexivity|].
  split; [apply Hnum; vm_compute; reflexivity|].
  split; [apply Hnan; reflexivity|].
  split; [apply (Hbig _ OverflowError); vm_compute; reflexivity|].
  rewrite Hclock by reflexivity. vm_compute. reflexivity.
Defined.

(** C6: on every cell value the parser returns a float and raises
    nothing; a missing value, a string that is neither a decimal literal nor
    a clock form, and any input on which the body raises, give 0.0. *)
Theorem C6_parse_total (v : value) :
  (exists f, parse_duration_value_py v = Ok f)
  /\ (pd_isna v = true -> parse_duration_value_py v = Ok F64.zero)
  /\ (forall e, parse_duration_try v = Raise e ->
        parse_duration_value_py v = Ok F64.zero)
  /\ (forall s, v = VStr s -> match_decimal (cleaned s) = None ->
        PyStr.has_char is_colon (cleaned s) = false ->
        parse_duration_value_py v = Ok F64.zero).
Proof.
  split; [eexists; apply parse_py_total|].
  split.
  { intros Hn. unfold parse_duration_value_py. rewrite Hn. reflexivity. }
  split.
  { intros e He. unfold parse_duration_value_py. rewrite He.
    destruct (pd_isna v); reflexivity. }
  intros s -> Hm Hc.
  unfold parse_duration_value_py, parse_duration_try.
  cbn [pd_isna is_number py_str]. fold (cleaned s). rewrite Hm, Hc.
  reflexivity.
Qed.

Lemma C6_witness :
  parse_duration_value_py VNone = Ok F64.zero
  /\ parse_duration_value_py (VStr huge_clock) = Ok F64.zero
  /\ parse_duration_value_py (VStr "garbage") = Ok F64.zero.
Proof.
  split; [apply (C6_parse_total VNone); reflexivity|].
  split.
  - apply (C6_parse_total (VStr huge_clock)) with (e := OverflowError).
    vm_compute. reflexivity.
  - apply (C6_parse_total (VStr "garbage")) with (s := "garbage");
      reflexivity.
Defined.

(** ** Dicts *)

Section DictFacts.
Context {V : Type}.
Implicit Types (d : dict V) (k : string) (v : V).

Lemma dict_get_set d k v k' :
  dict_get (dict_set d k v) k'
  = if String.eqb k k' then Some v else dict_get d k'.
Proof.
  induction d as [|[k0 v0] d IH]; simpl.
  - reflexivity.
  - destruct (String.eqb_spec k0 k) as [->|Hne]; simpl.
    + destruct (String.eqb k k'); reflexivity.
    + rewrite IH.
      destruct (String.eqb_spec k0 k') as [->|]; [|reflexivity].
      destruct (String.eqb_spec k k') as [->|]; [contradiction|reflexivity].
Qed.

(** Assigning twice to a key is assigning the second value alone. *)
Lemma dict_set_set d k v1 v2 :
  dict_set (dict_set d k v1) k v2 = dict_set d k v2.
Proof.
  induction d as [|[k0 v0] d IH]; simpl.
  - rewrite String.eqb_refl. reflexivity.
  - destruct (String.eqb_spec k0 k) as [->|Hne]; simpl.
    + rewrite String.eqb_refl. reflexivity.
    + destruct (String.eqb_spec k0 k) as [E|_]; [contradiction|].
      rewrite IH. reflexivity.
Qed.

Lemma dict_get_in_keys d k :
  In k (dict_keys d) <-> dict_get d k <> None.
Proof.
  induction d as [|[k0 v0] d IH]; simpl.
  - split; [contradiction|congruence].
  - destruct (String.eqb_spec k0 k) as [->|Hne].
    + split; [discriminate|auto].
    + rewrite <- IH. split; [intros [?|?]; [contradiction|assumption]|auto].
Qed.

Lemma dict_keys_set d k v :
  dict_keys (dict_set d k v)
  = match dict_get d k with
    | Some _ => dict_keys d
    | None => (dict_keys d ++ [k])%list
    end.
Proof.
  induction d as [|[k0 v0] d IH]; simpl.
  - reflexivity.
  - destruct (String.eqb_spec k0 k) as [->|Hne]; simpl.
    + reflexivity.
    + rewrite IH. destruct (dict_get d k); reflexivity.
Qed.

(** The keys of a dict stay distinct under assignment. *)
Lemma dict_set_NoDup d k v :
  NoDup (dict_keys d) -> NoDup (dict_keys (dict_set d k v)).
Proof.
  intros Hd. rewrite dict_keys_set.
  destruct (dict_get d k) eqn:E; [exact Hd|].
  apply NoDup_app; [exact Hd|repeat constructor; simpl; tauto|].
  intros x Hx [<-|[]]. apply dict_get_in_keys in Hx. congruence.
Qed.

Lemma dict_update_all_NoDup d (ups : list (string * V)) :
  NoDup (dict_keys d) -> NoDup (dict_keys (dict_update_all d ups)).
Proof.
  revert d. induction ups as [|u ups IH]; intros d Hd; simpl; [exact Hd|].
  apply IH, dict_set_NoDup, Hd.
Qed.

Lemma find_app {A : Type} (p : A -> bool) (l1 l2 : list A) :
  find p (l1 ++ l2)
  = match find p l1 with
    | Some x => Some x
    | None => find p l2
    end.
Proof.
  induction l1 as [|a l1 IH]; simpl; [reflexivity|].
  destruct (p a); [reflexivity|exact IH].
Qed.

(** After a run of assignments a key holds the value assigned last, or
    what it held before when the run does not touch it. *)
Lemma dict_get_update_all d (ups : list (string * V)) k :
  dict_get (dict_update_all d ups) k
  = match find (key_is k) (rev ups) with
    | Some kv => Some (snd kv)
    | None => dict_get d k
    end.
Proof.
  revert d. induction ups as [|u ups IH]; intros d; simpl; [reflexivity|].
  unfold dict_update_all in IH |- *. simpl.
  rewrite IH, find_app. simpl.
  destruct (find (key_is k) (rev ups)); [reflexivity|].
  rewrite dict_get_set. unfold key_is.
  destruct (String.eqb (fst u) k); reflexivity.
Qed.

(** The first key with a property, after a run of assignments: an old
    key if one has it, else the first assigned key that has it. *)
Lemma find_keys_update_all (p : string -> bool) d (ups : list (string * V)) :
  find p (dict_keys (dict_update_all d ups))
  = match find p (dict_keys d) with
    | Some n => Some n
    | None => find p (map fst ups)
    end.
Proof.
  revert d. induction ups as [|u ups IH]; intros d.
  - simpl. destruct (find p (dict_keys d)); reflexivity.
  - unfold dict_update_all in IH |- *. simpl. rewrite IH, dict_keys_set.
    destruct (dict_get d (fst u)) eqn:E.
    + destruct (find p (dict_keys d)) eqn:F; [reflexivity|].
      assert (Hin : In (fst u) (dict_keys d))
        by (apply dict_get_in_keys; congruence).
      rewrite (find_none _ _ F _ Hin). reflexivity.
    + rewrite find_app. simpl.
      destruct (find p (dict_keys d)); [reflexivity|].
      destruct (p (fst u)); reflexivity.
Qed.
End DictFacts.

(** ** Column Sniffer *)

Lemma find_map {A B : Type} (p : B -> bool) (g : A -> B) (l : list A) :
  find p (map g l) = option_map g (find (fun x => p (g x)) l).
Proof.
  induction l as [|a l IH]; simpl; [reflexivity|].
  destruct (p (g a)); [reflexivity|exact IH].
Qed.

Lemma norm_to_orig_updates (cols : list string) :
  norm_to_orig cols
  = dict_update_all [] (map (fun c => (normalize_col c, c)) cols).
Proof.
  unfold norm_to_orig, dict_update_all.
  generalize (@nil (string * string)).
  induction cols as [|c cols IH]; intros d; simpl; [reflexivity|].
  apply IH.
Qed.

(** The dict of the sniffer maps a normalized name to the last column
    that has it. *)
Lemma norm_to_orig_get (cols : list string) (k : string) :
  dict_get (norm_to_orig cols) k = last_with_norm cols k.
Proof.
  rewrite norm_to_orig_updates, dict_get_update_all, <- map_rev, find_map.
  unfold last_with_norm, norm_is, key_is. simpl.
  destruct (find _ (rev cols)); reflexivity.
Qed.

Lemma first_candidate_exact (cands : list string) (d : dict string) :
  first_candidate cands d = first_exact (dict_get d) cands.
Proof. induction cands as [|k ks IH]; simpl; [|rewrite IH]; reflexivity. Qed.

Lemma first_exact_ext (p q : string -> option string) (cands : list string) :
  (forall k, p k = q k) -> first_exact p cands = first_exact q cands.
Proof.
  intros H. induction cands as [|k ks IH]; simpl; [reflexivity|].
  rewrite H, IH. reflexivity.
Qed.

Lemma first_duration_like_keys (d : dict string) :
  first_duration_like d
  = match find duration_like (dict_keys d) with
    | Some n => dict_get d n
    | None => None
    end.
Proof.
  induction d as [|[n o] d IH]; simpl; [reflexivity|].
  destruct (duration_like n) eqn:Hn.
  - rewrite String.eqb_refl. reflexivity.
  - rewrite IH. destruct (find duration_like (dict_keys d)) as [n'|] eqn:F;
      [|reflexivity].
    apply find_some in F. destruct F as [_ Hn'].
    destruct (String.eqb_spec n n') as [->|]; [congruence|reflexivity].
Qed.

Lemma first_like_key (cols : list string) :
  find duration_like (dict_keys (norm_to_orig cols))
  = option_map normalize_col (first_like cols).
Proof.
  rewrite norm_to_orig_updates, find_keys_update_all. simpl.
  rewrite map_map. simpl. apply find_map.
Qed.

(** The sniffer of the sources computes [sniff_duration]. *)
Lemma find_duration_column_spec (cols : list string) :
  find_duration_column cols = sniff_duration cols.
Proof.
  unfold find_duration_column, sniff_duration.
  rewrite first_candidate_exact.
  rewrite (first_exact_ext _ _ _ (norm_to_orig_get cols)).
  destruct (first_exact _ _); [reflexivity|].
  rewrite first_duration_like_keys, first_like_key.
  destruct (first_like cols); simpl; [apply norm_to_orig_get|reflexivity].
Qed.

Lemma NoDup_map_inj {A B : Type} (f : A -> B) (l : list A) (x y : A) :
  NoDup (map f l) -> In x l -> In y l -> f x = f y -> x = y.
Proof.
  induction l as [|a l IH]; simpl; [contradiction|].
  intros Hnd Hx Hy Hf. inversion Hnd as [|? ? Hna Hnd']; subst.
  destruct Hx as [->|Hx], Hy as [->|Hy]; auto.
  - exfalso. apply Hna. rewrite Hf. apply in_map, Hy.
  - exfalso. apply Hna. rewrite <- Hf. apply in_map, Hx.
Qed.

(** With distinct normalized names there is one column per name, so the
    last and the first with a given name are the same. *)
Lemma last_with_norm_unique (cols : list string) (k : string) :
  NoDup (map normalize_col cols) ->
  last_with_norm cols k = first_with_norm cols k.
Proof.
  intros Hnd. unfold last_with_norm, first_with_norm.
  destruct (find (norm_is k) cols) as [x|] eqn:Fx.
  - destruct (find (norm_is k) (rev cols)) as [y|] eqn:Fy.
    + apply find_some in Fx, Fy. destruct Fx as [Hx Px], Fy as [Hy Py].
      apply in_rev in Hy. unfold norm_is in Px, Py.
      apply String.eqb_eq in Px, Py. f_equal.
      apply (NoDup_map_inj normalize_col cols); congruence.
    + apply find_some in Fx. destruct Fx as [Hx Px].
      rewrite (find_none _ _ Fy x) in Px; [discriminate|].
      apply in_rev. rewrite rev_involutive. exact Hx.
  - destruct (find (norm_is k) (rev cols)) as [y|] eqn:Fy; [|reflexivity].
    apply find_some in Fy. destruct Fy as [Hy Py]. apply in_rev in Hy.
    rewrite (find_none _ _ Fx y Hy) in Py. discriminate.
Qed.

Lemma first_with_norm_self (cols : list string) (c : string) :
  NoDup (map normalize_col cols) -> In c cols ->
  first_with_norm cols (normalize_col c) = Some c.
Proof.
  intros Hnd Hc. unfold first_with_norm.
  destruct (find (norm_is (normalize_col c)) cols) as [x|] eqn:Fx.
  - apply find_some in Fx. destruct Fx as [Hx Px].
    unfold norm_is in Px. apply String.eqb_eq in Px. f_equal.
    apply (NoDup_map_inj normalize_col cols); assumption.
  - pose proof (find_none _ _ Fx c Hc) as H. unfold norm_is in H.
    rewrite String.eqb_refl in H. discriminate.
Qed.

(** C5, the statement as written fails: with the columns [Time] and
    [time] no exact candidate matches, the first column whose normalized
    name contains "time" is [Time], and the sniffer answers [time]. *)
Lemma C5_counterexample :
  first_exact (first_with_norm ["Time"; "time"]) duration_candidates = None
  /\ first_like ["Time"; "time"] = Some "Time"
  /\ sniff_duration_stated ["Time"; "time"] = Some "Time"
  /\ find_duration_column ["Time"; "time"] = Some "time".
Proof. vm_compute. repeat split. Qed.

(** C5 (amended): the sniffer answers, for the first of "durationdecimal",
    "durationh", "duration" that is the normalized name of a column, with
    the last column of that normalized name; failing that, with the last
    column that has the normalized name of the first column (in column
    order) whose normalized name contains "duration", "time" or "hours";
    failing that, with nothing.  When no two columns share a normalized
    name this is the column the specification names.  For the columns
    [Start Date], [Duration (h)], [Description] the duration column is
    [Duration (h)] and the description column is [Description]. *)
Theorem C5_find_duration_column :
  (forall cols, find_duration_column cols = sniff_duration cols)
  /\ (forall cols, NoDup (map normalize_col cols) ->
        find_duration_column cols = sniff_duration_stated cols)
  /\ find_duration_column ["Start Date"; "Duration (h)"; "Description"]
     = Some "Duration (h)"
  /\ find_description_column ["Start Date"; "Duration (h)"; "Description"]
     = Some "Description"
  /\ find_duration_column ["Start Date"; "Description"] = None.
Proof.
  split; [exact find_duration_column_spec|].
  split; [|vm_compute; repeat split].
  intros cols Hnd. rewrite find_duration_column_spec.
  unfold sniff_duration, sniff_duration_stated.
  rewrite (first_exact_ext _ _ _ (fun k => last_with_norm_unique cols k Hnd)).
  destruct (first_exact _ _); [reflexivity|].
  destruct (first_like cols) as [c0|] eqn:F; [|reflexivity].
  rewrite (last_with_norm_unique _ _ Hnd).
  apply first_with_norm_self; [exact Hnd|].
  apply find_some in F. tauto.
Qed.

Lemma C5_witness :
  find_duration_column ["Date"; "Time (h)"; "Hours"] = Some "Time (h)".
Proof.
  destruct C5_find_duration_column as (_ & H & _).
  rewrite H; [reflexivity|].
  vm_compute. repeat constructor; simpl; intuition discriminate.
Defined.

(** ** The order of strings and of sort keys *)

Lemma string_compare_refl (s : string) : String.compare s s = Eq.
Proof.
  induction s as [|c r IH]; simpl; [reflexivity|].
  unfold Ascii.compare. rewrite N.compare_refl. exact IH.
Qed.

Lemma string_compare_lt_trans (a b c : string) :
  String.compare a b = Lt -> String.compare b c = Lt ->
  String.compare a c = Lt.
Proof.
  revert b c. induction a as [|x a IH]; intros [|y b] [|z c]; simpl;
    try discriminate; try reflexivity.
  unfold Ascii.compare.
  destruct (N.compare_spec (N_of_ascii x) (N_of_ascii y)) as [Exy|Lxy|Gxy];
    try discriminate;
    destruct (N.compare_spec (N_of_ascii y) (N_of_ascii z)) as [Eyz|Lyz|Gyz];
    try discriminate; intros H1 H2.
  - rewrite Exy, Eyz, N.compare_refl. exact (IH _ _ H1 H2).
  - rewrite Exy. apply N.compare_lt_iff in Lyz. rewrite Lyz. reflexivity.
  - rewrite <- Eyz. apply N.compare_lt_iff in Lxy. rewrite Lxy. reflexivity.
  - assert (L : (N_of_ascii x < N_of_ascii z)%N) by lia.
    apply N.compare_lt_iff in L. rewrite L. reflexivity.
Qed.

Lemma string_ltb_lt (a b : string) :
  String.ltb a b = true <-> String.compare a b = Lt.
Proof.
  unfold String.ltb. destruct (String.compare a b); split;
    intros; try discriminate; reflexivity.
Qed.

Lemma string_ltb_irrefl (a : string) : String.ltb a a = false.
Proof. unfold String.ltb. rewrite string_compare_refl. reflexivity. Qed.

Lemma string_ltb_trans (a b c : string) :
  String.ltb a b = true -> String.ltb b c = true -> String.ltb a c = true.
Proof.
  rewrite !string_ltb_lt. apply string_compare_lt_trans.
Qed.

Lemma string_ltb_asym (a b : string) :
  String.ltb a b = true -> String.ltb b a = false.
Proof.
  intros H. destruct (String.ltb b a) eqn:E; [|reflexivity].
  pose proof (string_ltb_trans _ _ _ H E) as F.
  rewrite string_ltb_irrefl in F. discriminate.
Qed.

(** Two strings are comparable: one is below the other or they are the
    same. *)
Lemma string_ltb_connected (a b : string) :
  String.ltb a b = false -> String.ltb b a = false -> a = b.
Proof.
  unfold String.ltb. rewrite (String.compare_antisym b a).
  destruct (String.compare a b) eqn:E; simpl; try discriminate.
  intros _ _. apply String.compare_eq_iff. exact E.
Qed.

Lemma key_ltb_spec (k1 k2 : sort_key) :
  key_ltb k1 k2 = true
  <-> fst k1 < fst k2
      \/ (fst k1 = fst k2 /\ String.ltb (snd k1) (snd k2) = true).
Proof.
  unfold key_ltb. rewrite orb_true_iff, andb_true_iff, Z.ltb_lt, Z.eqb_eq.
  tauto.
Qed.

Lemma key_ltb_false (k1 k2 : sort_key) :
  key_ltb k1 k2 = false
  <-> fst k2 < fst k1
      \/ (fst k1 = fst k2 /\ String.ltb (snd k1) (snd k2) = false).
Proof.
  unfold key_ltb. rewrite orb_false_iff, andb_false_iff, Z.ltb_ge, Z.eqb_neq.
  split.
  - intros [H1 [H2|H2]]; [left; lia|].
    destruct (Z.eq_dec (fst k1) (fst k2)); [right; tauto|left; lia].
  - intros [H|[H1 H2]]; (split; [lia|]); [left; lia|right; exact H2].
Qed.

Lemma key_ltb_asym (k1 k2 : sort_key) :
  key_ltb k1 k2 = true -> key_ltb k2 k1 = false.
Proof.
  rewrite key_ltb_spec, key_ltb_false.
  intros [H|[H1 H2]]; [left; exact H|right].
  split; [congruence|apply string_ltb_asym, H2].
Qed.

Lemma key_ltb_trans (k1 k2 k3 : sort_key) :
  key_ltb k1 k2 = true -> key_ltb k2 k3 = true -> key_ltb k1 k3 = true.
Proof.
  rewrite !key_ltb_spec.
  intros [H|[H1 H2]] [G|[G1 G2]]; try (left; lia).
  right. split; [congruence|exact (string_ltb_trans _ _ _ H2 G2)].
Qed.

Lemma key_leb_total (k1 k2 : sort_key) :
  key_leb k1 k2 = true \/ key_leb k2 k1 = true.
Proof.
  unfold key_leb. destruct (key_ltb k2 k1) eqn:E; [right|left; reflexivity].
  rewrite (key_ltb_asym _ _ E). reflexivity.
Qed.

Lemma key_leb_antisym (k1 k2 : sort_key) :
  key_leb k1 k2 = true -> key_leb k2 k1 = true -> k1 = k2.
Proof.
  unfold key_leb. rewrite !negb_true_iff, !key_ltb_false.
  destruct k1 as [n1 s1], k2 as [n2 s2]; simpl.
  intros [H|[H1 H2]] [G|[G1 G2]]; try lia.
  subst. f_equal. apply string_ltb_connected; assumption.
Qed.

(** What is not above is below, through a third key. *)
Lemma key_ge_trans (a b c : sort_key) :
  key_ltb b a = false -> key_ltb c b = false -> key_ltb c a = false.
Proof.
  intros H1 H2. destruct (key_ltb c a) eqn:E; [|reflexivity].
  (* c < a, not b < a, not c < b *)
  apply key_ltb_spec in E. apply key_ltb_false in H1, H2.
  destruct E as [E|[E1 E2]], H1 as [H1|[H1 H1']], H2 as [H2|[H2 H2']];
    try lia.
  assert (Hba : snd a = snd b \/ String.ltb (snd a) (snd b) = true).
  { destruct (String.ltb (snd a) (snd b)) eqn:F; [right; reflexivity|left].
    apply string_ltb_connected; assumption. }
  assert (Hcb : snd b = snd c \/ String.ltb (snd b) (snd c) = true).
  { destruct (String.ltb (snd b) (snd c)) eqn:F; [right; reflexivity|left].
    apply string_ltb_connected; assumption. }
  destruct Hba as [Hba|Hba], Hcb as [Hcb|Hcb].
  - rewrite Hba, Hcb, string_ltb_irrefl in E2. discriminate.
  - rewrite Hba in E2. rewrite (string_ltb_asym _ _ Hcb) in E2. discriminate.
  - rewrite <- Hcb in E2. rewrite (string_ltb_asym _ _ Hba) in E2. discriminate.
  - pose proof (string_ltb_trans _ _ _ Hba Hcb) as F.
    rewrite (string_ltb_asym _ _ F) in E2. discriminate.
Qed.

Lemma key_leb_trans (k1 k2 k3 : sort_key) :
  key_leb k1 k2 = true -> key_leb k2 k3 = true -> key_leb k1 k3 = true.
Proof.
  unfold key_leb. rewrite !negb_true_iff. intros H1 H2.
  exact (key_ge_trans _ _ _ H1 H2).
Qed.

(** ** [sorted] *)

Section SortedFacts.
Context {A K : Type}.
Variable ltb : K -> K -> bool.
Variable f : A -> K.

Hypothesis ltb_asym : forall a b, ltb a b = true -> ltb b a = false.
Hypothesis ge_trans :
  forall a b c, ltb b a = false -> ltb c b = false -> ltb c a = false.

Lemma insert_by_perm (x : A) (l : list A) :
  Permutation (x :: l) (insert_by ltb f x l).
Proof.
  induction l as [|y l IH]; simpl; [reflexivity|].
  destruct (ltb (f y) (f x)); [|reflexivity].
  rewrite perm_swap. apply perm_skip, IH.
Qed.

Lemma sorted_by_perm (l : list A) : Permutation l (sorted_by ltb f l).
Proof.
  induction l as [|x l IH]; simpl; [reflexivity|].
  rewrite <- insert_by_perm. apply perm_skip, IH.
Qed.

Lemma insert_by_sorted (x : A) (l : list A) :
  StronglySorted (may_precede ltb f) l ->
  StronglySorted (may_precede ltb f) (insert_by ltb f x l).
Proof.
  induction 1 as [|y l Hs IH Hy]; simpl.
  - repeat constructor.
  - destruct (ltb (f y) (f x)) eqn:E.
    + constructor; [exact IH|].
      apply (Permutation_Forall (insert_by_perm x l)).
      constructor; [apply ltb_asym, E|exact Hy].
    + constructor; [constructor; assumption|].
      constructor; [exact E|].
      apply Forall_forall. intros z Hz.
      rewrite Forall_forall in Hy.
      exact (ge_trans _ _ _ E (Hy z Hz)).
Qed.

Lemma sorted_by_sorted (l : list A) :
  StronglySorted (may_precede ltb f) (sorted_by ltb f l).
Proof.
  induction l as [|x l IH]; simpl; [constructor|].
  apply insert_by_sorted, IH.
Qed.
End SortedFacts.

Lemma sorted_months_perm (l : list string) :
  Permutation l (sorted_months l).
Proof. apply sorted_by_perm. Qed.

Lemma sorted_months_sorted (l : list string) :
  StronglySorted label_le (sorted_months l).
Proof.
  apply (sorted_by_sorted key_ltb month_sort_key key_ltb_asym key_ge_trans).
Qed.

(** ** Month Label Orderer *)

Lemma digit_lower (c : ascii) :
  PyStr.is_digit c = true -> PyStr.lower_char c = c.
Proof.
  unfold PyStr.is_digit, PyStr.lower_char, PyStr.in_range.
  intros H. apply andb_true_iff in H. destruct H as [H1 H2].
  apply Nat.leb_le in H1. apply Nat.leb_le in H2.
  assert (E1 : Nat.leb 65 (PyStr.code c) = false) by (apply Nat.leb_gt; lia).
  assert (E2 : Nat.leb 192 (PyStr.code c) = false) by (apply Nat.leb_gt; lia).
  rewrite E1, E2. reflexivity.
Qed.

Lemma digit_not_label_sep (c : ascii) :
  PyStr.is_digit c = true -> is_label_sep c = false.
Proof.
  intros H. unfold is_label_sep.
  destruct (PyStr.is_space c) eqn:Hs.
  { rewrite (space_not_digit _ Hs) in H. discriminate. }
  destruct (Ascii.eqb_spec c "_") as [->|]; [discriminate H|].
  destruct (Ascii.eqb_spec c "-") as [->|]; [discriminate H|].
  reflexivity.
Qed.

Lemma year_token_first (c1 c2 c3 c4 c5 : ascii) (r : string) :
  PyStr.is_digit c1 = true -> PyStr.is_digit c2 = true ->
  PyStr.is_digit c3 = true -> PyStr.is_digit c4 = true ->
  is_label_sep (PyStr.lower_char c5) = true ->
  first_year
    (PyStr.split_on is_label_sep
       (PyStr.lower
          (String c1 (String c2 (String c3 (String c4 (String c5 r)))))))
  <> None.
Proof.
  intros D1 D2 D3 D4 L5.
  cbn [PyStr.lower PyStr.split_on].
  rewrite !digit_lower by assumption.
  rewrite !digit_not_label_sep by assumption.
  rewrite L5. cbn [first_year].
  unfold is_year_token. cbn [String.length Nat.eqb PyStr.all_chars andb].
  rewrite D1, D2, D3, D4. discriminate.
Qed.

(** A label of the form year-month starts with a token of four digits. *)
Lemma year_month_has_year (n : string) (g : Z * Z) :
  match_year_month n = Some g ->
  first_year (PyStr.split_on is_label_sep (PyStr.lower n)) <> None.
Proof.
  unfold match_year_month.
  destruct n as [|c1 [|c2 [|c3 [|c4 [|c5 r]]]]];
    try (cbn;
         repeat match goal with
                | |- context [PyStr.is_digit ?c] => destruct (PyStr.is_digit c)
                end;
         cbn; discriminate).
  cbn [substring String.length Nat.eqb PyStr.all_chars andb].
  destruct (PyStr.is_digit c1) eqn:D1; [|discriminate].
  destruct (PyStr.is_digit c2) eqn:D2; [|discriminate].
  destruct (PyStr.is_digit c3) eqn:D3; [|discriminate].
  destruct (PyStr.is_digit c4) eqn:D4; [|discriminate].
  cbn [andb].
  replace (substring 0 0 r) with EmptyString by (destruct r; reflexivity).
  destruct (String.eqb_spec (String c5 "") "-") as [E|N1].
  { inversion E; subst. intros _.
    apply year_token_first; try assumption. reflexivity. }
  destruct (String.eqb_spec (String c5 "") "_") as [E|N2].
  { inversion E; subst. intros _.
    apply year_token_first; try assumption. reflexivity. }
  cbn [orb andb]. discriminate.
Qed.

Lemma month_sort_key_yearless (name : string) (mo : Z) :
  first_month (label_tokens name) = Some mo ->
  first_year (label_tokens name) = None ->
  month_sort_key name = (2000 + mo, PyStr.strip name).
Proof.
  intros Hmo Hy. unfold month_sort_key.
  destruct name as [|c r]; [discriminate Hmo|]. cbn [PyStr.nonempty negb].
  destruct (match_year_month (PyStr.strip (String c r))) as [g|] eqn:Hm.
  { exfalso. exact (year_month_has_year _ _ Hm Hy). }
  fold (label_tokens (String c r)). rewrite Hmo, Hy. reflexivity.
Qed.

Lemma month_sort_key_unrecognized (name : string) :
  unrecognized name -> month_sort_key name = (9999, PyStr.strip name).
Proof.
  intros [->|[Hm Hmo]]; [reflexivity|].
  unfold month_sort_key.
  destruct name as [|c r]; [reflexivity|]. cbn [PyStr.nonempty negb].
  rewrite Hm. fold (label_tokens (String c r)). rewrite Hmo. reflexivity.
Qed.

(** C4: a label with a full month name among its tokens and no token of
    four digits gets the key [2000 + month], not [2000 * 100 + month]:
    "January" gets 2001 where the specification says 200001, and so sorts
    before "1999-12". *)
Theorem C4_yearless_month_key :
  month_sort_key "January" = (2001, "January")
  /\ month_sort_key "January" <> (2000 * 100 + 1, "January")
  /\ sorted_months ["1999-12"; "January"] = ["January"; "1999-12"]
  /\ (forall name mo,
        first_month (label_tokens name) = Some mo ->
        first_year (label_tokens name) = None ->
        month_sort_key name = (2000 + mo, PyStr.strip name)).
Proof.
  split; [reflexivity|].
  split; [discriminate|].
  split; [reflexivity|].
  exact month_sort_key_yearless.
Qed.

Lemma C4_witness :
  month_sort_key "report march" = (2003, "report march").
Proof.
  destruct C4_yearless_month_key as (_ & _ & _ & H).
  apply (H "report march" 3); reflexivity.
Defined.

(** C9, the statement as written fails: "random" has key 9999 and
    "2024-01" has key 202401, so "random" sorts first, not last; and a
    label with blanks around it gets the stripped label in its key. *)
Lemma C9_counterexample :
  month_sort_key "random" = (9999, "random")
  /\ month_sort_key "2024-01" = (202401, "2024-01")
  /\ sorted_months ["random"; "2024-01"] = ["random"; "2024-01"]
  /\ sorted_months ["2024-01"; "random"] = ["random"; "2024-01"]
  /\ month_sort_key " random" = (9999, "random")
  /\ month_sort_key " random" <> (9999, " random").
Proof. vm_compute. repeat split. discriminate. Qed.

(** C9 (amended): the keys are pairs of an int and a string compared
    lexicographically, a total order on keys in which equal numbers are
    told apart by the string; [sorted] by this key returns the labels
    rearranged in ascending key order; for the labels "March_2024",
    "January_2024", "2024-02" the order is "January_2024", "2024-02",
    "March_2024"; every empty or unrecognized label receives the key
    (9999, label stripped of surrounding blanks). *)
Theorem C9_month_order :
  (forall k1 k2, key_leb k1 k2 = true \/ key_leb k2 k1 = true)
  /\ (forall k1 k2 k3,
        key_leb k1 k2 = true -> key_leb k2 k3 = true -> key_leb k1 k3 = true)
  /\ (forall k1 k2, key_leb k1 k2 = true -> key_leb k2 k1 = true -> k1 = k2)
  /\ (forall n s t, key_leb (n, s) (n, t) = String.leb s t)
  /\ (forall l, Permutation l (sorted_months l)
                /\ StronglySorted label_le (sorted_months l))
  /\ sorted_months ["March_2024"; "January_2024"; "2024-02"]
     = ["January_2024"; "2024-02"; "March_2024"]
  /\ (forall name, unrecognized name ->
        month_sort_key name = (9999, PyStr.strip name)).
Proof.
  split; [exact key_leb_total|].
  split; [exact key_leb_trans|].
  split; [exact key_leb_antisym|].
  split.
  { intros n s t. unfold key_leb, key_ltb. simpl.
    rewrite Z.ltb_irrefl, Z.eqb_refl. simpl.
    unfold String.ltb, String.leb. rewrite (String.compare_antisym s t).
    destruct (String.compare t s); reflexivity. }
  split.
  { intros l. split; [apply sorted_months_perm|apply sorted_months_sorted]. }
  split; [reflexivity|].
  exact month_sort_key_unrecognized.
Qed.

Lemma C9_witness :
  month_sort_key " week 12 " = (9999, "week 12")
  /\ key_leb (9999, "a") (9999, "b") = true.
Proof.
  destruct C9_month_order as (_ & Htr & _ & _ & _ & _ & H).
  split.
  - apply H. right. split; reflexivity.
  - apply (Htr _ (9999, "ab")); reflexivity.
Defined.

(** ** Month records *)

Lemma description_column_known (cols : list string) (c : string) :
  find_description_column cols = Some c ->
  PyStr.nonempty c = true /\ existsb (String.eqb c) cols = true.
Proof.
  induction cols as [|c0 cols IH]; simpl; [discriminate|].
  destruct (description_like (normalize_col c0)) eqn:E.
  - intros H. inversion H; subst c0. split.
    + destruct c; [discriminate E|reflexivity].
    + rewrite String.eqb_refl. reflexivity.
  - intros H. destruct (IH H) as [H1 H2]. split; [exact H1|].
    rewrite H2. apply orb_true_r.
Qed.

Lemma entry_step_spec (df : DataFrame) (duration_col : string)
    (acc : list (value * F64.float)) (row : list value) :
  entry_step (columns df) (find_description_column (columns df))
    duration_col acc row
  = (acc ++ if positive_hours (row_hours df duration_col row)
            then [(row_description df row, row_hours df duration_col row)]
            else [])%list.
Proof.
  unfold entry_step, row_description, row_hours, append.
  destruct (find_description_column (columns df)) as [c|] eqn:E.
  - destruct (description_column_known _ _ E) as [-> ->]. simpl.
    destruct (positive_hours _); [reflexivity|symmetry; apply app_nil_r].
  - destruct (positive_hours _); [reflexivity|symmetry; apply app_nil_r].
Qed.

Lemma collect_entries_from (df : DataFrame) (duration_col : string)
    (rs : list (list value)) (acc : list (value * F64.float)) :
  fold_left
    (entry_step (columns df) (find_description_column (columns df))
       duration_col) rs acc
  = (acc ++ map (fun row => (row_description df row,
                             row_hours df duration_col row))
              (filter
                 (fun row => positive_hours (row_hours df duration_col row))
                 rs))%list.
Proof.
  revert acc. induction rs as [|row rs IH]; intros acc; simpl.
  - symmetry. apply app_nil_r.
  - rewrite IH, entry_step_spec.
    destruct (positive_hours (row_hours df duration_col row)); simpl.
    + rewrite <- app_assoc. reflexivity.
    + rewrite app_nil_r. reflexivity.
Qed.

(** The record of a frame: the total runs over every row, the entries keep
    the rows of [iterrows] of positive hours, in row order. *)
Lemma month_record_spec (series_sum : list F64.float -> F64.float)
    (df : DataFrame) (duration_col : string) :
  total (month_record series_sum df duration_col)
  = F64.round2 (series_sum (map (row_hours df duration_col) (rows df)))
  /\ entries (month_record series_sum df duration_col)
     = map (fun row => (row_description df row, row_hours df duration_col row))
         (filter (fun row => positive_hours (row_hours df duration_col row))
            (iterrows df)).
Proof.
  unfold month_record. simpl. split.
  - unfold column. rewrite map_map. reflexivity.
  - unfold collect_entries. apply collect_entries_from.
Qed.

(** In an [object] array the cells are the Python objects of the frame. *)
Lemma np_scalar_object (v : value) : np_scalar DObject v = v.
Proof. destruct v; reflexivity. Qed.

Lemma iterrows_object (df : DataFrame) :
  values_dtype df = DObject -> iterrows df = rows df.
Proof.
  intros H. unfold iterrows. rewrite H.
  rewrite (map_ext _ (fun row => row)); [apply map_id|].
  intros row. rewrite (map_ext _ (fun v => v)); [apply map_id|].
  exact np_scalar_object.
Qed.

(** A float cell reads the same as a NumPy scalar; a string, [None] and
    the NumPy scalars are left as they are. *)
Lemma np_scalar_float (t : dtype) (f : F64.float) :
  parse_duration_value (np_scalar t (VFloat f))
  = parse_duration_value (VFloat f).
Proof. destruct t, f; reflexivity. Qed.

Lemma np_scalar_str (t : dtype) (s : string) : np_scalar t (VStr s) = VStr s.
Proof. destruct t; reflexivity. Qed.

Lemma file_record_inv (series_sum : list F64.float -> F64.float)
    (read : project_dir -> string -> result DataFrame)
    (d : project_dir) (fname label : string) (r : MonthRecord) :
  file_record series_sum read d fname = Some (label, r) ->
  is_csv_name fname = true
  /\ label = splitext_stem fname
  /\ exists df duration_col,
       read d fname = Ok df
       /\ rows df <> []
       /\ find_duration_column (columns df) = Some duration_col
       /\ r = month_record series_sum df duration_col.
Proof.
  unfold file_record.
  destruct (is_csv_name fname); [|discriminate].
  destruct (read d fname) as [df|e]; [|discriminate].
  destruct (rows df) as [|row rs] eqn:Er; [discriminate|].
  destruct (find_duration_column (columns df)) as [dc|] eqn:Ed; [|discriminate].
  intros H. inversion H; subst. split; [reflexivity|]. split; [reflexivity|].
  exists df, dc. rewrite Er. repeat split; congruence.
Qed.

(** The dict part of one turn of either aggregator is an assignment of the
    file's record, or nothing. *)
Lemma App_file_step_dict (series_sum : list F64.float -> F64.float)
    (p : string) (d : project_dir)
    (acc : dict MonthRecord * list App.log_line) (fname : string) :
  fst (App.file_step series_sum p d acc fname)
  = match file_record series_sum App.read_frame d fname with
    | Some kr => dict_set (fst acc) (fst kr) (snd kr)
    | None => fst acc
    end.
Proof.
  unfold App.file_step, file_record. destruct acc as [mt logs].
  destruct (is_csv_name fname); simpl; [|reflexivity].
  destruct (App.read_frame d fname) as [df|e]; [|reflexivity].
  destruct (rows df) as [|row rs]; simpl; [reflexivity|].
  destruct (find_duration_column (columns df)); reflexivity.
Qed.

Lemma Cli_file_step_dict (series_sum : list F64.float -> F64.float)
    (d : project_dir)
    (acc : dict MonthRecord * list Cli.line) (fname : string) :
  fst (Cli.file_step series_sum d acc fname)
  = match file_record series_sum read_csv d fname with
    | Some kr => dict_set (fst acc) (fst kr) (snd kr)
    | None => fst acc
    end.
Proof.
  unfold Cli.file_step, file_record. destruct acc as [mt out].
  destruct (is_csv_name fname); simpl; [|reflexivity].
  destruct (read_csv d fname) as [df|e]; [|reflexivity].
  destruct (rows df) as [|row rs]; simpl; [reflexivity|].
  destruct (find_duration_column (columns df)); reflexivity.
Qed.

Lemma App_fold_dict (series_sum : list F64.float -> F64.float)
    (p : string) (d : project_dir) (names : list string)
    (acc : dict MonthRecord * list App.log_line) :
  fst (fold_left (App.file_step series_sum p d) names acc)
  = dict_update_all (fst acc)
      (folder_records series_sum App.read_frame d names).
Proof.
  revert acc. induction names as [|n names IH]; intros acc; simpl;
    [reflexivity|].
  rewrite IH, App_file_step_dict. unfold dict_update_all.
  rewrite fold_left_app.
  destruct (file_record series_sum App.read_frame d n); reflexivity.
Qed.

Lemma Cli_fold_dict (series_sum : list F64.float -> F64.float)
    (d : project_dir) (names : list string)
    (acc : dict MonthRecord * list Cli.line) :
  fst (fold_left (Cli.file_step series_sum d) names acc)
  = dict_update_all (fst acc) (folder_records series_sum read_csv d names).
Proof.
  revert acc. induction names as [|n names IH]; intros acc; simpl;
    [reflexivity|].
  rewrite IH, Cli_file_step_dict. unfold dict_update_all.
  rewrite fold_left_app.
  destruct (file_record series_sum read_csv d n); reflexivity.
Qed.

Lemma file_record_ok (series_sum : list F64.float -> F64.float)
    (read : project_dir -> string -> result DataFrame)
    (d : project_dir) (fname : string) (df : DataFrame) (dc : string) :
  is_csv_name fname = true -> read d fname = Ok df -> rows df <> [] ->
  find_duration_column (columns df) = Some dc ->
  file_record series_sum read d fname
  = Some (splitext_stem fname, month_record series_sum df dc).
Proof.
  intros Hc Hr Hn Hd. unfold file_record. rewrite Hc, Hr, Hd.
  destruct (rows df); [contradiction|reflexivity].
Qed.

(** C3: a file that yields a record (a CSV name, a frame read, at least
    one row, a duration column) is stored under its label with a total
    that is [round(sum, 2)] over the parsed duration of every row, and with
    the entries of the rows of [df.iterrows()] whose duration cell parses
    to a positive value, in row order, each with its description cell, or
    with the empty string when the frame has no description column; both
    aggregators.  A frame with a column of strings hands the same cells to
    both, and a float or string cell reads the same in any frame.  A frame
    of booleans alone does not: [True] counts 1.0 in the total through
    [Series.apply], the row of [iterrows] holds a [numpy.bool_], which the
    parser reads as 0.0, and the row is left out of the entries.  Beside a
    column of ints the booleans sit in an [object] array and the row is
    kept; a frame of numbers alone hands NumPy scalars to the entries,
    which read like the numbers. *)
Theorem C3_month_record :
  (forall (series_sum : list F64.float -> F64.float) (d : project_dir)
          (fname : string) (df : DataFrame) (dc : string)
          (mt : dict MonthRecord),
      is_csv_name fname = true -> rows df <> [] ->
      find_duration_column (columns df) = Some dc ->
      let good (r : MonthRecord) :=
        total r = F64.round2 (series_sum (map (row_hours df dc) (rows df)))
        /\ entries r
           = map (fun row => (row_description df row, row_hours df dc row))
               (filter (fun row => positive_hours (row_hours df dc row))
                  (iterrows df)) in
      (forall p logs,
          App.read_frame d fname = Ok df ->
          exists r,
            dict_get (fst (App.file_step series_sum p d (mt, logs) fname))
              (splitext_stem fname) = Some r
            /\ good r)
      /\ (forall out,
            read_csv d fname = Ok df ->
            exists r,
              dict_get (fst (Cli.file_step series_sum d (mt, out) fname))
                (splitext_stem fname) = Some r
              /\ good r))
  /\ (forall df, values_dtype df = DObject -> iterrows df = rows df)
  /\ (forall t f,
        parse_duration_value (np_scalar t (VFloat f))
        = parse_duration_value (VFloat f))
  /\ (forall t s, np_scalar t (VStr s) = VStr s)
  /\ (map (row_hours flags_frame "Hours") (rows flags_frame) = [f1; F64.zero]
      /\ map (row_hours flags_frame "Hours") (iterrows flags_frame)
         = [F64.zero; F64.zero]
      /\ month_record F64.sum flags_frame "Hours"
         = {| total := f1; entries := [] |})
  /\ month_record F64.sum third_frame "Duration"
     = {| total := f0_33; entries := [(VStr "call", f1_3)] |}
  /\ month_record F64.sum numbers_frame "Hours"
     = {| total := f2_5; entries := [(VNpFloat f1, f2_5)] |}
  /\ month_record F64.sum small_frame "Hours"
     = {| total := f5; entries := [(VStr "", f5)] |}
  /\ month_record F64.sum counts_frame "Hours"
     = {| total := f2; entries := [(VNpInt 7, f2)] |}
  /\ values_dtype flag_count_frame = DObject
  /\ month_record F64.sum flag_count_frame "Hours"
     = {| total := f1; entries := [(VStr "", f1)] |}.
Proof.
  split.
  { intros series_sum d fname df dc mt Hc Hn Hd good.
    split.
    - intros p logs Hr. exists (month_record series_sum df dc).
      rewrite App_file_step_dict.
      rewrite (file_record_ok _ _ _ _ _ _ Hc Hr Hn Hd). simpl.
      rewrite dict_get_set, String.eqb_refl.
      split; [reflexivity|apply month_record_spec].
    - intros out Hr. exists (month_record series_sum df dc).
      rewrite Cli_file_step_dict.
      rewrite (file_record_ok _ _ _ _ _ _ Hc Hr Hn Hd). simpl.
      rewrite dict_get_set, String.eqb_refl.
      split; [reflexivity|apply month_record_spec]. }
  split; [exact iterrows_object|].
  split; [exact np_scalar_float|].
  split; [exact np_scalar_str|].
  vm_compute. repeat split.
Qed.

(** The sample file: the total 8.25 counts the negative row, the entries
    do not show it. *)
Lemma sample_month_record :
  month_record F64.sum sample_frame "Duration (h)"
  = {| total := f8_25;
       entries := [(VStr "design", f2_5); (VStr "review", f6_75)] |}.
Proof. vm_compute. reflexivity. Qed.

Lemma C3_witness :
  exists r,
    dict_get
      (fst (App.file_step F64.sum "ProjectA" third_folder ([], [])
              "Mar_2024.csv")) "Mar_2024" = Some r
    /\ total r = f0_33
    /\ entries r = [(VStr "call", f1_3)].
Proof.
  destruct C3_month_record as [H _].
  destruct (H F64.sum third_folder "Mar_2024.csv" third_frame "Duration" [])
    as [Ha _]; [reflexivity|discriminate|reflexivity|].
  destruct (Ha "ProjectA" [] eq_refl) as [r [Hr [Ht He]]].
  exists r. split; [exact Hr|]. split.
  - rewrite Ht. vm_compute. reflexivity.
  - rewrite He. vm_compute. reflexivity.
Defined.

(** ** Aggregators *)

Lemma App_process_months (series_sum : list F64.float -> F64.float)
    (root : root_dir) (item : string) (logs : list App.log_line) :
  fst (App.process_project_folder series_sum root item logs)
  = project_months series_sum App.read_frame root item.
Proof.
  unfold App.process_project_folder, project_months.
  destruct (lookup root item) as [[d|]|]; try reflexivity.
  pose proof (App_fold_dict series_sum item d (sorted_str (listdir d))
                ([], logs)) as H.
  destruct (fold_left _ _ _) as [mt logs']. simpl in *. rewrite H.
  reflexivity.
Qed.

Lemma Cli_process_months (series_sum : list F64.float -> F64.float)
    (root : root_dir) (item : string) (out : list Cli.line) :
  fst (Cli.process_project_folder series_sum root item out)
  = project_months series_sum read_csv root item.
Proof.
  unfold Cli.process_project_folder, project_months.
  destruct (lookup root item) as [[d|]|]; try reflexivity.
  pose proof (Cli_fold_dict series_sum d (sorted_str (listdir d))
                ([], out)) as H.
  destruct (fold_left _ _ _) as [mt out']. simpl in *. rewrite H.
  reflexivity.
Qed.

(** One record per label: the keys of the dict of a project are distinct,
    and a label holds the record assigned to it last. *)
Lemma project_months_spec (series_sum : list F64.float -> F64.float)
    (read : project_dir -> string -> result DataFrame)
    (root : root_dir) (item : string) (mt : dict MonthRecord) :
  project_months series_sum read root item = Some mt ->
  exists d,
    lookup root item = Some (Project d)
    /\ NoDup (dict_keys mt)
    /\ forall label,
         dict_get mt label
         = option_map snd
             (find (key_is label)
                (rev (folder_records series_sum read d
                        (sorted_str (listdir d))))).
Proof.
  unfold project_months.
  destruct (lookup root item) as [[d|]|]; try discriminate.
  intros H. inversion H; subst mt. exists d.
  split; [reflexivity|]. split.
  - apply dict_update_all_NoDup. constructor.
  - intros label. rewrite dict_get_update_all.
    destruct (find _ _); reflexivity.
Qed.

(** A file that yields a record: the turn assigns it and logs a success,
    nothing else. *)
Lemma App_file_step_record (series_sum : list F64.float -> F64.float)
    (p : string) (d : project_dir) (mt : dict MonthRecord)
    (logs : list App.log_line) (fname label : string) (r : MonthRecord) :
  file_record series_sum App.read_frame d fname = Some (label, r) ->
  exists col,
    App.file_step series_sum p d (mt, logs) fname
    = (dict_set mt label r, append logs (App.LogOk p fname (total r) col)).
Proof.
  unfold file_record, App.file_step.
  destruct (is_csv_name fname); [|discriminate]. simpl.
  destruct (App.read_frame d fname) as [df|e]; [|discriminate].
  destruct (rows df) as [|row rs]; [discriminate|]. simpl.
  destruct (find_duration_column (columns df)) as [dc|]; [|discriminate].
  intros H. inversion H; subst. exists dc. reflexivity.
Qed.

Lemma Cli_file_step_record (series_sum : list F64.float -> F64.float)
    (d : project_dir) (mt : dict MonthRecord)
    (out : list Cli.line) (fname label : string) (r : MonthRecord) :
  file_record series_sum read_csv d fname = Some (label, r) ->
  exists col,
    Cli.file_step series_sum d (mt, out) fname
    = (dict_set mt label r, append out (Cli.PrintOk fname (total r) col)).
Proof.
  unfold file_record, Cli.file_step.
  destruct (is_csv_name fname); [|discriminate]. simpl.
  destruct (read_csv d fname) as [df|e]; [|discriminate].
  destruct (rows df) as [|row rs]; [discriminate|]. simpl.
  destruct (find_duration_column (columns df)) as [dc|]; [|discriminate].
  intros H. inversion H; subst. exists dc. reflexivity.
Qed.

(** C10: the month records of a project are keyed by the file name
    without its extension alone.  The dict an aggregator returns has
    distinct labels, and each label holds the record of the last file, in
    sorted file-name order, that yields a record under this label; a file
    processed after another of the same stem replaces its record, the
    dict is then what the later file alone would have left, and the log
    only shows two successes.  "Jan.CSV" sorts before "Jan.csv", so of
    this pair the record of "Jan.csv" survives. *)
Theorem C10_same_stem_replaces :
  (forall series_sum root item logs mt logs',
      App.process_project_folder series_sum root item logs = (Some mt, logs') ->
      exists d,
        lookup root item = Some (Project d)
        /\ NoDup (dict_keys mt)
        /\ forall label,
             dict_get mt label
             = last_record
                 (folder_records series_sum App.read_frame d
                    (sorted_str (listdir d))) label)
  /\ (forall series_sum root item out mt out',
        Cli.process_project_folder series_sum root item out = (Some mt, out') ->
        exists d,
          lookup root item = Some (Project d)
          /\ NoDup (dict_keys mt)
          /\ forall label,
               dict_get mt label
               = last_record
                   (folder_records series_sum read_csv d
                      (sorted_str (listdir d))) label)
  /\ (forall series_sum p d mt logs f1 f2 label r1 r2,
        file_record series_sum App.read_frame d f1 = Some (label, r1) ->
        file_record series_sum App.read_frame d f2 = Some (label, r2) ->
        exists c1 c2,
          App.file_step series_sum p d
            (App.file_step series_sum p d (mt, logs) f1) f2
          = (dict_set mt label r2,
             (logs ++ [App.LogOk p f1 (total r1) c1;
                       App.LogOk p f2 (total r2) c2])%list)
          /\ dict_get (dict_set mt label r2) label = Some r2
          /\ fst (App.file_step series_sum p d (mt, logs) f2)
             = dict_set mt label r2)
  /\ (forall series_sum d mt out f1 f2 label r1 r2,
        file_record series_sum read_csv d f1 = Some (label, r1) ->
        file_record series_sum read_csv d f2 = Some (label, r2) ->
        exists c1 c2,
          Cli.file_step series_sum d
            (Cli.file_step series_sum d (mt, out) f1) f2
          = (dict_set mt label r2,
             (out ++ [Cli.PrintOk f1 (total r1) c1;
                      Cli.PrintOk f2 (total r2) c2])%list)
          /\ dict_get (dict_set mt label r2) label = Some r2
          /\ fst (Cli.file_step series_sum d (mt, out) f2)
             = dict_set mt label r2)
  /\ sorted_str (listdir twin_folder) = ["Jan.CSV"; "Jan.csv"]
  /\ splitext_stem "Jan.CSV" = "Jan"
  /\ splitext_stem "Jan.csv" = "Jan"
  /\ App.process_project_folder F64.sum twin_root "Twins" []
     = (Some [("Jan", {| total := f8_25;
                         entries := [(VStr "design", f2_5);
                                     (VStr "review", f6_75)] |})],
        [App.LogOk "Twins" "Jan.CSV" f5 "Hours";
         App.LogOk "Twins" "Jan.csv" f8_25 "Duration (h)"]).
Proof.
  split.
  { intros series_sum root item logs mt logs' H.
    pose proof (App_process_months series_sum root item logs) as Hm.
    rewrite H in Hm. simpl in Hm. symmetry in Hm.
    exact (project_months_spec _ _ _ _ _ Hm). }
  split.
  { intros series_sum root item out mt out' H.
    pose proof (Cli_process_months series_sum root item out) as Hm.
    rewrite H in Hm. simpl in Hm. symmetry in Hm.
    exact (project_months_spec _ _ _ _ _ Hm). }
  split.
  { intros series_sum p d mt logs f1 f2 label r1 r2 H1 H2.
    destruct (App_file_step_record series_sum p d mt logs _ _ _ H1)
      as [c1 E1].
    rewrite E1.
    destruct (App_file_step_record series_sum p d (dict_set mt label r1)
                (append logs (App.LogOk p f1 (total r1) c1)) _ _ _ H2)
      as [c2 E2].
    exists c1, c2. rewrite E2, dict_set_set. unfold append.
    rewrite <- app_assoc. split; [reflexivity|].
    split; [rewrite dict_get_set, String.eqb_refl; reflexivity|].
    rewrite App_file_step_dict, H2. reflexivity. }
  split.
  { intros series_sum d mt out f1 f2 label r1 r2 H1 H2.
    destruct (Cli_file_step_record series_sum d mt out _ _ _ H1) as [c1 E1].
    rewrite E1.
    destruct (Cli_file_step_record series_sum d (dict_set mt label r1)
                (append out (Cli.PrintOk f1 (total r1) c1)) _ _ _ H2)
      as [c2 E2].
    exists c1, c2. rewrite E2, dict_set_set. unfold append.
    rewrite <- app_assoc. split; [reflexivity|].
    split; [rewrite dict_get_set, String.eqb_refl; reflexivity|].
    rewrite Cli_file_step_dict, H2. reflexivity. }
  vm_compute. repeat split.
Qed.

Lemma C10_witness :
  exists mt,
    fst (App.process_project_folder F64.sum twin_root "Twins" []) = Some mt
    /\ NoDup (dict_keys mt)
    /\ dict_get mt "Jan"
       = Some (month_record F64.sum sample_frame "Duration (h)").
Proof.
  destruct C10_same_stem_replaces as (H & _).
  destruct (App.process_project_folder F64.sum twin_root "Twins" [])
    as [[mt|] logs'] eqn:E; [|vm_compute in E; discriminate E].
  destruct (H _ _ _ _ _ _ E) as (d & Hd & Hnd & Hget).
  exists mt. split; [reflexivity|]. split; [exact Hnd|].
  rewrite Hget. vm_compute in Hd. inversion Hd; subst d.
  vm_compute. reflexivity.
Defined.

(** ** Reading a file *)

(** [app.py]: the default encoding first, Latin-1 on failure; when both
    fail the file is logged and skipped, the dict is left as it was, and
    the loop goes on with the next name. *)
Lemma App_read_fallback (series_sum : list F64.float -> F64.float)
    (p : string) (d : project_dir) (mt : dict MonthRecord)
    (logs : list App.log_line) (fname : string) :
  (forall df, read_csv d fname = Ok df -> App.read_frame d fname = Ok df)
  /\ (forall e, read_csv d fname = Raise e ->
        App.read_frame d fname = read_csv_latin1 d fname)
  /\ (forall e1 e2,
        is_csv_name fname = true ->
        read_csv d fname = Raise e1 -> read_csv_latin1 d fname = Raise e2 ->
        App.file_step series_sum p d (mt, logs) fname
        = (mt, append logs (App.LogReadError p fname e2)))
  /\ (forall rest,
        fst (fold_left (App.file_step series_sum p d) (fname :: rest)
               (mt, logs))
        = dict_update_all
            (fst (App.file_step series_sum p d (mt, logs) fname))
            (folder_records series_sum App.read_frame d rest)).
Proof.
  unfold App.read_frame. split; [intros df ->; reflexivity|].
  split; [intros e ->; reflexivity|].
  split.
  - intros e1 e2 Hc H1 H2. unfold App.file_step, App.read_frame.
    rewrite Hc, H1, H2. reflexivity.
  - intros rest. simpl. apply App_fold_dict.
Qed.

(** C7: [csv_monthly_projects.py] reads each file once.  A file that fails
    under the default encoding is reported and skipped there, whatever
    Latin-1 would give; [app.py] retries and keeps the file.  Neither stops
    at the failure. *)
Theorem C7_cli_reads_once :
  (forall series_sum d mt out fname e,
      is_csv_name fname = true -> read_csv d fname = Raise e ->
      Cli.file_step series_sum d (mt, out) fname
      = (mt, append out (Cli.PrintReadError fname e)))
  /\ Cli.file_step F64.sum latin1_folder ([], []) "Jan_2024.csv"
     = ([], [Cli.PrintReadError "Jan_2024.csv" decode_error])
  /\ App.file_step F64.sum "ProjectA" latin1_folder ([], []) "Jan_2024.csv"
     = ([("Jan_2024", {| total := f8_25;
                         entries := [(VStr "design", f2_5);
                                     (VStr "review", f6_75)] |})],
        [App.LogOk "ProjectA" "Jan_2024.csv" f8_25 "Duration (h)"]).
Proof.
  split.
  { intros series_sum d mt out fname e Hc Hr. unfold Cli.file_step.
    rewrite Hc, Hr. reflexivity. }
  vm_compute. split; reflexivity.
Qed.

Lemma C7_witness :
  Cli.file_step F64.sum latin1_folder ([], [Cli.PrintScanning]) "Jan_2024.csv"
  = ([], [Cli.PrintScanning; Cli.PrintReadError "Jan_2024.csv" decode_error]).
Proof.
  destruct C7_cli_reads_once as (H & _).
  apply (H F64.sum latin1_folder [] [Cli.PrintScanning] "Jan_2024.csv"
           decode_error); reflexivity.
Defined.

(** ** The sink *)

Lemma sorted_str_perm (l : list string) : Permutation l (sorted_str l).
Proof. apply sorted_by_perm. Qed.

(** A cell keeps its value, a string cut at the length limit, unless the
    string holds a control character. *)
Lemma bind_value_spec (v : value) :
  Openpyxl.bind_value v
  = if legal_value v then Ok (kept_value v) else Raise IllegalCharacterError.
Proof.
  destruct v; try reflexivity.
  unfold Openpyxl.bind_value, Openpyxl.check_string, legal_value, kept_value.
  destruct (PyStr.has_char _ _); reflexivity.
Qed.

Lemma mapM_bind_value_spec (row : list value) :
  mapM Openpyxl.bind_value row
  = if forallb legal_value row then Ok (map kept_value row)
    else Raise IllegalCharacterError.
Proof.
  induction row as [|v row IH]; [reflexivity|].
  cbn [mapM forallb map]. rewrite bind_value_spec.
  destruct (legal_value v); [|reflexivity].
  cbn [bind andb]. rewrite IH.
  destruct (forallb legal_value row); reflexivity.
Qed.

(** The [ws.append] calls of a sheet: every row is kept, or the first
    string with a control character ends the run. *)
Lemma append_rows_spec (content ws : list (list value)) :
  foldM Openpyxl.append_row content ws
  = if legal_rows content then Ok (ws ++ kept_rows content)%list
    else Raise IllegalCharacterError.
Proof.
  revert ws. induction content as [|row content IH]; intros ws.
  - cbn [foldM]. unfold legal_rows, kept_rows. cbn [forallb map].
    rewrite app_nil_r. reflexivity.
  - cbn [foldM]. unfold Openpyxl.append_row at 1.
    rewrite mapM_bind_value_spec.
    unfold legal_rows, kept_rows. cbn [forallb map].
    destruct (forallb legal_value row); [|reflexivity].
    cbn [bind andb]. rewrite IH. unfold legal_rows, kept_rows, append.
    destruct (forallb _ content); [|reflexivity].
    rewrite <- app_assoc. reflexivity.
Qed.

Lemma title_or_default_nonempty (t : string) :
  PyStr.nonempty (Openpyxl.title_or_default t) = true.
Proof. destruct t; reflexivity. Qed.

(** The title of a new sheet: refused for its characters, or handed to
    [avoid_duplicate_name]. *)
Lemma set_title_new (names : list string) (t : string) :
  PyStr.nonempty t = true ->
  Openpyxl.set_title names EmptyString t
  = if valid_title t then Openpyxl.avoid_duplicate_name names t
    else Raise ValueError.
Proof.
  intros H. unfold Openpyxl.set_title, valid_title.
  destruct (PyStr.has_char _ t); [reflexivity|].
  destruct t; [discriminate H|reflexivity].
Qed.

(** A title that no sheet has is taken as it is. *)
Lemma avoid_duplicate_new (names : list string) (t : string) :
  Openpyxl.known_title names t = false ->
  Openpyxl.avoid_duplicate_name names t = Ok t.
Proof. intros H. unfold Openpyxl.avoid_duplicate_name. rewrite H. reflexivity. Qed.

Lemma known_title_in (names : list string) (t : string) :
  Openpyxl.known_title names t = true <->
  In (PyStr.lower t) (map PyStr.lower names).
Proof.
  unfold Openpyxl.known_title. rewrite existsb_exists, in_map_iff.
  split; intros [n [H1 H2]]; exists n.
  - apply String.eqb_eq in H2. auto.
  - split; [exact H2|]. apply String.eqb_eq. exact H1.
Qed.

Lemma create_sheet_spec (wb : list sheet) (t : string)
    (content : list (list value)) :
  create_sheet wb t content
  = if valid_title (Openpyxl.title_or_default t) then
      t' <- Openpyxl.avoid_duplicate_name (sheetnames wb)
              (Openpyxl.title_or_default t) ;;
      if legal_rows content
      then Ok (wb ++ [{| sid := List.length wb; title := t';
                         cells := kept_rows content |}])%list
      else Raise IllegalCharacterError
    else Raise ValueError.
Proof.
  unfold create_sheet.
  rewrite set_title_new by apply title_or_default_nonempty.
  destruct (valid_title _); [|reflexivity].
  destruct (Openpyxl.avoid_duplicate_name _ _) as [t'|e]; [|reflexivity].
  cbn [bind]. rewrite append_rows_spec.
  destruct (legal_rows content); reflexivity.
Qed.

Lemma sheetnames_app (wb1 wb2 : list sheet) :
  sheetnames (wb1 ++ wb2) = (sheetnames wb1 ++ sheetnames wb2)%list.
Proof. apply map_app. Qed.

(** The sheets made of a list of requests, when the sink takes them all:
    one sheet per request, in order, after the sheets already there, each
    with the rows kept of its request; every request was accepted, and a
    title that is new to the workbook is taken as it is asked for. *)
Lemma add_sheets_ok (reqs : list request) (wb w' : list sheet) :
  add_sheets wb reqs = Ok w' ->
  exists created,
    w' = (wb ++ created)%list
    /\ map cells created = map (fun r => kept_rows (snd r)) reqs
    /\ Forall (fun s => (List.length wb <= sid s)%nat) created
    /\ forallb request_accepted reqs = true
    /\ (NoDup (map PyStr.lower (sheetnames wb ++ map request_title reqs)) ->
        map title created = map request_title reqs).
Proof.
  revert wb. induction reqs as [|r reqs IH]; intros wb H.
  - inversion H; subst w'. exists []. rewrite app_nil_r.
    repeat split. constructor.
  - unfold add_sheets in H. cbn [foldM] in H.
    rewrite create_sheet_spec in H. fold (request_title r) in H.
    destruct (valid_title (request_title r)) eqn:Hv; [|discriminate H].
    destruct (Openpyxl.avoid_duplicate_name (sheetnames wb) (request_title r))
      as [t'|e] eqn:Ht; [|discriminate H].
    cbn [bind] in H.
    destruct (legal_rows (snd r)) eqn:Hl; [|discriminate H].
    apply IH in H. destruct H as (created & -> & Hc & Hs & Ha & Hn).
    eexists (_ :: created). rewrite <- app_assoc. cbn [app].
    split; [reflexivity|]. cbn [map cells].
    split; [rewrite Hc; reflexivity|].
    split.
    { constructor; [simpl; lia|].
      revert Hs. apply Forall_impl. intros s Hs.
      rewrite length_app in Hs. simpl in Hs. lia. }
    split.
    { cbn [forallb]. unfold request_accepted at 1. rewrite Hv, Hl, Ha.
      reflexivity. }
    intros Hnd. cbn [title].
    assert (Et : t' = request_title r).
    { rewrite avoid_duplicate_new in Ht; [inversion Ht; reflexivity|].
      destruct (Openpyxl.known_title (sheetnames wb) (request_title r))
        eqn:Hk; [|reflexivity].
      apply known_title_in in Hk. rewrite map_app in Hnd. cbn [map] in Hnd.
      apply NoDup_remove_2 in Hnd. exfalso. apply Hnd.
      apply in_or_app. left. exact Hk. }
    subst t'. f_equal. apply Hn.
    rewrite sheetnames_app. cbn [sheetnames map title].
    rewrite <- app_assoc. exact Hnd.
Qed.

(** The sink takes every request when each is accepted on its own and the
    titles are new, one after the other. *)
Lemma add_sheets_returns (reqs : list request) (wb : list sheet) :
  forallb request_accepted reqs = true ->
  NoDup (map PyStr.lower (sheetnames wb ++ map request_title reqs)) ->
  exists w', add_sheets wb reqs = Ok w'.
Proof.
  revert wb. induction reqs as [|r reqs IH]; intros wb Ha Hnd.
  - exists wb. reflexivity.
  - cbn [forallb] in Ha. apply andb_true_iff in Ha. destruct Ha as [Hr Ha].
    unfold request_accepted in Hr. apply andb_true_iff in Hr.
    destruct Hr as [Hv Hl].
    unfold add_sheets. cbn [foldM]. rewrite create_sheet_spec.
    fold (request_title r). rewrite Hv, avoid_duplicate_new.
    2:{ destruct (Openpyxl.known_title (sheetnames wb) (request_title r))
          eqn:Hk; [|reflexivity].
        apply known_title_in in Hk. rewrite map_app in Hnd. cbn [map] in Hnd.
        apply NoDup_remove_2 in Hnd. exfalso. apply Hnd.
        apply in_or_app. left. exact Hk. }
    cbn [bind]. rewrite Hl. apply IH; [exact Ha|].
    rewrite sheetnames_app. cbn [sheetnames map title].
    rewrite <- app_assoc. exact Hnd.
Qed.

(** A request that is not accepted ends the run, whatever comes before
    it and after it. *)
Lemma add_sheets_refused (reqs : list request) (wb : list sheet) :
  forallb request_accepted reqs = false ->
  exists e, add_sheets wb reqs = Raise e.
Proof.
  revert wb. induction reqs as [|r reqs IH]; intros wb Ha; [discriminate Ha|].
  unfold add_sheets. cbn [foldM].
  destruct (create_sheet wb (fst r) (snd r)) as [w1|e] eqn:E;
    [|exists e; reflexivity].
  cbn [bind]. apply IH.
  rewrite create_sheet_spec in E. fold (request_title r) in E.
  cbn [forallb] in Ha. unfold request_accepted at 1 in Ha.
  destruct (valid_title (request_title r)); [|discriminate E].
  destruct (Openpyxl.avoid_duplicate_name _ _); [|discriminate E].
  cbn [bind] in E. destruct (legal_rows (snd r)); [|discriminate E].
  exact Ha.
Qed.

(** ** Workbook builders *)

(** What one turn of the project loop of [app.py] does to the workbook,
    the counter and the summaries. *)
Lemma App_project_step_spec (series_sum : list F64.float -> F64.float)
    (root : root_dir) (st : App.build_state) (item : string) :
  exists l,
    App.project_step series_sum root st item
    = if yields_sheet series_sum App.read_frame root item then
        w <- add_sheets (App.wb st)
               [sheet_request series_sum App.read_frame root item] ;;
        Ok {| App.wb := w;
              App.added := S (App.added st);
              App.project_summaries :=
                append (App.project_summaries st)
                  (project_summary series_sum App.read_frame root item);
              App.logs := l |}
      else
        Ok {| App.wb := App.wb st;
              App.added := App.added st;
              App.project_summaries := App.project_summaries st;
              App.logs := l |}.
Proof.
  unfold App.project_step, yields_sheet, sheet_request, project_rows,
    project_summary, months_or_empty, add_sheets.
  destruct (isdir root item); simpl;
    [|exists (App.logs st); destruct st; reflexivity].
  destruct (skipped_name item); simpl;
    [exists (App.logs st); destruct st; reflexivity|].
  pose proof (App_process_months series_sum root item
                (append (App.logs st) (App.LogProcessing item))) as H.
  destruct (App.process_project_folder _ _ _ _) as [res logs2].
  simpl in H. rewrite <- H.
  destruct res as [[|kv mt]|]; simpl.
  - eexists; reflexivity.
  - exists logs2.
    destruct (create_sheet _ _ _); reflexivity.
  - eexists; reflexivity.
Qed.

Lemma Cli_project_step_spec (series_sum : list F64.float -> F64.float)
    (root : root_dir) (st : Cli.build_state) (item : string) :
  exists l,
    Cli.project_step series_sum root st item
    = if yields_sheet series_sum read_csv root item then
        w <- add_sheets (Cli.wb st)
               [sheet_request series_sum read_csv root item] ;;
        Ok {| Cli.wb := w;
              Cli.added := S (Cli.added st);
              Cli.out := l |}
      else
        Ok {| Cli.wb := Cli.wb st;
              Cli.added := Cli.added st;
              Cli.out := l |}.
Proof.
  unfold Cli.project_step, yields_sheet, sheet_request, project_rows,
    months_or_empty, add_sheets.
  destruct (isdir root item); simpl;
    [|exists (Cli.out st); destruct st; reflexivity].
  destruct (skipped_name item); simpl;
    [exists (Cli.out st); destruct st; reflexivity|].
  pose proof (Cli_process_months series_sum root item
                (append (Cli.out st) (Cli.PrintProcessing item))) as H.
  destruct (Cli.process_project_folder _ _ _ _) as [res out2].
  simpl in H. rewrite <- H.
  destruct res as [[|kv mt]|]; simpl.
  - eexists; reflexivity.
  - exists out2.
    destruct (create_sheet _ _ _); reflexivity.
  - eexists; reflexivity.
Qed.

Lemma add_sheets_cons (wb : list sheet) (r : request) (reqs : list request) :
  add_sheets wb (r :: reqs) = w <- add_sheets wb [r] ;; add_sheets w reqs.
Proof.
  unfold add_sheets. cbn [foldM].
  destruct (create_sheet wb (fst r) (snd r)); reflexivity.
Qed.

(** The project loop of [app.py] asks the sink for one sheet per project
    that yields month records, in loop order: it ends with the exception
    of the sink, or with the workbook of the sink, the count of these
    projects and their summaries. *)
Lemma App_build_fold (series_sum : list F64.float -> F64.float)
    (root : root_dir) (names : list string) (st : App.build_state) :
  let items := filter (yields_sheet series_sum App.read_frame root) names in
  let reqs := map (sheet_request series_sum App.read_frame root) items in
  match foldM (App.project_step series_sum root) names st with
  | Ok st' =>
      add_sheets (App.wb st) reqs = Ok (App.wb st')
      /\ App.added st' = (App.added st + List.length items)%nat
      /\ App.project_summaries st'
         = (App.project_summaries st
            ++ map (project_summary series_sum App.read_frame root) items)%list
  | Raise e => add_sheets (App.wb st) reqs = Raise e
  end.
Proof.
  revert st. induction names as [|item names IH]; intros st.
  - cbn. rewrite app_nil_r, Nat.add_0_r. repeat split.
  - cbv zeta. cbn [foldM filter].
    destruct (App_project_step_spec series_sum root st item) as [l Hstep].
    rewrite Hstep.
    destruct (yields_sheet series_sum App.read_frame root item).
    + cbn [map]. rewrite (add_sheets_cons (App.wb st) _ (map _ _)).
      destruct (add_sheets (App.wb st) [_]) as [w|e]; [|reflexivity].
      cbn [bind].
      match goal with
      | |- context [foldM _ names ?s] => specialize (IH s)
      end.
      cbv zeta in IH. cbn [App.wb App.added App.project_summaries] in IH.
      destruct (foldM _ names _) as [st'|e]; [|exact IH].
      destruct IH as (Hw & Ha & Hs).
      split; [exact Hw|]. split; [simpl; lia|].
      rewrite Hs. unfold append. rewrite <- app_assoc. reflexivity.
    + cbn [bind].
      match goal with
      | |- context [foldM _ names ?s] => specialize (IH s)
      end.
      cbv zeta in IH. cbn [App.wb App.added App.project_summaries] in IH.
      exact IH.
Qed.

Lemma Cli_build_fold (series_sum : list F64.float -> F64.float)
    (root : root_dir) (names : list string) (st : Cli.build_state) :
  let items := filter (yields_sheet series_sum read_csv root) names in
  let reqs := map (sheet_request series_sum read_csv root) items in
  match foldM (Cli.project_step series_sum root) names st with
  | Ok st' =>
      add_sheets (Cli.wb st) reqs = Ok (Cli.wb st')
      /\ Cli.added st' = (Cli.added st + List.length items)%nat
  | Raise e => add_sheets (Cli.wb st) reqs = Raise e
  end.
Proof.
  revert st. induction names as [|item names IH]; intros st.
  - cbn. rewrite Nat.add_0_r. repeat split.
  - cbv zeta. cbn [foldM filter].
    destruct (Cli_project_step_spec series_sum root st item) as [l Hstep].
    rewrite Hstep.
    destruct (yields_sheet series_sum read_csv root item).
    + cbn [map]. rewrite (add_sheets_cons (Cli.wb st) _ (map _ _)).
      destruct (add_sheets (Cli.wb st) [_]) as [w|e]; [|reflexivity].
      cbn [bind].
      match goal with
      | |- context [foldM _ names ?s] => specialize (IH s)
      end.
      cbv zeta in IH. cbn [Cli.wb Cli.added] in IH.
      destruct (foldM _ names _) as [st'|e]; [|exact IH].
      destruct IH as (Hw & Ha).
      split; [exact Hw|]. simpl. lia.
    + cbn [bind].
      match goal with
      | |- context [foldM _ names ?s] => specialize (IH s)
      end.
      cbv zeta in IH. cbn [Cli.wb Cli.added] in IH.
      exact IH.
Qed.

Lemma remove_default_created (created : list sheet) :
  Forall (fun s => (1 <= sid s)%nat) created ->
  remove_sheet (default_sheet :: created) default_sheet = created.
Proof.
  intros H. unfold remove_sheet. simpl.
  induction H as [|s l Hs Hl IH]; simpl; [reflexivity|].
  destruct (Nat.eqb_spec (sid s) 0) as [E|E]; [lia|].
  simpl. f_equal. exact IH.
Qed.

(** The workbook after the last step, from the sheets the loop created:
    the title "NoData" is new to a workbook that holds the default sheet
    alone, and the sink takes it. *)
Lemma finish_created (created : list sheet) (n : nat) :
  Forall (fun s => (1 <= sid s)%nat) created ->
  n = List.length created ->
  App.finish_workbook (default_sheet :: created) n
  = Ok match created with
       | [] => [nodata_sheet]
       | _ :: _ => created
       end.
Proof.
  intros Hsid ->. unfold App.finish_workbook.
  destruct created as [|s l]; [vm_compute; reflexivity|].
  change (Nat.ltb 0 (List.length (s :: l))) with true. cbv iota.
  f_equal. apply remove_default_created. exact Hsid.
Qed.

Lemma created_not_default (created : list sheet) :
  Forall (fun s => (1 <= sid s)%nat) created ->
  ~ In default_sheet created
  /\ Forall (fun s => sid s <> sid default_sheet) created.
Proof.
  intros H. split.
  - intros Hin. rewrite Forall_forall in H. specialize (H _ Hin).
    simpl in H. lia.
  - revert H. apply Forall_impl. intros s Hs. simpl. lia.
Qed.

(** A run of [generate_workbook_bytes] ends with the exception of the
    sink, or with the workbook built from the requests of the projects
    that yield month records, and their summaries. *)
Lemma App_generate_spec (series_sum : list F64.float -> F64.float)
    (root : root_dir) :
  let items := sheet_projects series_sum App.read_frame root in
  let reqs := map (sheet_request series_sum App.read_frame root) items in
  match App.generate_workbook_bytes series_sum root with
  | Ok (w, summaries, _) =>
      built_from reqs w
      /\ summaries = map (project_summary series_sum App.read_frame root) items
  | Raise e => add_sheets new_workbook reqs = Raise e
  end.
Proof.
  unfold App.generate_workbook_bytes, sheet_projects. cbv zeta.
  pose proof (App_build_fold series_sum root (sorted_str (listdir root))
                App.initial_state) as H.
  cbv zeta in H.
  destruct (foldM _ _ _) as [st|e]; [|exact H].
  destruct H as (Hw & Ha & Hs). cbn [bind].
  cbn [App.initial_state App.wb App.added App.project_summaries] in Hw, Ha, Hs.
  destruct (add_sheets_ok _ _ _ Hw) as (created & Ewb & Hc & Hsid & _ & _).
  cbn [new_workbook app] in Ewb. cbn [new_workbook List.length] in Hsid.
  assert (Hl : App.added st = List.length created).
  { rewrite Ha. cbn [Nat.add]. rewrite <- (length_map cells created), Hc.
    rewrite !length_map. reflexivity. }
  rewrite Ewb, (finish_created created _ Hsid Hl). cbn [bind].
  split; [|exact Hs].
  exists created. rewrite <- Ewb. repeat split; assumption.
Qed.

Lemma Cli_main_spec (series_sum : list F64.float -> F64.float)
    (root : root_dir) :
  let items := sheet_projects series_sum read_csv root in
  let reqs := map (sheet_request series_sum read_csv root) items in
  match Cli.main series_sum root with
  | Ok (w, _) => built_from reqs w
  | Raise e => add_sheets new_workbook reqs = Raise e
  end.
Proof.
  unfold Cli.main, sheet_projects. cbv zeta.
  pose proof (Cli_build_fold series_sum root (sorted_str (listdir root))
                Cli.initial_state) as H.
  cbv zeta in H.
  destruct (foldM _ _ _) as [st|e]; [|exact H].
  destruct H as (Hw & Ha). cbn [bind].
  cbn [Cli.initial_state Cli.wb Cli.added] in Hw, Ha.
  destruct (add_sheets_ok _ _ _ Hw) as (created & Ewb & Hc & Hsid & _ & _).
  cbn [new_workbook app] in Ewb. cbn [new_workbook List.length] in Hsid.
  assert (Hl : Cli.added st = List.length created).
  { rewrite Ha. cbn [Nat.add]. rewrite <- (length_map cells created), Hc.
    rewrite !length_map. reflexivity. }
  change Cli.finish_workbook with App.finish_workbook.
  rewrite Ewb, (finish_created created _ Hsid Hl). cbn [bind].
  exists created. rewrite <- Ewb. repeat split; assumption.
Qed.

(** The workbook built from a list of requests: the default sheet alone
    under the name "NoData" when there is none, and otherwise one sheet per
    request, in order, with the rows kept of the request, the default
    sheet gone; the sink accepted every request, and where the titles
    asked for are distinct and none is "Sheet", letter case ignored, the
    sheets have these titles. *)
Lemma built_from_spec (reqs : list request) (w : list sheet) :
  built_from reqs w ->
  (reqs = [] -> w = [nodata_sheet])
  /\ (reqs <> [] ->
      map cells w = map (fun r => kept_rows (snd r)) reqs
      /\ ~ In default_sheet w
      /\ Forall (fun s => sid s <> sid default_sheet) w
      /\ (NoDup (map PyStr.lower ("Sheet" :: map request_title reqs)) ->
          map title w = map request_title reqs))
  /\ forallb request_accepted reqs = true.
Proof.
  intros (created & Hadd & Hsid & ->).
  destruct (add_sheets_ok _ _ _ Hadd) as (created' & E & Hc & _ & Ha & Ht).
  cbn [new_workbook app] in E. inversion E; subst created'. clear E.
  split.
  { intros ->. cbn [map] in Hc. apply map_eq_nil in Hc. subst created.
    reflexivity. }
  split; [|exact Ha].
  intros Hne. destruct created as [|s l].
  { cbn [map] in Hc. symmetry in Hc. apply map_eq_nil in Hc. contradiction. }
  split; [exact Hc|].
  destruct (created_not_default _ Hsid) as [H1 H2].
  split; [exact H1|]. split; [exact H2|exact Ht].
Qed.

(** The sink builds the workbook of requests that it accepts one by one
    and whose titles are distinct and none "Sheet", letter case ignored. *)
Lemma built_from_returns (reqs : list request) :
  forallb request_accepted reqs = true ->
  NoDup (map PyStr.lower ("Sheet" :: map request_title reqs)) ->
  exists w, add_sheets new_workbook reqs = Ok w.
Proof. intros Ha Hnd. apply add_sheets_returns; assumption. Qed.

Lemma sheet_requests_accepted (series_sum : list F64.float -> F64.float)
    (read : project_dir -> string -> result DataFrame)
    (root : root_dir) (items : list string) :
  forallb request_accepted (map (sheet_request series_sum read root) items)
  = forallb (sheet_accepted series_sum read root) items.
Proof.
  induction items as [|i items IH]; [reflexivity|].
  cbn [map forallb]. rewrite IH. reflexivity.
Qed.

Lemma sheet_requests_titles (series_sum : list F64.float -> F64.float)
    (read : project_dir -> string -> result DataFrame)
    (root : root_dir) (items : list string) :
  map request_title (map (sheet_request series_sum read root) items)
  = map asked_title items.
Proof. rewrite map_map. reflexivity. Qed.

Lemma sheet_requests_cells (series_sum : list F64.float -> F64.float)
    (read : project_dir -> string -> result DataFrame)
    (root : root_dir) (items : list string) :
  map (fun r => kept_rows (snd r))
    (map (sheet_request series_sum read root) items)
  = map (project_cells series_sum read root) items.
Proof. rewrite map_map. reflexivity. Qed.

(** The workbook of a run that returns, from the projects that yield
    month records. *)
Lemma built_from_projects (series_sum : list F64.float -> F64.float)
    (read : project_dir -> string -> result DataFrame)
    (root : root_dir) (items : list string) (w : list sheet) :
  built_from (map (sheet_request series_sum read root) items) w ->
  (items = [] -> w = [nodata_sheet])
  /\ (items <> [] ->
      map cells w = map (project_cells series_sum read root) items
      /\ ~ In default_sheet w
      /\ Forall (fun s => sid s <> sid default_sheet) w
      /\ (distinct_titles items ->
          map sheet_view w = map (project_sheet series_sum read root) items))
  /\ forallb (sheet_accepted series_sum read root) items = true.
Proof.
  intros H. apply built_from_spec in H. destruct H as (H0 & H1 & Ha).
  rewrite sheet_requests_accepted in Ha.
  split; [intros ->; apply H0; reflexivity|].
  split; [|exact Ha].
  intros Hne. destruct H1 as (Hc & Hd & Hs & Ht).
  { intros E. apply map_eq_nil in E. contradiction. }
  rewrite sheet_requests_cells in Hc. rewrite sheet_requests_titles in Ht.
  split; [exact Hc|]. split; [exact Hd|]. split; [exact Hs|].
  intros Hnd. specialize (Ht Hnd). clear - Hc Ht.
  revert w Hc Ht. induction items as [|i items IH]; intros [|s w] Hc Ht;
    try discriminate; [reflexivity|].
  cbn [map] in *. inversion Hc. inversion Ht.
  f_equal; [|apply IH; assumption].
  unfold sheet_view, project_sheet. f_equal; assumption.
Qed.

(** A run ends with an exception only when a project yields month
    records. *)
Lemma add_sheets_none (wb : list sheet) (e : exn) :
  add_sheets wb [] <> Raise e.
Proof. discriminate. Qed.

Lemma App_skip_all (series_sum : list F64.float -> F64.float)
    (root : root_dir) (names : list string) (st : App.build_state) :
  (forall item, In item names ->
                isdir root item = false \/ skipped_name item = true) ->
  foldM (App.project_step series_sum root) names st = Ok st.
Proof.
  revert st. induction names as [|item names IH]; intros st H; cbn [foldM];
    [reflexivity|].
  assert (Hs : App.project_step series_sum root st item = Ok st).
  { unfold App.project_step.
    destruct (H item (or_introl eq_refl)) as [-> | Hk]; [reflexivity|].
    rewrite Hk. destruct (isdir root item); reflexivity. }
  rewrite Hs. cbn [bind]. apply IH. intros i Hi. apply H. right. exact Hi.
Qed.

Lemma Cli_skip_all (series_sum : list F64.float -> F64.float)
    (root : root_dir) (names : list string) (st : Cli.build_state) :
  (forall item, In item names ->
                isdir root item = false \/ skipped_name item = true) ->
  foldM (Cli.project_step series_sum root) names st = Ok st.
Proof.
  revert st. induction names as [|item names IH]; intros st H; cbn [foldM];
    [reflexivity|].
  assert (Hs : Cli.project_step series_sum root st item = Ok st).
  { unfold Cli.project_step.
    destruct (H item (or_introl eq_refl)) as [-> | Hk]; [reflexivity|].
    rewrite Hk. destruct (isdir root item); reflexivity. }
  rewrite Hs. cbn [bind]. apply IH. intros i Hi. apply H. right. exact Hi.
Qed.

(** C8: when no project yields a sheet the run returns the default sheet
    alone, retitled "NoData", and no summary; when at least one does and
    the run returns, the workbook holds one sheet per such project with
    the rows of the project, and the default sheet is gone.  A root with
    no sub-folder, or only hidden, [venv] and [__pycache__] ones, is of the
    first kind.  Both builders. *)
Theorem C8_nodata_or_removed :
  (forall series_sum root,
      sheet_projects series_sum App.read_frame root = [] ->
      exists l,
        App.generate_workbook_bytes series_sum root
        = Ok ([nodata_sheet], [], l))
  /\ (forall series_sum root w summaries l,
        App.generate_workbook_bytes series_sum root = Ok (w, summaries, l) ->
        let items := sheet_projects series_sum App.read_frame root in
        (items = [] ->
         w = [nodata_sheet] /\ map title w = ["NoData"] /\ summaries = [])
        /\ (items <> [] ->
            ~ In default_sheet w
            /\ Forall (fun s => sid s <> sid default_sheet) w
            /\ map cells w
               = map (project_cells series_sum App.read_frame root) items))
  /\ (forall series_sum root,
        sheet_projects series_sum read_csv root = [] ->
        exists out, Cli.main series_sum root = Ok ([nodata_sheet], out))
  /\ (forall series_sum root w out,
        Cli.main series_sum root = Ok (w, out) ->
        let items := sheet_projects series_sum read_csv root in
        (items = [] -> w = [nodata_sheet] /\ map title w = ["NoData"])
        /\ (items <> [] ->
            ~ In default_sheet w
            /\ Forall (fun s => sid s <> sid default_sheet) w
            /\ map cells w
               = map (project_cells series_sum read_csv root) items))
  /\ (forall series_sum root,
        (forall item, In item (listdir root) ->
                      isdir root item = false \/ skipped_name item = true) ->
        App.generate_workbook_bytes series_sum root
        = Ok ([nodata_sheet], [], [])
        /\ result_map fst (Cli.main series_sum root) = Ok [nodata_sheet]).
Proof.
  split.
  { intros series_sum root E.
    pose proof (App_generate_spec series_sum root) as H. cbv zeta in H.
    rewrite E in H. cbn [map] in H.
    destruct (App.generate_workbook_bytes series_sum root) as [[[w s] l]|e];
      [|discriminate H].
    destruct H as (Hb & ->).
    apply built_from_spec in Hb. destruct Hb as (H0 & _).
    rewrite (H0 eq_refl). exists l. reflexivity. }
  split.
  { intros series_sum root w summaries l E items.
    pose proof (App_generate_spec series_sum root) as H. cbv zeta in H.
    rewrite E in H. destruct H as (Hb & Hs).
    apply built_from_projects in Hb. destruct Hb as (H0 & H1 & _).
    fold items in H0, H1, Hs. split.
    - intros Ei. rewrite (H0 Ei). rewrite Hs, Ei. repeat split.
    - intros Hne. destruct (H1 Hne) as (Hc & Hd & Hsid & _).
      repeat split; assumption. }
  split.
  { intros series_sum root E.
    pose proof (Cli_main_spec series_sum root) as H. cbv zeta in H.
    rewrite E in H. cbn [map] in H.
    destruct (Cli.main series_sum root) as [[w out]|e]; [|discriminate H].
    apply built_from_spec in H. destruct H as (H0 & _).
    rewrite (H0 eq_refl). exists out. reflexivity. }
  split.
  { intros series_sum root w out E items.
    pose proof (Cli_main_spec series_sum root) as H. cbv zeta in H.
    rewrite E in H.
    apply built_from_projects in H. destruct H as (H0 & H1 & _).
    fold items in H0, H1. split.
    - intros Ei. rewrite (H0 Ei). repeat split.
    - intros Hne. destruct (H1 Hne) as (Hc & Hd & Hsid & _).
      repeat split; assumption. }
  intros series_sum root H.
  assert (Hs : forall item, In item (sorted_str (listdir root)) ->
                 isdir root item = false \/ skipped_name item = true).
  { intros item Hi. apply H.
    apply (Permutation_in _ (Permutation_sym (sorted_str_perm _)) Hi). }
  unfold App.generate_workbook_bytes, Cli.main.
  rewrite (App_skip_all _ _ _ _ Hs), (Cli_skip_all _ _ _ _ Hs).
  split; vm_compute; reflexivity.
Qed.

Lemma C8_witness :
  App.generate_workbook_bytes F64.sum
    [("notes.txt", Plain); (".git", Project []); ("venv", Project [])]
  = Ok ([nodata_sheet], [], []).
Proof.
  destruct C8_nodata_or_removed as (_ & _ & _ & _ & H).
  refine (proj1 (H F64.sum _ _)). intros item Hi. simpl in Hi.
  destruct Hi as [<-|[<-|[<-|[]]]]; [left|right|right]; reflexivity.
Defined.

(** ** Sheets *)

Lemma fold_append_rows {A B : Type} (g : A -> B) (l : list A) (ws : list B) :
  fold_left (fun w e => append w (g e)) l ws = (ws ++ map g l)%list.
Proof.
  revert ws. induction l as [|a l IH]; intros ws; simpl.
  - symmetry. apply app_nil_r.
  - rewrite IH. unfold append. rewrite <- app_assoc. reflexivity.
Qed.

Lemma append_month_block (mt : dict MonthRecord) (ws : list (list value))
    (mn : string) :
  append_month mt ws mn = (ws ++ month_block mn (month_of mt mn))%list.
Proof.
  unfold append_month, month_block.
  rewrite (fold_append_rows (fun e => [fst e; VFloat (snd e)])).
  unfold append. rewrite <- !app_assoc. reflexivity.
Qed.

Lemma fold_append_month (mt : dict MonthRecord) (labels : list string)
    (ws : list (list value)) :
  fold_left (append_month mt) labels ws
  = (ws ++ flat_map (fun mn => month_block mn (month_of mt mn)) labels)%list.
Proof.
  revert ws. induction labels as [|mn labels IH]; intros ws; simpl.
  - symmetry. apply app_nil_r.
  - rewrite IH, append_month_block, <- app_assoc. reflexivity.
Qed.

(** The sheet of a project: the header, the month blocks in the order of
    [sorted(month_totals.keys(), key=month_sort_key)], a blank row and the
    total row. *)
Lemma sheet_rows_blocks (mt : dict MonthRecord) :
  sheet_rows mt
  = (header_row
       :: flat_map (fun mn => month_block mn (month_of mt mn))
            (sorted_months (dict_keys mt))
       ++ [[]; total_row mt])%list.
Proof.
  unfold sheet_rows. rewrite fold_append_month. unfold append. simpl.
  rewrite <- app_assoc. reflexivity.
Qed.

Lemma month_of_key (mt : dict MonthRecord) (mn : string) :
  In mn (dict_keys mt) ->
  exists r, dict_get mt mn = Some r /\ month_of mt mn = r.
Proof.
  intros H. apply dict_get_in_keys in H. unfold month_of.
  destruct (dict_get mt mn) as [r|]; [|contradiction].
  exists r. split; reflexivity.
Qed.

(** C1, the statement as written fails: "Jan" and "Feb" are not month
    names to the orderer, both labels get the key 9999 and the label
    breaks the tie, so the block of Feb_2024 stands before the block of
    Jan_2024.  The total row is ["TOTAL", 15.5]. *)
Lemma C1_counterexample :
  month_sort_key "Jan_2024" = (9999, "Jan_2024")
  /\ month_sort_key "Feb_2024" = (9999, "Feb_2024")
  /\ sorted_months (dict_keys sample_months) = ["Feb_2024"; "Jan_2024"]
  /\ sheet_rows sample_months
     = [ [VStr "Month"; VStr "Total Hours"];
         [VStr "Feb_2024"; VFloat f5];
         [VStr "Description"; VStr "Hours"];
         [];
         [VStr "Jan_2024"; VFloat f10_5];
         [VStr "Description"; VStr "Hours"];
         [];
         [];
         [VStr "TOTAL"; VFloat f15_5] ].
Proof. vm_compute. repeat split. Qed.

Lemma kept_rows_app (a b : list (list value)) :
  kept_rows (a ++ b) = (kept_rows a ++ kept_rows b)%list.
Proof. apply map_app. Qed.

Lemma kept_rows_flat_map {A : Type} (f : A -> list (list value)) (l : list A) :
  kept_rows (flat_map f l) = flat_map (fun a => kept_rows (f a)) l.
Proof.
  induction l as [|a l IH]; [reflexivity|].
  cbn [flat_map]. rewrite kept_rows_app, IH. reflexivity.
Qed.

(** The fixed strings of a sheet are kept as they are. *)
Lemma kept_fixed_rows (mt : dict MonthRecord) :
  map kept_value header_row = header_row
  /\ map kept_value (total_row mt) = total_row mt.
Proof.
  split; [vm_compute; reflexivity|].
  unfold total_row. cbn [map kept_value].
  replace (substring 0 Openpyxl.max_cell_length "TOTAL") with "TOTAL"
    by (vm_compute; reflexivity).
  reflexivity.
Qed.

(** The rows a sheet keeps of the rows of a project: the layout of
    [sheet_rows], block by block. *)
Lemma kept_sheet_rows (mt : dict MonthRecord) :
  kept_rows (sheet_rows mt)
  = (header_row
       :: flat_map (fun mn => kept_rows (month_block mn (month_of mt mn)))
            (sorted_months (dict_keys mt))
       ++ [[]; total_row mt])%list.
Proof.
  rewrite sheet_rows_blocks. unfold kept_rows at 1. cbn [map].
  fold (kept_rows
          (flat_map (fun mn => month_block mn (month_of mt mn))
             (sorted_months (dict_keys mt)) ++ [[]; total_row mt])).
  rewrite kept_rows_app, kept_rows_flat_map.
  destruct (kept_fixed_rows mt) as [-> Ht].
  unfold kept_rows at 2. cbn [map]. rewrite Ht. reflexivity.
Qed.

Lemma kept_sheet_rows_last (mt : dict MonthRecord) :
  last (kept_rows (sheet_rows mt)) [] = total_row mt.
Proof.
  rewrite kept_sheet_rows.
  set (blocks := flat_map _ (sorted_months (dict_keys mt))).
  replace (header_row :: blocks ++ [[]; total_row mt])%list
    with ((header_row :: blocks ++ [[]]) ++ [total_row mt])%list
    by (cbn [app]; rewrite <- app_assoc; reflexivity).
  apply last_last.
Qed.

(** C1 (amended): the rows appended to the sheet of a project are the
    header row, one block per month label in ascending order of
    [month_sort_key] (each block headed by the label and the total of its
    record), a blank row and a final ["TOTAL", grand] row with grand =
    round(sum of the month totals, 2), and the sheet keeps them in this
    layout; a workbook that a builder returns holds exactly these sheets
    when a project yields month records, and a builder returns when the
    sink accepts every sheet and the titles asked for are distinct.  For
    the months "Jan_2024": 10.5 and "Feb_2024": 5.0 the key of both labels
    is 9999, the block of Feb_2024 comes first, and the last row is
    ["TOTAL", 15.5]; with the full names "January_2024" and
    "February_2024" January comes first. *)
Theorem C1_sheet_layout :
  (forall mt : dict MonthRecord,
      sheet_rows mt
      = (header_row
           :: flat_map (fun mn => month_block mn (month_of mt mn))
                (sorted_months (dict_keys mt))
           ++ [[]; total_row mt])%list
      /\ last (sheet_rows mt) [] = total_row mt
      /\ Permutation (dict_keys mt) (sorted_months (dict_keys mt))
      /\ StronglySorted label_le (sorted_months (dict_keys mt))
      /\ (forall mn, In mn (sorted_months (dict_keys mt)) ->
            exists r, dict_get mt mn = Some r /\ month_of mt mn = r)
      /\ kept_rows (sheet_rows mt)
         = (header_row
              :: flat_map
                   (fun mn => kept_rows (month_block mn (month_of mt mn)))
                   (sorted_months (dict_keys mt))
              ++ [[]; total_row mt])%list
      /\ last (kept_rows (sheet_rows mt)) [] = total_row mt)
  /\ (forall series_sum root w summaries l,
        App.generate_workbook_bytes series_sum root = Ok (w, summaries, l) ->
        sheet_projects series_sum App.read_frame root <> [] ->
        map cells w
        = map (fun item =>
                 kept_rows
                   (sheet_rows
                      (months_or_empty series_sum App.read_frame root item)))
            (sheet_projects series_sum App.read_frame root))
  /\ (forall series_sum root w out,
        Cli.main series_sum root = Ok (w, out) ->
        sheet_projects series_sum read_csv root <> [] ->
        map cells w
        = map (fun item =>
                 kept_rows
                   (sheet_rows (months_or_empty series_sum read_csv root item)))
            (sheet_projects series_sum read_csv root))
  /\ (forall series_sum root,
        let items := sheet_projects series_sum App.read_frame root in
        forallb (sheet_accepted series_sum App.read_frame root) items = true ->
        distinct_titles items ->
        exists w summaries l,
          App.generate_workbook_bytes series_sum root = Ok (w, summaries, l)
          /\ (items <> [] ->
              map sheet_view w
              = map (fun item =>
                       (asked_title item,
                        kept_rows
                          (sheet_rows
                             (months_or_empty series_sum App.read_frame
                                root item))))
                  items))
  /\ (forall series_sum root,
        let items := sheet_projects series_sum read_csv root in
        forallb (sheet_accepted series_sum read_csv root) items = true ->
        distinct_titles items ->
        exists w out,
          Cli.main series_sum root = Ok (w, out)
          /\ (items <> [] ->
              map sheet_view w
              = map (fun item =>
                       (asked_title item,
                        kept_rows
                          (sheet_rows
                             (months_or_empty series_sum read_csv root item))))
                  items))
  /\ sorted_months (dict_keys sample_months) = ["Feb_2024"; "Jan_2024"]
  /\ last (sheet_rows sample_months) [] = [VStr "TOTAL"; VFloat f15_5]
  /\ sheet_rows full_name_months
     = [ [VStr "Month"; VStr "Total Hours"];
         [VStr "January_2024"; VFloat f10_5];
         [VStr "Description"; VStr "Hours"];
         [];
         [VStr "February_2024"; VFloat f5];
         [VStr "Description"; VStr "Hours"];
         [];
         [];
         [VStr "TOTAL"; VFloat f15_5] ].
Proof.
  split.
  { intros mt. split; [apply sheet_rows_blocks|]. split.
    { unfold sheet_rows, append. apply last_last. }
    split; [apply sorted_months_perm|].
    split; [apply sorted_months_sorted|].
    split.
    { intros mn Hin. apply month_of_key.
      apply (Permutation_in _ (Permutation_sym (sorted_months_perm _)) Hin). }
    split; [apply kept_sheet_rows|apply kept_sheet_rows_last]. }
  split.
  { intros series_sum root w summaries l E Hne.
    pose proof (App_generate_spec series_sum root) as H. cbv zeta in H.
    rewrite E in H. destruct H as (Hb & _).
    apply built_from_projects in Hb. destruct Hb as (_ & H1 & _).
    destruct (H1 Hne) as (Hc & _). exact Hc. }
  split.
  { intros series_sum root w out E Hne.
    pose proof (Cli_main_spec series_sum root) as H. cbv zeta in H.
    rewrite E in H.
    apply built_from_projects in H. destruct H as (_ & H1 & _).
    destruct (H1 Hne) as (Hc & _). exact Hc. }
  split.
  { intros series_sum root items Ha Hnd.
    pose proof (App_generate_spec series_sum root) as H. cbv zeta in H.
    fold items in H.
    destruct (App.generate_workbook_bytes series_sum root)
      as [[[w s] l]|e].
    - exists w, s, l. split; [reflexivity|].
      destruct H as (Hb & _).
      apply built_from_projects in Hb. destruct Hb as (_ & H1 & _).
      intros Hne. destruct (H1 Hne) as (_ & _ & _ & Hv). exact (Hv Hnd).
    - exfalso.
      destruct (built_from_returns
                  (map (sheet_request series_sum App.read_frame root) items))
        as [w Hw].
      + rewrite sheet_requests_accepted. exact Ha.
      + rewrite sheet_requests_titles. exact Hnd.
      + rewrite Hw in H. discriminate H. }
  split.
  { intros series_sum root items Ha Hnd.
    pose proof (Cli_main_spec series_sum root) as H. cbv zeta in H.
    fold items in H.
    destruct (Cli.main series_sum root) as [[w out]|e].
    - exists w, out. split; [reflexivity|].
      apply built_from_projects in H. destruct H as (_ & H1 & _).
      intros Hne. destruct (H1 Hne) as (_ & _ & _ & Hv). exact (Hv Hnd).
    - exfalso.
      destruct (built_from_returns
                  (map (sheet_request series_sum read_csv root) items))
        as [w Hw].
      + rewrite sheet_requests_accepted. exact Ha.
      + rewrite sheet_requests_titles. exact Hnd.
      + rewrite Hw in H. discriminate H. }
  vm_compute. repeat split.
Qed.

Lemma C1_witness :
  exists w summaries l,
    App.generate_workbook_bytes F64.sum sample_root = Ok (w, summaries, l)
    /\ map cells w
       = [ [ [VStr "Month"; VStr "Total Hours"];
             [VStr "Jan_2024"; VFloat f8_25];
             [VStr "Description"; VStr "Hours"];
             [VStr "design"; VFloat f2_5];
             [VStr "review"; VFloat f6_75];
             [];
             [];
             [VStr "TOTAL"; VFloat f8_25] ] ].
Proof.
  destruct C1_sheet_layout as (_ & H & _).
  destruct (App.generate_workbook_bytes F64.sum sample_root)
    as [[[w s] l]|e] eqn:E; [|vm_compute in E; discriminate E].
  exists w, s, l. split; [reflexivity|].
  rewrite (H F64.sum sample_root w s l E);
    [vm_compute; reflexivity|vm_compute; discriminate].
Defined.

(** The end-to-end scenario of the specification: one sheet for
    [ProjectA] with the January block, the February failure in the log,
    the grand total 8.25. *)
Example end_to_end_sample :
  App.generate_workbook_bytes F64.sum sample_root
  = Ok ([ {| sid := 1; title := "ProjectA";
             cells := [ [VStr "Month"; VStr "Total Hours"];
                        [VStr "Jan_2024"; VFloat f8_25];
                        [VStr "Description"; VStr "Hours"];
                        [VStr "design"; VFloat f2_5];
                        [VStr "review"; VFloat f6_75];
                        [];
                        [];
                        [VStr "TOTAL"; VFloat f8_25] ] |} ],
        [("ProjectA", f8_25)],
        [ App.LogProcessing "ProjectA";
          App.LogReadError "ProjectA" "Feb_2024.csv" decode_error;
          App.LogOk "ProjectA" "Jan_2024.csv" f8_25 "Duration (h)" ]).
Proof. vm_compute. reflexivity. Qed.

(** * Further properties of the helpers *)

(** ** Strings: stripping, lowering, replacing *)

Lemma lower_char_idem (c : ascii) :
  PyStr.lower_char (PyStr.lower_char c) = PyStr.lower_char c.
Proof. destruct c as [[] [] [] [] [] [] [] []]; reflexivity. Qed.

Lemma lower_char_space (c : ascii) :
  PyStr.is_space (PyStr.lower_char c) = PyStr.is_space c.
Proof. destruct c as [[] [] [] [] [] [] [] []]; reflexivity. Qed.

Lemma lower_idem (s : string) : PyStr.lower (PyStr.lower s) = PyStr.lower s.
Proof.
  induction s as [|c r IH]; simpl; [reflexivity|].
  rewrite lower_char_idem, IH. reflexivity.
Qed.

Lemma lower_remove_lower (p : ascii -> bool) (s : string) :
  PyStr.lower (PyStr.remove p (PyStr.lower s)) = PyStr.remove p (PyStr.lower s).
Proof.
  induction s as [|c r IH]; simpl; [reflexivity|].
  destruct (p (PyStr.lower_char c)); simpl; [exact IH|].
  rewrite lower_char_idem, IH. reflexivity.
Qed.

Lemma remove_all_kept (p : ascii -> bool) (s : string) :
  PyStr.all_chars (fun c => negb (p c)) (PyStr.remove p s) = true.
Proof.
  induction s as [|c r IH]; simpl; [reflexivity|].
  destruct (p c) eqn:E; simpl; [exact IH|]. rewrite E, IH. reflexivity.
Qed.

Lemma remove_kept_id (p : ascii -> bool) (s : string) :
  PyStr.all_chars (fun c => negb (p c)) s = true -> PyStr.remove p s = s.
Proof.
  induction s as [|c r IH]; simpl; [reflexivity|].
  intros H. apply andb_true_iff in H. destruct H as [Hc Hr].
  apply negb_true_iff in Hc. rewrite Hc, (IH Hr). reflexivity.
Qed.

Lemma rstrip_no_space (s : string) :
  PyStr.all_chars (fun c => negb (PyStr.is_space c)) s = true ->
  PyStr.rstrip s = s.
Proof.
  induction s as [|c r IH]; simpl; [reflexivity|].
  intros H. apply andb_true_iff in H. destruct H as [Hc Hr].
  apply negb_true_iff in Hc. rewrite (IH Hr), Hc.
  destruct r; reflexivity.
Qed.

Lemma lstrip_no_space (s : string) :
  PyStr.all_chars (fun c => negb (PyStr.is_space c)) s = true ->
  PyStr.lstrip s = s.
Proof.
  destruct s as [|c r]; simpl; [reflexivity|].
  intros H. apply andb_true_iff in H. destruct H as [Hc _].
  apply negb_true_iff in Hc. rewrite Hc. reflexivity.
Qed.

Lemma all_chars_impl (p q : ascii -> bool) (s : string) :
  (forall c, p c = true -> q c = true) ->
  PyStr.all_chars p s = true -> PyStr.all_chars q s = true.
Proof.
  intros Hpq. induction s as [|c r IH]; simpl; [reflexivity|].
  intros H. apply andb_true_iff in H. destruct H as [Hc Hr].
  rewrite (Hpq _ Hc), (IH Hr). reflexivity.
Qed.

Lemma kept_not_space (c : ascii) :
  kept_in_col c = true -> negb (PyStr.is_space c) = true.
Proof.
  unfold kept_in_col, is_col_noise.
  destruct (PyStr.is_space c); [discriminate|reflexivity].
Qed.

Lemma normalize_col_kept (c : string) :
  PyStr.all_chars kept_in_col (normalize_col c) = true.
Proof. apply remove_all_kept. Qed.

(** A normalized name is a fixed point of the normalization. *)
Lemma normalize_col_idem (c : string) :
  normalize_col (normalize_col c) = normalize_col c.
Proof.
  pose proof (normalize_col_kept c) as K.
  pose proof (all_chars_impl _ _ _ kept_not_space K) as S.
  unfold normalize_col at 1. unfold PyStr.strip.
  rewrite (lstrip_no_space _ S), (rstrip_no_space _ S).
  unfold normalize_col at 1. rewrite lower_remove_lower.
  apply remove_kept_id. exact K.
Qed.

(** X1: the column normalization is idempotent; what it returns holds no
    blank, parenthesis, hyphen or period and is unchanged by lowering. *)
Theorem X1_normalize_col_fixed_point (c : string) :
  normalize_col (normalize_col c) = normalize_col c
  /\ PyStr.all_chars kept_in_col (normalize_col c) = true
  /\ PyStr.lower (normalize_col c) = normalize_col c.
Proof.
  split; [apply normalize_col_idem|].
  split; [apply normalize_col_kept|].
  unfold normalize_col. apply lower_remove_lower.
Qed.

(** ** Column Sniffer: when it answers *)

Lemma candidates_duration_like (k : string) :
  In k duration_candidates -> duration_like k = true.
Proof.
  intros [<-|[<-|[<-|[]]]]; reflexivity.
Qed.

Lemma last_with_norm_some (cols : list string) (k c : string) :
  last_with_norm cols k = Some c -> In c cols /\ normalize_col c = k.
Proof.
  unfold last_with_norm. intros H. apply find_some in H.
  destruct H as [Hin Hk]. split; [apply in_rev, Hin|].
  apply String.eqb_eq. exact Hk.
Qed.

Lemma last_with_norm_in (cols : list string) (c : string) :
  In c cols -> last_with_norm cols (normalize_col c) <> None.
Proof.
  intros Hin H. unfold last_with_norm in H.
  apply in_rev in Hin.
  pose proof (find_none _ _ H c Hin) as F. unfold norm_is in F.
  rewrite String.eqb_refl in F. discriminate.
Qed.

Lemma first_exact_some (pick : string -> option string)
    (cands : list string) (c : string) :
  first_exact pick cands = Some c -> exists k, In k cands /\ pick k = Some c.
Proof.
  induction cands as [|k ks IH]; simpl; [discriminate|].
  destruct (pick k) as [c'|] eqn:E.
  - intros H. inversion H; subst. exists k. split; [left; reflexivity|exact E].
  - intros H. destruct (IH H) as [k' [Hin Hp]].
    exists k'. split; [right; exact Hin|exact Hp].
Qed.

Lemma sniff_duration_some (cols : list string) (c : string) :
  sniff_duration cols = Some c ->
  In c cols /\ duration_like (normalize_col c) = true.
Proof.
  unfold sniff_duration.
  destruct (first_exact (last_with_norm cols) duration_candidates)
    as [c'|] eqn:E.
  - intros H. inversion H; subst c'.
    destruct (first_exact_some _ _ _ E) as [k [Hk Hp]].
    destruct (last_with_norm_some _ _ _ Hp) as [Hin Hn].
    split; [exact Hin|]. rewrite Hn. apply candidates_duration_like, Hk.
  - destruct (first_like cols) as [c0|] eqn:F; [|discriminate].
    intros H. destruct (last_with_norm_some _ _ _ H) as [Hin Hn].
    split; [exact Hin|]. rewrite Hn.
    apply find_some in F. tauto.
Qed.

Lemma sniff_duration_none (cols : list string) :
  sniff_duration cols = None <->
  (forall c, In c cols -> duration_like (normalize_col c) = false).
Proof.
  split.
  - intros H c Hin.
    destruct (duration_like (normalize_col c)) eqn:D; [|reflexivity].
    exfalso. unfold sniff_duration in H.
    destruct (first_exact _ _); [discriminate|].
    destruct (first_like cols) as [c0|] eqn:F.
    + apply find_some in F. destruct F as [Hin0 _].
      exact (last_with_norm_in _ _ Hin0 H).
    + unfold first_like in F. rewrite (find_none _ _ F c Hin) in D.
      discriminate.
  - intros H. destruct (sniff_duration cols) as [c|] eqn:E; [|reflexivity].
    destruct (sniff_duration_some _ _ E) as [Hin D].
    rewrite (H c Hin) in D. discriminate.
Qed.

(** X2: the duration sniffer answers with one of the given columns, whose
    normalized name contains "duration", "time" or "hours"; it answers
    nothing exactly when no column has such a name. *)
Theorem X2_duration_column_found_iff (cols : list string) :
  (forall c, find_duration_column cols = Some c ->
             In c cols /\ duration_like (normalize_col c) = true)
  /\ (find_duration_column cols = None <->
      forall c, In c cols -> duration_like (normalize_col c) = false).
Proof.
  rewrite find_duration_column_spec. split.
  - apply sniff_duration_some.
  - apply sniff_duration_none.
Qed.

Lemma X2_witness :
  In "Billable Time" ["Task"; "Billable Time"]
  /\ duration_like (normalize_col "Billable Time") = true.
Proof.
  apply (X2_duration_column_found_iff ["Task"; "Billable Time"]).
  reflexivity.
Defined.

Lemma find_ext_in {A : Type} (p q : A -> bool) (l : list A) :
  (forall x, p x = q x) -> find p l = find q l.
Proof.
  intros H. induction l as [|a l IH]; simpl; [reflexivity|].
  rewrite H, IH. reflexivity.
Qed.

Lemma last_with_norm_normalized (cols : list string) (k : string) :
  last_with_norm (map normalize_col cols) k
  = option_map normalize_col (last_with_norm cols k).
Proof.
  unfold last_with_norm. rewrite <- map_rev, find_map.
  f_equal. apply find_ext_in. intros c. unfold norm_is.
  rewrite normalize_col_idem. reflexivity.
Qed.

Lemma first_like_normalized (cols : list string) :
  first_like (map normalize_col cols)
  = option_map normalize_col (first_like cols).
Proof.
  unfold first_like. rewrite find_map. f_equal.
  apply find_ext_in. intros c. rewrite normalize_col_idem. reflexivity.
Qed.

Lemma first_exact_map (g : string -> string) (pick : string -> option string)
    (cands : list string) :
  first_exact (fun k => option_map g (pick k)) cands
  = option_map g (first_exact pick cands).
Proof.
  induction cands as [|k ks IH]; simpl; [reflexivity|].
  destruct (pick k); simpl; [reflexivity|exact IH].
Qed.

(** X3: which column the duration sniffer picks depends on the normalized
    names only: on the normalized header it picks the normalized name of
    the column it picks on the header as given. *)
Theorem X3_sniffer_on_normalized_header (cols : list string) :
  find_duration_column (map normalize_col cols)
  = option_map normalize_col (find_duration_column cols).
Proof.
  rewrite !find_duration_column_spec. unfold sniff_duration.
  rewrite (first_exact_ext _ _ _ (last_with_norm_normalized cols)).
  rewrite first_exact_map.
  destruct (first_exact (last_with_norm cols) duration_candidates);
    [reflexivity|]. simpl.
  rewrite first_like_normalized.
  destruct (first_like cols) as [c0|]; simpl; [|reflexivity].
  rewrite normalize_col_idem. apply last_with_norm_normalized.
Qed.

(** ** Duration Parser: what does not change the value *)

Lemma rstrip_idem (s : string) : PyStr.rstrip (PyStr.rstrip s) = PyStr.rstrip s.
Proof.
  induction s as [|c r IH]; [reflexivity|].
  cbn [PyStr.rstrip].
  destruct (PyStr.rstrip r) as [|c' r'] eqn:E.
  - destruct (PyStr.is_space c) eqn:Hs; [reflexivity|].
    cbn [PyStr.rstrip]. rewrite Hs. reflexivity.
  - cbn [PyStr.rstrip]. cbn [PyStr.rstrip] in IH.
    rewrite IH. reflexivity.
Qed.

(** A string that does not start with a blank. *)
Lemma lstrip_head (s : string) :
  match PyStr.lstrip s with
  | EmptyString => True
  | String c _ => PyStr.is_space c = false
  end.
Proof.
  induction s as [|c r IH]; simpl; [exact I|].
  destruct (PyStr.is_space c) eqn:Hs; [exact IH|exact Hs].
Qed.

Lemma lstrip_rstrip_headed (t : string) :
  match t with
  | EmptyString => True
  | String c _ => PyStr.is_space c = false
  end ->
  PyStr.lstrip (PyStr.rstrip t) = PyStr.rstrip t.
Proof.
  destruct t as [|c r]; [reflexivity|]. intros Hc.
  cbn [PyStr.rstrip].
  destruct (PyStr.rstrip r); [rewrite Hc|]; cbn [PyStr.lstrip];
    rewrite Hc; reflexivity.
Qed.

Lemma strip_idem (s : string) : PyStr.strip (PyStr.strip s) = PyStr.strip s.
Proof.
  unfold PyStr.strip.
  rewrite (lstrip_rstrip_headed _ (lstrip_head s)). apply rstrip_idem.
Qed.

Lemma comma_dot_space (c : ascii) :
  PyStr.is_space (if Ascii.eqb c "," then "."%char else c) = PyStr.is_space c.
Proof.
  destruct (Ascii.eqb_spec c ",") as [->|]; reflexivity.
Qed.

Lemma lstrip_replace (s : string) :
  PyStr.lstrip (PyStr.replace "," "." s)
  = PyStr.replace "," "." (PyStr.lstrip s).
Proof.
  induction s as [|c r IH]; [reflexivity|].
  cbn [PyStr.replace PyStr.lstrip]. rewrite comma_dot_space.
  destruct (PyStr.is_space c); [exact IH|reflexivity].
Qed.

Lemma rstrip_replace (s : string) :
  PyStr.rstrip (PyStr.replace "," "." s)
  = PyStr.replace "," "." (PyStr.rstrip s).
Proof.
  induction s as [|c r IH]; [reflexivity|].
  cbn [PyStr.replace PyStr.rstrip]. rewrite IH, comma_dot_space.
  destruct (PyStr.rstrip r) as [|c' r']; cbn [PyStr.replace].
  - destruct (PyStr.is_space c); reflexivity.
  - reflexivity.
Qed.

Lemma strip_replace (s : string) :
  PyStr.strip (PyStr.replace "," "." s) = PyStr.replace "," "." (PyStr.strip s).
Proof.
  unfold PyStr.strip. rewrite lstrip_replace. apply rstrip_replace.
Qed.

Lemma replace_idem (s : string) :
  PyStr.replace "," "." (PyStr.replace "," "." s) = PyStr.replace "," "." s.
Proof.
  induction s as [|c r IH]; [reflexivity|].
  cbn [PyStr.replace]. rewrite IH.
  destruct (Ascii.eqb_spec c ",") as [->|N]; [reflexivity|].
  destruct (Ascii.eqb_spec c ","); [contradiction|reflexivity].
Qed.

Lemma cleaned_strip (s : string) : cleaned (PyStr.strip s) = cleaned s.
Proof. unfold cleaned. rewrite strip_idem. reflexivity. Qed.

Lemma cleaned_replace (s : string) :
  cleaned (PyStr.replace "," "." s) = cleaned s.
Proof. unfold cleaned. rewrite strip_replace. apply replace_idem. Qed.

(** The parser sees a string cell through [cleaned] only. *)
Lemma parse_by_cleaned (s t : string) :
  cleaned s = cleaned t ->
  parse_duration_value (VStr s) = parse_duration_value (VStr t).
Proof.
  intros H.
  unfold parse_duration_value, parse_duration_value_py, parse_duration_try.
  cbn [pd_isna is_number py_str]. fold (cleaned s) (cleaned t).
  rewrite H. reflexivity.
Qed.

(** X4: blanks around a string cell and the choice of "," or "." as the
    decimal mark do not change the parsed value. *)
Theorem X4_parse_ignores_blanks_and_comma (s : string) :
  parse_duration_value (VStr (PyStr.strip s)) = parse_duration_value (VStr s)
  /\ parse_duration_value (VStr (PyStr.replace "," "." s))
     = parse_duration_value (VStr s).
Proof.
  split; apply parse_by_cleaned; [apply cleaned_strip|apply cleaned_replace].
Qed.

(** ** Duration Parser: the clock form *)

Lemma cons_digits_junk (c : ascii) (l : list string) :
  PyStr.is_digit c = false -> is_colon c = false -> l <> [] ->
  cons_digits c l = l.
Proof.
  intros Hd Hc Hl. unfold cons_digits. rewrite Hc, Hd.
  destruct l; [contradiction|reflexivity].
Qed.

Lemma digits_split_insert (a b : string) (c : ascii) :
  PyStr.is_digit c = false -> is_colon c = false ->
  map digits_of (PyStr.split_on is_colon (a ++ String c b))
  = map digits_of (PyStr.split_on is_colon (a ++ b)).
Proof.
  intros Hd Hc. induction a as [|x a IH].
  - cbn [String.append]. rewrite digits_split_cons.
    apply cons_digits_junk; [exact Hd|exact Hc|apply map_split_not_nil].
  - cbn [String.append]. rewrite !digits_split_cons, IH. reflexivity.
Qed.

Lemma clock_spec_by_digits (s t : string) :
  map digits_of (PyStr.split_on is_colon s)
  = map digits_of (PyStr.split_on is_colon t) ->
  clock_spec s = clock_spec t.
Proof.
  intros H. unfold clock_spec.
  rewrite !clock_segments_digits, <- !firstn_map, H. reflexivity.
Qed.

Lemma has_colon_by_digits (s t : string) :
  map digits_of (PyStr.split_on is_colon s)
  = map digits_of (PyStr.split_on is_colon t) ->
  PyStr.has_char is_colon s = PyStr.has_char is_colon t.
Proof.
  intros H. rewrite !has_colon_split.
  rewrite <- (length_map digits_of (PyStr.split_on is_colon s)), H.
  rewrite length_map. reflexivity.
Qed.

Lemma clock_unreadable_by_digits (s t : string) :
  map digits_of (PyStr.split_on is_colon s)
  = map digits_of (PyStr.split_on is_colon t) ->
  clock_unreadable s = clock_unreadable t.
Proof.
  intros H. unfold clock_unreadable. apply too_many_digits_map.
  rewrite <- !firstn_map, H. reflexivity.
Qed.

Lemma parse_clock_value (s : string) :
  PyStr.has_char is_colon s = true ->
  parse_duration_value (VStr s)
  = if clock_unreadable s then F64.zero
    else match clock_spec s with
         | Ok f => f
         | Raise _ => F64.zero
         end.
Proof.
  intros Hc. pose proof (parse_clock_form s Hc) as Ht.
  destruct (clock_unreadable s).
  { apply (parse_of_try_raise _ ValueError). exact Ht. }
  destruct (clock_spec s) as [f|e].
  - apply parse_of_try_ok; [reflexivity|exact Ht].
  - apply (parse_of_try_raise _ e). exact Ht.
Qed.

(** X5: in a string with a colon every character that is neither a digit
    nor a colon is ignored, wherever it stands: a minus sign, a unit, a
    blank. *)
Theorem X5_clock_ignores_other_characters (a b : string) (c : ascii) :
  PyStr.is_digit c = false -> is_colon c = false ->
  PyStr.has_char is_colon (a ++ b) = true ->
  parse_duration_value (VStr (a ++ String c b))
  = parse_duration_value (VStr (a ++ b)).
Proof.
  intros Hd Hc Hcol.
  pose proof (digits_split_insert a b c Hd Hc) as E.
  rewrite (parse_clock_value (a ++ b) Hcol).
  rewrite (parse_clock_value (a ++ String c b)).
  - rewrite (clock_spec_by_digits _ _ E), (clock_unreadable_by_digits _ _ E).
    reflexivity.
  - rewrite (has_colon_by_digits _ _ E). exact Hcol.
Qed.

Lemma X5_witness :
  parse_duration_value (VStr "-1:30") = parse_duration_value (VStr "1:30").
Proof.
  apply (X5_clock_ignores_other_characters "" "1:30" "-"); reflexivity.
Defined.

(** *** The value of a clock string is at least zero *)

Lemma signless_at_least_zero (f : F64.float) :
  signless f -> at_least_zero f.
Proof.
  unfold at_least_zero. destruct f as [[]|[]| |[] m e]; simpl;
    intros H; try contradiction; reflexivity.
Qed.

Lemma iter_pos_keeps {A : Type} (P : A -> Prop) (f : A -> A) :
  (forall x, P x -> P (f x)) ->
  forall (p : positive) (x : A), P x -> P (iter_pos f p x).
Proof.
  intros Hf. induction p as [p IH|p IH|]; intros x Hx; simpl.
  - apply IH, IH, Hf, Hx.
  - apply IH, IH, Hx.
  - apply Hf, Hx.
Qed.

Lemma shr_1_nonneg (mrs : shr_record) :
  0 <= shr_m mrs -> 0 <= shr_m (shr_1 mrs).
Proof.
  destruct mrs as [m r s]. simpl.
  destruct m as [|[p|p|]|p]; simpl; lia.
Qed.

Lemma shr_fexp_nonneg (m e : Z) (l : location) :
  0 <= m -> 0 <= shr_m (fst (shr_fexp F64.prec F64.emax m e l)).
Proof.
  intros Hm. unfold shr_fexp, shr.
  assert (H0 : 0 <= shr_m (shr_record_of_loc m l))
    by (destruct l as [|[]]; exact Hm).
  destruct (_ - e) as [|p|p]; simpl; try exact H0.
  apply (iter_pos_keeps (fun x => 0 <= shr_m x)); [exact shr_1_nonneg|exact H0].
Qed.

Lemma round_nearest_even_nonneg (m : Z) (l : location) :
  0 <= m -> 0 <= round_nearest_even m l.
Proof.
  intros Hm. destruct l as [|[]]; simpl; try exact Hm; [|lia].
  destruct (Z.even m); lia.
Qed.

Lemma round_aux_signless (m e : Z) (l : location) :
  0 <= m -> signless (binary_round_aux F64.prec F64.emax false m e l).
Proof.
  intros Hm. unfold binary_round_aux.
  pose proof (shr_fexp_nonneg m e l Hm) as H1.
  destruct (shr_fexp F64.prec F64.emax m e l) as [mrs' e']. simpl in H1.
  pose proof (shr_fexp_nonneg _ e' loc_Exact
                (round_nearest_even_nonneg _ (loc_of_shr_record mrs') H1))
    as H2.
  destruct (shr_fexp F64.prec F64.emax _ e' loc_Exact) as [mrs'' e''].
  simpl in H2.
  destruct (shr_m mrs''); simpl; [exact I| |lia].
  destruct (_ <=? _); exact I.
Qed.

Lemma round_signless (m : positive) (e : Z) :
  signless (binary_round F64.prec F64.emax false m e).
Proof.
  unfold binary_round.
  destruct (shl_align m e _) as [mz ez]. apply round_aux_signless. lia.
Qed.

Lemma of_Z_signless (z : Z) : 0 <= z -> signless (F64.of_Z z).
Proof.
  intros Hz. unfold F64.of_Z, binary_normalize.
  destruct z as [|p|p]; [exact I|apply round_signless|lia].
Qed.

Lemma of_int_signless (z : Z) (f : F64.float) :
  0 <= z -> F64.of_int z = Ok f -> signless f.
Proof.
  intros Hz. unfold F64.of_int.
  pose proof (of_Z_signless z Hz) as S.
  destruct (F64.of_Z z) as [s|s| |s m e]; intros H; inversion H; subst;
    exact S.
Qed.

Lemma div_core_nonneg (ma mb : positive) (ea eb : Z) :
  0 <= fst (fst (SFdiv_core_binary F64.prec F64.emax
                   (Zpos ma) ea (Zpos mb) eb)).
Proof.
  unfold SFdiv_core_binary.
  set (s := _ - _ - _).
  set (m' := match s with
             | Zpos _ => Z.shiftl (Zpos ma) s
             | Z0 => Zpos ma
             | Zneg _ => Z0
             end).
  assert (Hm : 0 <= m').
  { subst m'. destruct s; try lia. apply Z.shiftl_nonneg. lia. }
  pose proof (Z_div_mod m' (Zpos mb) eq_refl) as H.
  destruct (Z.div_eucl m' (Zpos mb)) as [q r]. simpl.
  destruct H as [Hq Hr]. nia.
Qed.

Lemma div_signless (a : F64.float) (mb : positive) (eb : Z) :
  signless a -> signless (F64.div a (S754_finite false mb eb)).
Proof.
  unfold F64.div, SFdiv.
  destruct a as [sa|sa| |sa ma ea]; try destruct sa; simpl;
    try contradiction; intros _; try exact I.
  pose proof (div_core_nonneg ma mb ea eb) as Hq.
  destruct (SFdiv_core_binary F64.prec F64.emax (Zpos ma) ea (Zpos mb) eb)
    as [[mz ez] lz].
  apply round_aux_signless. exact Hq.
Qed.

Lemma add_signless (a b : F64.float) :
  signless a -> signless b -> signless (F64.add a b).
Proof.
  unfold F64.add, SFadd.
  destruct a as [sa|sa| |sa ma ea]; try destruct sa; simpl;
    try contradiction;
    destruct b as [sb|sb| |sb mb eb]; try destruct sb; simpl;
    try contradiction;
    intros _ _; try exact I.
  apply round_signless.
Qed.

Lemma digit_val_nonneg (c : ascii) :
  PyStr.is_digit c = true -> 0 <= PyStr.digit_val c.
Proof.
  unfold PyStr.is_digit, PyStr.in_range, PyStr.digit_val. intros H.
  apply andb_true_iff in H. destruct H as [H _]. apply Nat.leb_le in H. lia.
Qed.

Lemma int_of_digits_from_nonneg (s : string) (acc : Z) :
  0 <= acc -> PyStr.all_chars PyStr.is_digit s = true ->
  0 <= PyStr.int_of_digits_from acc s.
Proof.
  revert acc. induction s as [|c r IH]; intros acc Ha; simpl; [auto|].
  intros H. apply andb_true_iff in H. destruct H as [Hc Hr].
  apply IH; [|exact Hr]. pose proof (digit_val_nonneg c Hc). lia.
Qed.

Lemma digits_of_all_digits (p : string) :
  PyStr.all_chars PyStr.is_digit (digits_of p) = true.
Proof.
  unfold digits_of.
  pose proof (remove_all_kept (fun c => negb (PyStr.is_digit c)) p) as H.
  revert H. apply all_chars_impl. intros c.
  destruct (PyStr.is_digit c); [reflexivity|discriminate].
Qed.

Lemma clock_segment_nonneg (p : string) : 0 <= clock_segment p.
Proof.
  unfold clock_segment.
  destruct (PyStr.nonempty (digits_of p)); [|lia].
  apply int_of_digits_from_nonneg; [lia|apply digits_of_all_digits].
Qed.

Lemma nth_clock_segment_nonneg (l : list string) (i : nat) :
  0 <= nth i (map clock_segment l) 0.
Proof.
  revert i. induction l as [|p l IH]; intros [|i]; simpl; try lia.
  - apply clock_segment_nonneg.
  - apply IH.
Qed.

Lemma clock_hours_signless (h m sec : Z) (f : F64.float) :
  0 <= h -> 0 <= m -> 0 <= sec ->
  clock_hours h m sec = Ok f -> signless f.
Proof.
  intros Hh Hm Hs. unfold clock_hours, bind.
  destruct (F64.of_int m) as [mf|] eqn:Em; [|discriminate].
  destruct (F64.of_int h) as [hf|] eqn:Eh; [|discriminate].
  destruct (F64.of_int sec) as [sf|] eqn:Es; [|discriminate].
  intros H. inversion H; subst.
  apply add_signless; [apply add_signless|].
  - exact (of_int_signless h hf Hh Eh).
  - apply div_signless. exact (of_int_signless m mf Hm Em).
  - apply div_signless. exact (of_int_signless sec sf Hs Es).
Qed.

(** X6: the value parsed from a string with a colon is at least zero
    ([0.0 <= value] holds, so it is no NaN either), whatever signs the
    string holds. *)
Theorem X6_clock_value_at_least_zero (s : string) :
  PyStr.has_char is_colon s = true ->
  at_least_zero (parse_duration_value (VStr s)).
Proof.
  intros Hc. rewrite (parse_clock_value s Hc).
  destruct (clock_unreadable s); [reflexivity|].
  destruct (clock_spec s) as [f|e] eqn:E; [|reflexivity].
  apply signless_at_least_zero.
  unfold clock_spec in E.
  apply (clock_hours_signless _ _ _ _
           (nth_clock_segment_nonneg _ 0) (nth_clock_segment_nonneg _ 1)
           (nth_clock_segment_nonneg _ 2) E).
Qed.

Lemma X6_witness :
  at_least_zero (parse_duration_value (VStr "-2:15:00")).
Proof.
  apply X6_clock_value_at_least_zero. reflexivity.
Defined.

(** ** Month Label Orderer: blanks, dates, bands *)

Lemma month_sort_key_blank (name : string) :
  PyStr.strip name = EmptyString -> month_sort_key name = (9999, EmptyString).
Proof.
  intros H. unfold month_sort_key.
  destruct name as [|c r]; [reflexivity|]. cbn [PyStr.nonempty negb].
  rewrite H. reflexivity.
Qed.

(** X7: blanks around a label do not change its key. *)
Theorem X7_month_sort_key_ignores_blanks (name : string) :
  month_sort_key (PyStr.strip name) = month_sort_key name.
Proof.
  destruct (PyStr.strip name) as [|c r] eqn:E.
  - rewrite (month_sort_key_blank name E). reflexivity.
  - rewrite <- E. unfold month_sort_key. rewrite strip_idem, E.
    destruct name as [|c' r']; [discriminate E|]. reflexivity.
Qed.

Lemma digit_val_range (c : ascii) :
  PyStr.is_digit c = true -> 0 <= PyStr.digit_val c <= 9.
Proof.
  unfold PyStr.is_digit, PyStr.in_range, PyStr.digit_val. intros H.
  apply andb_true_iff in H. destruct H as [H1 H2].
  apply Nat.leb_le in H1. apply Nat.leb_le in H2. lia.
Qed.

Lemma two_digits_range (s : string) :
  Nat.eqb (String.length s) 2 = true ->
  PyStr.all_chars PyStr.is_digit s = true ->
  0 <= PyStr.int_of_digits s <= 99.
Proof.
  destruct s as [|a [|b [|c r]]]; try discriminate. intros _. simpl.
  intros H. apply andb_true_iff in H. destruct H as [Ha H].
  apply andb_true_iff in H. destruct H as [Hb _].
  pose proof (digit_val_range a Ha). pose proof (digit_val_range b Hb).
  unfold PyStr.int_of_digits. simpl. lia.
Qed.

Lemma match_year_month_range (n : string) (y mo : Z) :
  match_year_month n = Some (y, mo) -> 0 <= y /\ 0 <= mo <= 99.
Proof.
  unfold match_year_month.
  destruct (_ && _)%bool eqn:E; [|discriminate].
  intros H. inversion H; subst. clear H.
  repeat (apply andb_true_iff in E; destruct E as [E ?]).
  split.
  - apply int_of_digits_from_nonneg; [lia|assumption].
  - apply two_digits_range; assumption.
Qed.

Lemma MONTH_MAP_range (p : string) (mo : Z) :
  MONTH_MAP p = Some mo -> 1 <= mo <= 12.
Proof.
  unfold MONTH_MAP.
  repeat match goal with
         | |- context [String.eqb p ?k] => destruct (String.eqb p k)
         end;
    intros H; inversion H; lia.
Qed.

Lemma first_month_range (parts : list string) (mo : Z) :
  first_month parts = Some mo -> 1 <= mo <= 12.
Proof.
  induction parts as [|p ps IH]; simpl; [discriminate|].
  destruct (MONTH_MAP p) as [m|] eqn:E; [|exact IH].
  intros H. inversion H; subst. exact (MONTH_MAP_range _ _ E).
Qed.

Lemma first_year_nonneg (parts : list string) (y : Z) :
  first_year parts = Some y -> 0 <= y.
Proof.
  induction parts as [|q qs IH]; simpl; [discriminate|].
  destruct (is_year_token q) eqn:E; [|exact IH].
  intros H. inversion H; subst.
  unfold is_year_token in E. apply andb_true_iff in E.
  apply int_of_digits_from_nonneg; [lia|tauto].
Qed.

(** The key of a dated label encodes its date. *)
Lemma month_sort_key_dated (name : string) (y mo : Z) :
  label_date name = Some (y, mo) ->
  month_sort_key name = (y * 100 + mo, PyStr.strip name)
  /\ 0 <= y /\ 0 <= mo <= 99.
Proof.
  unfold label_date, month_sort_key.
  destruct name as [|c r]; [discriminate|]. cbn [PyStr.nonempty negb].
  fold (label_tokens (String c r)).
  destruct (match_year_month (PyStr.strip (String c r))) as [[y' mo']|] eqn:Em.
  - intros H. inversion H; subst.
    split; [reflexivity|]. exact (match_year_month_range _ _ _ Em).
  - destruct (first_month (label_tokens (String c r))) as [m|] eqn:Emo;
      [|discriminate].
    destruct (first_year (label_tokens (String c r))) as [yr|] eqn:Ey;
      [|discriminate].
    destruct (yr =? 0) eqn:E0; [discriminate|].
    intros H. inversion H; subst. simpl.
    pose proof (first_month_range _ _ Emo).
    pose proof (first_year_nonneg _ _ Ey).
    repeat split; lia.
Qed.

(** X8: labels from which the orderer reads a year and a month sort by
    year, then by month, then by the label without surrounding blanks:
    the key [year*100 + month] keeps the order of the dates. *)
Theorem X8_dated_labels_sort_by_date (a b : string) (ya ma yb mb : Z) :
  label_date a = Some (ya, ma) ->
  label_date b = Some (yb, mb) ->
  (key_ltb (month_sort_key a) (month_sort_key b) = true
   <-> ya < yb
       \/ (ya = yb /\ ma < mb)
       \/ (ya = yb /\ ma = mb
           /\ String.ltb (PyStr.strip a) (PyStr.strip b) = true)).
Proof.
  intros Ha Hb.
  destruct (month_sort_key_dated _ _ _ Ha) as (-> & Hya & Hma).
  destruct (month_sort_key_dated _ _ _ Hb) as (-> & Hyb & Hmb).
  rewrite key_ltb_spec. simpl. split.
  - intros [H|[H1 H2]]; [|right; right; repeat split; try lia; exact H2].
    destruct (Z.lt_trichotomy ya yb) as [L|[E|G]]; [left; exact L| |lia].
    right. left. lia.
  - intros [H|[[H1 H2]|[H1 [H2 H3]]]]; [left; lia|left; lia|right].
    split; [lia|exact H3].
Qed.

Lemma X8_witness :
  key_ltb (month_sort_key "December_2023") (month_sort_key "2024-01") = true.
Proof.
  apply (X8_dated_labels_sort_by_date "December_2023" "2024-01" 2023 12 2024 1);
    [reflexivity|reflexivity|].
  left. reflexivity.
Defined.

Lemma digit_not_space (c : ascii) :
  PyStr.is_digit c = true -> PyStr.is_space c = false.
Proof.
  intros H. destruct (PyStr.is_space c) eqn:E; [|reflexivity].
  rewrite (space_not_digit _ E) in H. discriminate.
Qed.

(** X9: the month of a year-month label is not checked: four digits, "-"
    or "_", and any two digits make a dated label, also 00 and 13 to 99,
    with the key [year*100 + month]. *)
Theorem X9_year_month_any_two_digits
    (y1 y2 y3 y4 sep m1 m2 : ascii) :
  PyStr.is_digit y1 = true -> PyStr.is_digit y2 = true ->
  PyStr.is_digit y3 = true -> PyStr.is_digit y4 = true ->
  sep = "-"%char \/ sep = "_"%char ->
  PyStr.is_digit m1 = true -> PyStr.is_digit m2 = true ->
  let label := year_month_label y1 y2 y3 y4 sep m1 m2 in
  let year :=
    PyStr.int_of_digits (String y1 (String y2 (String y3 (String y4 "")))) in
  let month := PyStr.int_of_digits (String m1 (String m2 "")) in
  month_sort_key label = (year * 100 + month, label)
  /\ label_date label = Some (year, month).
Proof.
  intros D1 D2 D3 D4 Hsep E1 E2 label year month.
  assert (Hstrip : PyStr.strip label = label).
  { unfold PyStr.strip, label, year_month_label.
    cbn [PyStr.lstrip]. rewrite (digit_not_space _ D1).
    cbn [PyStr.rstrip]. rewrite (digit_not_space _ E2). reflexivity. }
  assert (Hm : match_year_month label = Some (year, month)).
  { unfold match_year_month, label, year_month_label.
    cbn [substring String.length Nat.eqb Nat.sub PyStr.all_chars].
    rewrite D1, D2, D3, D4, E1, E2.
    destruct Hsep as [-> | ->]; reflexivity. }
  unfold month_sort_key, label_date.
  rewrite Hstrip, Hm. split; reflexivity.
Qed.

Lemma X9_witness :
  month_sort_key "2024-13" = (202413, "2024-13")
  /\ label_date "2024-13" = Some (2024, 13).
Proof.
  apply (X9_year_month_any_two_digits "2" "0" "2" "4" "-" "1" "3");
    try reflexivity.
  left. reflexivity.
Defined.

(** X10: the keys fall in three bands: a label with a month name and no
    year (2001 to 2012) sorts before an unrecognized label (9999), which
    sorts before a label dated with a year of 100 or more. *)
Theorem X10_three_bands (a b c : string) (mo y m : Z) :
  first_month (label_tokens a) = Some mo ->
  first_year (label_tokens a) = None ->
  unrecognized b ->
  label_date c = Some (y, m) -> 100 <= y ->
  key_ltb (month_sort_key a) (month_sort_key b) = true
  /\ key_ltb (month_sort_key b) (month_sort_key c) = true.
Proof.
  intros Hmo Hy Hb Hc Hy100.
  rewrite (month_sort_key_yearless a mo Hmo Hy).
  rewrite (month_sort_key_unrecognized b Hb).
  destruct (month_sort_key_dated _ _ _ Hc) as (-> & _ & Hm).
  pose proof (first_month_range _ _ Hmo).
  split; apply key_ltb_spec; left; cbn [fst snd]; lia.
Qed.

Lemma X10_witness :
  key_ltb (month_sort_key "March") (month_sort_key "misc") = true
  /\ key_ltb (month_sort_key "misc") (month_sort_key "2019_07") = true.
Proof.
  apply (X10_three_bands "March" "misc" "2019_07" 3 2019 7);
    try reflexivity; [|lia].
  right. split; reflexivity.
Defined.

(** ** [sorted]: stability and independence of the input order *)

Section Stability.
Context {A K : Type}.
Variable ltb : K -> K -> bool.
Variable f : A -> K.
Variable P : A -> bool.

Hypothesis ltb_irrefl : forall k, ltb k k = false.
Hypothesis P_one_key : forall x y, P x = true -> P y = true -> f x = f y.

Lemma insert_by_filter (x : A) (l : list A) :
  filter P (insert_by ltb f x l) = filter P (x :: l).
Proof.
  induction l as [|y l IH]; [reflexivity|].
  cbn [insert_by]. destruct (ltb (f y) (f x)) eqn:E; [|reflexivity].
  cbn [filter] in IH |- *. rewrite IH.
  destruct (P x) eqn:Px, (P y) eqn:Py; try reflexivity.
  rewrite (P_one_key x y Px Py), ltb_irrefl in E. discriminate.
Qed.

Lemma sorted_by_filter (l : list A) :
  filter P (sorted_by ltb f l) = filter P l.
Proof.
  induction l as [|x l IH]; [reflexivity|].
  cbn [sorted_by fold_right]. fold (sorted_by ltb f l).
  rewrite insert_by_filter. cbn [filter]. rewrite IH. reflexivity.
Qed.
End Stability.

Lemma key_ltb_irrefl (k : sort_key) : key_ltb k k = false.
Proof.
  unfold key_ltb. rewrite Z.ltb_irrefl, string_ltb_irrefl, andb_false_r.
  reflexivity.
Qed.

Lemma key_eqb_eq (k1 k2 : sort_key) : key_eqb k1 k2 = true -> k1 = k2.
Proof.
  unfold key_eqb. destruct k1, k2. simpl. intros H.
  apply andb_true_iff in H. destruct H as [H1 H2].
  apply Z.eqb_eq in H1. apply String.eqb_eq in H2. congruence.
Qed.

(** X11: [sorted(labels, key=month_sort_key)] is stable: the labels that
    share a key come out in the order they went in. *)
Theorem X11_sorted_months_stable (k : sort_key) (l : list string) :
  with_key k (sorted_months l) = with_key k l.
Proof.
  unfold with_key, sorted_months.
  apply sorted_by_filter; [exact key_ltb_irrefl|].
  intros x y Hx Hy. apply key_eqb_eq in Hx, Hy. congruence.
Qed.

Lemma string_ge_trans (a b c : string) :
  String.ltb b a = false -> String.ltb c b = false -> String.ltb c a = false.
Proof.
  intros H1 H2. destruct (String.ltb c a) eqn:E; [|reflexivity].
  destruct (String.ltb a b) eqn:F.
  - pose proof (string_ltb_trans _ _ _ E F) as G. congruence.
  - rewrite (string_ltb_connected _ _ F H1) in E. congruence.
Qed.

Lemma sorted_str_sorted (l : list string) :
  StronglySorted (may_precede String.ltb (fun s => s)) (sorted_str l).
Proof.
  apply (sorted_by_sorted String.ltb (fun s => s)
           string_ltb_asym string_ge_trans).
Qed.

(** Two sorted lists with the same elements are the same list, when no two
    different elements tie. *)
Lemma sorted_unique {A : Type} (R : A -> A -> Prop) (l1 l2 : list A) :
  (forall x y, R x y -> R y x -> x = y) ->
  StronglySorted R l1 -> StronglySorted R l2 -> Permutation l1 l2 ->
  l1 = l2.
Proof.
  intros Hanti. revert l2.
  induction l1 as [|x l1 IH]; intros l2 S1 S2 HP.
  - apply Permutation_nil in HP. symmetry. exact HP.
  - destruct l2 as [|y l2].
    { apply Permutation_sym, Permutation_nil in HP. discriminate. }
    inversion S1 as [|? ? S1' F1]; subst.
    inversion S2 as [|? ? S2' F2]; subst.
    assert (Exy : x = y).
    { assert (Hy : In y (x :: l1))
        by (apply (Permutation_in _ (Permutation_sym HP)); left; reflexivity).
      assert (Hx : In x (y :: l2))
        by (apply (Permutation_in _ HP); left; reflexivity).
      destruct Hy as [Hy|Hy]; [exact Hy|].
      destruct Hx as [Hx|Hx]; [symmetry; exact Hx|].
      rewrite Forall_forall in F1, F2.
      apply Hanti; [apply F1, Hy|apply F2, Hx]. }
    subst y. f_equal. apply IH; try assumption.
    exact (Permutation_cons_inv HP).
Qed.

Lemma sorted_str_perm_eq (l1 l2 : list string) :
  Permutation l1 l2 -> sorted_str l1 = sorted_str l2.
Proof.
  intros HP.
  apply (sorted_unique (may_precede String.ltb (fun s => s))).
  - unfold may_precede. intros x y H1 H2.
    apply string_ltb_connected; assumption.
  - apply sorted_str_sorted.
  - apply sorted_str_sorted.
  - rewrite <- (sorted_str_perm l1), <- (sorted_str_perm l2). exact HP.
Qed.

Lemma lookup_not_in {A : Type} (d : list (string * A)) (n : string) :
  ~ In n (map fst d) -> lookup d n = None.
Proof.
  induction d as [|[k v] d IH]; simpl; [reflexivity|].
  intros H. destruct (String.eqb_spec k n) as [->|_]; [tauto|].
  apply IH. tauto.
Qed.

(** With distinct names, looking a name up does not depend on the order of
    the entries. *)
Lemma lookup_perm {A : Type} (d1 d2 : list (string * A)) (n : string) :
  Permutation d1 d2 -> NoDup (map fst d1) -> lookup d1 n = lookup d2 n.
Proof.
  induction 1 as [|[k v] l l' HP IH|[k1 v1] [k2 v2] l|l l' l'' HP1 IH1 HP2 IH2];
    intros Hnd.
  - reflexivity.
  - simpl. inversion Hnd; subst. rewrite IH by assumption. reflexivity.
  - simpl. inversion Hnd as [|? ? Hnot Hnd']; subst.
    destruct (String.eqb_spec k1 n) as [->|]; [|reflexivity].
    destruct (String.eqb_spec k2 n) as [->|]; [|reflexivity].
    exfalso. apply Hnot. left. reflexivity.
  - rewrite IH1 by assumption. apply IH2.
    apply (Permutation_NoDup (Permutation_map fst HP1) Hnd).
Qed.

Lemma fold_left_ext_in {A B : Type} (f g : A -> B -> A) (l : list B) (a : A) :
  (forall x y, f x y = g x y) -> fold_left f l a = fold_left g l a.
Proof.
  intros H. revert a. induction l as [|b l IH]; intros a; simpl;
    [reflexivity|].
  rewrite H. apply IH.
Qed.

Lemma foldM_ext {A B : Type} (f g : A -> B -> result A) (l : list B) (a : A) :
  (forall x y, f x y = g x y) -> foldM f l a = foldM g l a.
Proof.
  intros H. revert a. induction l as [|b l IH]; intros a; cbn [foldM];
    [reflexivity|].
  rewrite H. destruct (g a b); [apply IH|reflexivity].
Qed.

Lemma App_file_step_by_lookup (series_sum : list F64.float -> F64.float)
    (p : string) (d1 d2 : project_dir)
    (acc : dict MonthRecord * list App.log_line) (fname : string) :
  (forall n, lookup d1 n = lookup d2 n) ->
  App.file_step series_sum p d1 acc fname
  = App.file_step series_sum p d2 acc fname.
Proof.
  intros H. unfold App.file_step, App.read_frame, read_csv, read_csv_latin1.
  rewrite H. reflexivity.
Qed.

Lemma Cli_file_step_by_lookup (series_sum : list F64.float -> F64.float)
    (d1 d2 : project_dir)
    (acc : dict MonthRecord * list Cli.line) (fname : string) :
  (forall n, lookup d1 n = lookup d2 n) ->
  Cli.file_step series_sum d1 acc fname
  = Cli.file_step series_sum d2 acc fname.
Proof.
  intros H. unfold Cli.file_step, read_csv. rewrite H. reflexivity.
Qed.

Lemma App_project_step_by_lookup (series_sum : list F64.float -> F64.float)
    (root1 root2 : root_dir) (st : App.build_state) (item : string) :
  (forall n, lookup root1 n = lookup root2 n) ->
  App.project_step series_sum root1 st item
  = App.project_step series_sum root2 st item.
Proof.
  intros H. unfold App.project_step, isdir, App.process_project_folder.
  rewrite H. reflexivity.
Qed.

Lemma Cli_project_step_by_lookup (series_sum : list F64.float -> F64.float)
    (root1 root2 : root_dir) (st : Cli.build_state) (item : string) :
  (forall n, lookup root1 n = lookup root2 n) ->
  Cli.project_step series_sum root1 st item
  = Cli.project_step series_sum root2 st item.
Proof.
  intros H. unfold Cli.project_step, isdir, Cli.process_project_folder.
  rewrite H. reflexivity.
Qed.

(** X12: the result does not depend on the order in which [os.listdir]
    returns the names: for two listings of the same entries, with distinct
    names, an aggregator returns the same dict and log for a project
    folder, and a builder the same workbook, summaries and log for a
    root, or ends with the same exception. *)
Theorem X12_listing_order_irrelevant
    (series_sum : list F64.float -> F64.float) :
  (forall root1 root2 p d1 d2 logs,
      lookup root1 p = Some (Project d1) ->
      lookup root2 p = Some (Project d2) ->
      Permutation d1 d2 -> NoDup (listdir d1) ->
      App.process_project_folder series_sum root1 p logs
      = App.process_project_folder series_sum root2 p logs)
  /\ (forall root1 root2 p d1 d2 out,
        lookup root1 p = Some (Project d1) ->
        lookup root2 p = Some (Project d2) ->
        Permutation d1 d2 -> NoDup (listdir d1) ->
        Cli.process_project_folder series_sum root1 p out
        = Cli.process_project_folder series_sum root2 p out)
  /\ (forall root1 root2,
        Permutation root1 root2 -> NoDup (listdir root1) ->
        App.generate_workbook_bytes series_sum root1
        = App.generate_workbook_bytes series_sum root2
        /\ Cli.main series_sum root1 = Cli.main series_sum root2).
Proof.
  split.
  { intros root1 root2 p d1 d2 logs L1 L2 HP Hnd.
    unfold App.process_project_folder, listdir in *. rewrite L1, L2.
    rewrite (sorted_str_perm_eq _ _ (Permutation_map fst HP)).
    rewrite (fold_left_ext_in _ (App.file_step series_sum p d2));
      [reflexivity|].
    intros acc fname. apply App_file_step_by_lookup.
    intros n. apply lookup_perm; assumption. }
  split.
  { intros root1 root2 p d1 d2 out L1 L2 HP Hnd.
    unfold Cli.process_project_folder, listdir in *. rewrite L1, L2.
    rewrite (sorted_str_perm_eq _ _ (Permutation_map fst HP)).
    rewrite (fold_left_ext_in _ (Cli.file_step series_sum d2)); [reflexivity|].
    intros acc fname. apply Cli_file_step_by_lookup.
    intros n. apply lookup_perm; assumption. }
  intros root1 root2 HP Hnd.
  assert (HL : forall n, lookup root1 n = lookup root2 n)
    by (intros n; apply lookup_perm; assumption).
  unfold App.generate_workbook_bytes, Cli.main, listdir in *.
  rewrite (sorted_str_perm_eq _ _ (Permutation_map fst HP)).
  rewrite (foldM_ext _ (App.project_step series_sum root2)).
  2:{ intros st item. apply App_project_step_by_lookup, HL. }
  rewrite (foldM_ext _ (Cli.project_step series_sum root2)).
  2:{ intros st item. apply Cli_project_step_by_lookup, HL. }
  split; reflexivity.
Qed.

Lemma X12_witness :
  App.generate_workbook_bytes F64.sum (rev sample_root)
  = App.generate_workbook_bytes F64.sum sample_root.
Proof.
  destruct (X12_listing_order_irrelevant F64.sum) as (_ & _ & H).
  apply H.
  - apply Permutation_sym, Permutation_rev.
  - vm_compute. repeat constructor; simpl; intuition discriminate.
Defined.

(** ** The processing log *)

Lemma count_lines_app (p : App.log_line -> bool) (a b : list App.log_line) :
  count_lines p (a ++ b) = (count_lines p a + count_lines p b)%nat.
Proof. unfold count_lines. rewrite filter_app, length_app. reflexivity. Qed.

(** One turn of the file loop appends at most one line: one for a CSV
    name, a success line exactly when the file yields a record, and never
    a line of the project loop. *)
Lemma App_file_step_log (series_sum : list F64.float -> F64.float)
    (p : string) (d : project_dir) (mt : dict MonthRecord)
    (logs : list App.log_line) (fname : string) :
  exists added,
    snd (App.file_step series_sum p d (mt, logs) fname) = (logs ++ added)%list
    /\ List.length added = (if is_csv_name fname then 1 else 0)%nat
    /\ count_lines is_ok_line added
       = List.length
           (folder_records series_sum App.read_frame d [fname])
    /\ count_lines is_processing_line added = 0%nat
    /\ count_lines is_no_months_line added = 0%nat.
Proof.
  unfold App.file_step, folder_records, file_record, append. simpl.
  destruct (is_csv_name fname); simpl.
  2:{ exists []. rewrite app_nil_r. repeat split. }
  destruct (App.read_frame d fname) as [df|e]; simpl.
  2:{ eexists [_]. repeat split. }
  destruct (rows df) as [|row rs]; simpl.
  { eexists [_]. repeat split. }
  destruct (find_duration_column (columns df)); simpl;
    eexists [_]; repeat split.
Qed.

Lemma filter_perm {A : Type} (p : A -> bool) (l l' : list A) :
  Permutation l l' -> Permutation (filter p l) (filter p l').
Proof.
  induction 1 as [|x l l' HP IH|x y l|l l' l'' HP1 IH1 HP2 IH2]; simpl.
  - constructor.
  - destruct (p x); [apply perm_skip|]; exact IH.
  - destruct (p x), (p y); try reflexivity. apply perm_swap.
  - exact (Permutation_trans IH1 IH2).
Qed.

Lemma folder_records_cons (series_sum : list F64.float -> F64.float)
    (read : project_dir -> string -> result DataFrame)
    (d : project_dir) (n : string) (names : list string) :
  folder_records series_sum read d (n :: names)
  = (folder_records series_sum read d [n]
     ++ folder_records series_sum read d names)%list.
Proof.
  unfold folder_records. cbn [flat_map]. rewrite app_nil_r. reflexivity.
Qed.

Lemma App_file_fold_log (series_sum : list F64.float -> F64.float)
    (p : string) (d : project_dir) (names : list string)
    (mt : dict MonthRecord) (logs : list App.log_line) :
  exists added,
    snd (fold_left (App.file_step series_sum p d) names (mt, logs))
    = (logs ++ added)%list
    /\ List.length added = List.length (filter is_csv_name names)
    /\ count_lines is_ok_line added
       = List.length (folder_records series_sum App.read_frame d names)
    /\ count_lines is_processing_line added = 0%nat
    /\ count_lines is_no_months_line added = 0%nat.
Proof.
  revert mt logs. induction names as [|n names IH]; intros mt logs.
  - exists []. simpl. rewrite app_nil_r. repeat split.
  - cbn [fold_left].
    destruct (App_file_step_log series_sum p d mt logs n)
      as (a1 & E1 & L1 & K1 & P1 & N1).
    destruct (App.file_step series_sum p d (mt, logs) n) as [mt1 logs1].
    simpl in E1. subst logs1.
    destruct (IH mt1 (logs ++ a1)%list) as (a2 & E2 & L2 & K2 & P2 & N2).
    exists (a1 ++ a2)%list. rewrite E2, <- app_assoc.
    split; [reflexivity|].
    rewrite length_app, !count_lines_app, L1, L2, K1, K2, P1, P2, N1, N2.
    rewrite (folder_records_cons _ _ d n names), length_app.
    repeat split. cbn [filter].
    destruct (is_csv_name n); reflexivity.
Qed.

(** X13: the file loop of [app.py] only appends to the log: it leaves
    exactly one line per file with a CSV name, none for other files, and as
    many success lines as records it assigns. *)
Theorem X13_one_log_line_per_csv_file
    (series_sum : list F64.float -> F64.float)
    (root : root_dir) (p : string) (d : project_dir)
    (logs : list App.log_line) :
  lookup root p = Some (Project d) ->
  exists added,
    snd (App.process_project_folder series_sum root p logs)
    = (logs ++ added)%list
    /\ List.length added
       = List.length (filter is_csv_name (listdir d))
    /\ count_lines is_ok_line added
       = List.length
           (folder_records series_sum App.read_frame d
              (sorted_str (listdir d))).
Proof.
  intros L. unfold App.process_project_folder. rewrite L.
  destruct (App_file_fold_log series_sum p d (sorted_str (listdir d)) [] logs)
    as (added & E & Hl & Hk & _ & _).
  destruct (fold_left _ _ _) as [mt logs']. simpl in E |- *.
  exists added. split; [exact E|]. split; [|exact Hk].
  rewrite Hl.
  apply Permutation_length, Permutation_sym.
  apply filter_perm, sorted_str_perm.
Qed.

Lemma X13_witness :
  exists added,
    snd (App.process_project_folder F64.sum sample_root "ProjectA" [])
    = added
    /\ List.length added = 2%nat
    /\ count_lines is_ok_line added = 1%nat.
Proof.
  destruct (X13_one_log_line_per_csv_file F64.sum sample_root "ProjectA"
              _ [] eq_refl) as (added & E & Hl & Hk).
  exists added. split; [exact E|]. split; [exact Hl|].
  rewrite Hk. vm_compute. reflexivity.
Defined.

Lemma App_process_log (series_sum : list F64.float -> F64.float)
    (root : root_dir) (p : string) (logs : list App.log_line) :
  exists added,
    snd (App.process_project_folder series_sum root p logs)
    = (logs ++ added)%list
    /\ count_lines is_processing_line added = 0%nat
    /\ count_lines is_no_months_line added = 0%nat.
Proof.
  unfold App.process_project_folder.
  destruct (lookup root p) as [[d|]|];
    [|exists []; simpl; rewrite app_nil_r; repeat split..].
  destruct (App_file_fold_log series_sum p d (sorted_str (listdir d)) [] logs)
    as (added & E & _ & _ & P & N).
  destruct (fold_left _ _ _) as [mt logs']. simpl in E |- *.
  exists added. repeat split; assumption.
Qed.

Lemma yields_examined (series_sum : list F64.float -> F64.float)
    (read : project_dir -> string -> result DataFrame)
    (root : root_dir) (item : string) :
  yields_sheet series_sum read root item = true -> examined root item = true.
Proof.
  unfold yields_sheet, examined. intros H.
  apply andb_true_iff in H. tauto.
Qed.

(** One turn of the project loop that returns: a header line for an
    examined folder, and a closing line when it gets no sheet. *)
Lemma App_project_step_log (series_sum : list F64.float -> F64.float)
    (root : root_dir) (st st' : App.build_state) (item : string) :
  App.project_step series_sum root st item = Ok st' ->
  exists added,
    App.logs st' = (App.logs st ++ added)%list
    /\ count_lines is_processing_line added
       = (if examined root item then 1 else 0)%nat
    /\ count_lines is_processing_line added
       = (count_lines is_no_months_line added
          + if yields_sheet series_sum App.read_frame root item
            then 1 else 0)%nat.
Proof.
  unfold App.project_step, yields_sheet, examined, months_or_empty.
  destruct (isdir root item); simpl.
  2:{ intros E. inversion E; subst st'.
      exists []. rewrite app_nil_r. repeat split. }
  destruct (skipped_name item); simpl.
  { intros E. inversion E; subst st'.
    exists []. rewrite app_nil_r. repeat split. }
  pose proof (App_process_months series_sum root item
                (append (App.logs st) (App.LogProcessing item))) as Hm.
  destruct (App_process_log series_sum root item
              (append (App.logs st) (App.LogProcessing item)))
    as (added & E & P & N).
  destruct (App.process_project_folder _ _ _ _) as [res logs2].
  simpl in Hm, E. rewrite <- Hm. subst logs2. unfold append.
  destruct res as [[|kv mt]|]; simpl.
  - intros E. inversion E; subst st'. cbn [App.logs].
    exists ([App.LogProcessing item] ++ added ++ [App.LogNoMonths item])%list.
    rewrite <- !app_assoc. split; [reflexivity|].
    rewrite !count_lines_app, P, N. split; reflexivity.
  - destruct (create_sheet _ _ _) as [w|e]; simpl; [|discriminate].
    intros E. inversion E; subst st'. cbn [App.logs].
    exists ([App.LogProcessing item] ++ added)%list.
    rewrite <- !app_assoc. split; [reflexivity|].
    rewrite !count_lines_app, P, N. split; reflexivity.
  - intros E. inversion E; subst st'. cbn [App.logs].
    exists ([App.LogProcessing item] ++ added ++ [App.LogNoMonths item])%list.
    rewrite <- !app_assoc. split; [reflexivity|].
    rewrite !count_lines_app, P, N. split; reflexivity.
Qed.

Lemma App_build_fold_log (series_sum : list F64.float -> F64.float)
    (root : root_dir) (names : list string) (st st' : App.build_state) :
  foldM (App.project_step series_sum root) names st = Ok st' ->
  exists added,
    App.logs st' = (App.logs st ++ added)%list
    /\ count_lines is_processing_line added
       = List.length (filter (examined root) names)
    /\ count_lines is_processing_line added
       = (count_lines is_no_months_line added
          + List.length
              (filter (yields_sheet series_sum App.read_frame root) names))%nat.
Proof.
  revert st. induction names as [|item names IH]; intros st H.
  - cbn in H. inversion H; subst st'.
    exists []. simpl. rewrite app_nil_r. repeat split.
  - cbn [foldM] in H.
    destruct (App.project_step series_sum root st item) as [st1|e] eqn:E;
      [|discriminate H].
    cbn [bind] in H.
    destruct (App_project_step_log series_sum root st st1 item E)
      as (a1 & E1 & P1 & Q1).
    destruct (IH st1 H) as (a2 & E2 & P2 & Q2).
    exists (a1 ++ a2)%list. rewrite E2, E1, <- app_assoc.
    split; [reflexivity|]. rewrite !count_lines_app. cbn [filter].
    split.
    + rewrite P1, P2. destruct (examined root item); reflexivity.
    + rewrite Q1, Q2.
      destruct (yields_sheet series_sum App.read_frame root item); simpl; lia.
Qed.

(** A run that returns: the state the loop ended in. *)
Lemma App_generate_inv (series_sum : list F64.float -> F64.float)
    (root : root_dir) (w : list sheet) (summaries : list (string * F64.float))
    (l : list App.log_line) :
  App.generate_workbook_bytes series_sum root = Ok (w, summaries, l) ->
  exists st,
    foldM (App.project_step series_sum root) (sorted_str (listdir root))
      App.initial_state = Ok st
    /\ summaries = App.project_summaries st
    /\ l = App.logs st.
Proof.
  unfold App.generate_workbook_bytes.
  destruct (foldM _ _ _) as [st|e]; [|discriminate].
  cbn [bind]. destruct (App.finish_workbook _ _) as [w'|e]; [|discriminate].
  cbn [bind]. intros E. inversion E; subst. exists st. repeat split.
Qed.

(** A run ends with an exception only when some project yields month
    records: the sink is asked for nothing otherwise. *)
Lemma App_generate_raise (series_sum : list F64.float -> F64.float)
    (root : root_dir) (e : exn) :
  App.generate_workbook_bytes series_sum root = Raise e ->
  sheet_projects series_sum App.read_frame root <> [].
Proof.
  intros E Hi.
  pose proof (App_generate_spec series_sum root) as H. cbv zeta in H.
  rewrite E, Hi in H. discriminate H.
Qed.

(** X14: in the log of [generate_workbook_bytes] every folder that is
    examined (a directory, not hidden, not [venv] or [__pycache__]) has one
    header line, and each header line is matched by a summary or by a
    "no valid CSV months" line.  The run returns its log unless the sink
    refuses a sheet, which takes a project that yields month records. *)
Theorem X14_log_accounts_for_every_folder
    (series_sum : list F64.float -> F64.float) (root : root_dir) :
  match App.generate_workbook_bytes series_sum root with
  | Ok (_, summaries, logs) =>
      count_lines is_processing_line logs
      = List.length (filter (examined root) (listdir root))
      /\ count_lines is_processing_line logs
         = (count_lines is_no_months_line logs + List.length summaries)%nat
  | Raise _ => sheet_projects series_sum App.read_frame root <> []
  end.
Proof.
  destruct (App.generate_workbook_bytes series_sum root)
    as [[[w summaries] logs]|e] eqn:G;
    [|exact (App_generate_raise series_sum root e G)].
  destruct (App_generate_inv _ _ _ _ _ G) as (st & E & -> & ->).
  destruct (App_build_fold_log series_sum root _ _ _ E) as (added & El & P & Q).
  pose proof (App_build_fold series_sum root (sorted_str (listdir root))
                App.initial_state) as H.
  cbv zeta in H. rewrite E in H. destruct H as (_ & _ & Hsum).
  cbn [App.initial_state App.logs App.project_summaries app] in El, Hsum.
  rewrite El, Hsum, length_map.
  split; [|exact Q].
  rewrite P. apply Permutation_length, Permutation_sym.
  apply filter_perm, sorted_str_perm.
Qed.

(** ** Sheets and summaries *)

Lemma StronglySorted_filter {A : Type} (R : A -> A -> Prop)
    (p : A -> bool) (l : list A) :
  StronglySorted R l -> StronglySorted R (filter p l).
Proof.
  induction 1 as [|x l S IH F]; simpl; [constructor|].
  destruct (p x); [|exact IH].
  constructor; [exact IH|].
  rewrite Forall_forall in F |- *. intros y Hy.
  apply filter_In in Hy. apply F. tauto.
Qed.

Lemma project_cells_last (series_sum : list F64.float -> F64.float)
    (read : project_dir -> string -> result DataFrame)
    (root : root_dir) (item : string) :
  last (project_cells series_sum read root item) []
  = [VStr "TOTAL"; VFloat (snd (project_summary series_sum read root item))].
Proof.
  unfold project_cells, project_rows, project_summary.
  rewrite kept_sheet_rows_last. reflexivity.
Qed.

Lemma sheets_match_summaries (series_sum : list F64.float -> F64.float)
    (root : root_dir) (items : list string) (w : list sheet) :
  map cells w
  = map (project_cells series_sum App.read_frame root) items ->
  Forall2 sheet_matches_summary w
    (map (project_summary series_sum App.read_frame root) items).
Proof.
  revert w. induction items as [|item items IH]; intros [|s w] H;
    simpl in H; try discriminate; [constructor|].
  inversion H as [[Hc Hrest]]. simpl. constructor; [|apply IH, Hrest].
  unfold sheet_matches_summary. rewrite Hc. apply project_cells_last.
Qed.

(** X15: the summaries of a run of [generate_workbook_bytes] that returns
    come out in ascending order of project name, and when there are any,
    the sheets of the workbook match them one to one in the same order:
    the last row of a sheet is ["TOTAL", total_hours of the summary], and
    where the project names cut at 31 characters are distinct and none is
    "Sheet", letter case ignored, the title of a sheet is the project name
    cut at 31 characters. *)
Theorem X15_summaries_match_sheets
    (series_sum : list F64.float -> F64.float) (root : root_dir)
    (w : list sheet) (summaries : list (string * F64.float))
    (l : list App.log_line) :
  App.generate_workbook_bytes series_sum root = Ok (w, summaries, l) ->
  StronglySorted str_le (map fst summaries)
  /\ (summaries <> [] -> Forall2 sheet_matches_summary w summaries)
  /\ (summaries <> [] -> distinct_titles (map fst summaries) ->
      map title w = map asked_title (map fst summaries)).
Proof.
  intros G.
  pose proof (App_generate_spec series_sum root) as H. cbv zeta in H.
  rewrite G in H. destruct H as (Hb & Hs).
  apply built_from_projects in Hb. destruct Hb as (_ & Hw & _).
  assert (Hf : map fst summaries
               = sheet_projects series_sum App.read_frame root).
  { rewrite Hs, map_map. cbn [project_summary fst]. apply map_id. }
  split.
  { rewrite Hf. unfold sheet_projects.
    apply StronglySorted_filter, sorted_str_sorted. }
  assert (Hne : summaries <> [] ->
                sheet_projects series_sum App.read_frame root <> []).
  { intros Hn E. rewrite E in Hs. simpl in Hs. contradiction. }
  split.
  - intros Hn. destruct (Hw (Hne Hn)) as (Hc & _).
    rewrite Hs. apply sheets_match_summaries. exact Hc.
  - intros Hn Hd. destruct (Hw (Hne Hn)) as (_ & _ & _ & Hv).
    rewrite Hf in Hd |- *. specialize (Hv Hd).
    apply (f_equal (map fst)) in Hv. rewrite !map_map in Hv.
    cbn [sheet_view project_sheet fst] in Hv.
    rewrite <- (map_map title (fun t => t)), map_id in Hv.
    exact Hv.
Qed.

Lemma X15_witness :
  exists w summaries l,
    App.generate_workbook_bytes F64.sum sample_root = Ok (w, summaries, l)
    /\ Forall2 sheet_matches_summary w summaries
    /\ map title w = ["ProjectA"].
Proof.
  destruct (App.generate_workbook_bytes F64.sum sample_root)
    as [[[w s] l]|e] eqn:E; [|vm_compute in E; discriminate E].
  destruct (X15_summaries_match_sheets F64.sum sample_root w s l E)
    as (_ & H1 & H2).
  assert (Es : map fst s = ["ProjectA"])
    by (vm_compute in E; inversion E; reflexivity).
  assert (Hn : s <> []) by (intros ->; discriminate Es).
  exists w, s, l. split; [reflexivity|]. split; [exact (H1 Hn)|].
  rewrite (H2 Hn); rewrite Es; [reflexivity|].
  vm_compute. repeat constructor; simpl; intuition discriminate.
Defined.

(** ** The two builders side by side *)

Lemma file_record_same_reader (series_sum : list F64.float -> F64.float)
    (d : project_dir) (fname : string) :
  (forall e, read_csv d fname = Raise e ->
             exists e', read_csv_latin1 d fname = Raise e') ->
  file_record series_sum App.read_frame d fname
  = file_record series_sum read_csv d fname.
Proof.
  intros H. unfold file_record, App.read_frame.
  destruct (is_csv_name fname); [|reflexivity].
  destruct (read_csv d fname) as [df|e]; [reflexivity|].
  destruct (H e eq_refl) as [e' ->]. reflexivity.
Qed.

Lemma project_months_same_reader (series_sum : list F64.float -> F64.float)
    (root : root_dir) (item : string) :
  no_latin1_rescue root ->
  project_months series_sum App.read_frame root item
  = project_months series_sum read_csv root item.
Proof.
  intros H. unfold project_months.
  destruct (lookup root item) as [[d|]|] eqn:L; try reflexivity.
  f_equal. f_equal. unfold folder_records.
  induction (sorted_str (listdir d)) as [|n names IH]; [reflexivity|].
  cbn [flat_map]. rewrite IH, file_record_same_reader; [reflexivity|].
  intros e He. exact (H item d n e L He).
Qed.

(** Without a Latin-1 rescue the two builders ask the sink for the same
    sheets. *)
Lemma requests_same_reader (series_sum : list F64.float -> F64.float)
    (root : root_dir) :
  no_latin1_rescue root ->
  map (sheet_request series_sum App.read_frame root)
    (sheet_projects series_sum App.read_frame root)
  = map (sheet_request series_sum read_csv root)
      (sheet_projects series_sum read_csv root).
Proof.
  intros H. unfold sheet_projects.
  induction (sorted_str (listdir root)) as [|item names IH]; [reflexivity|].
  cbn [filter].
  assert (Ey : yields_sheet series_sum App.read_frame root item
               = yields_sheet series_sum read_csv root item).
  { unfold yields_sheet, months_or_empty.
    rewrite (project_months_same_reader series_sum root item H).
    reflexivity. }
  rewrite Ey. destruct (yields_sheet series_sum read_csv root item);
    [|exact IH].
  cbn [map]. rewrite IH. f_equal.
  unfold sheet_request, project_rows, months_or_empty.
  rewrite (project_months_same_reader series_sum root item H). reflexivity.
Qed.

Lemma built_from_unique (reqs : list request) (w1 w2 : list sheet) :
  built_from reqs w1 -> built_from reqs w2 -> w1 = w2.
Proof.
  intros (c1 & H1 & _ & ->) (c2 & H2 & _ & ->).
  rewrite H1 in H2. inversion H2. reflexivity.
Qed.

Lemma built_from_no_raise (reqs : list request) (w : list sheet) (e : exn) :
  built_from reqs w -> add_sheets new_workbook reqs <> Raise e.
Proof. intros (c & H & _) E. rewrite H in E. discriminate E. Qed.

(** X16: when no file of the root needs the Latin-1 retry (every file that
    fails under the default encoding fails under Latin-1 too), the script
    and the app build the same workbook, or end with the same exception of
    the sink. *)
Theorem X16_script_and_app_agree
    (series_sum : list F64.float -> F64.float) (root : root_dir) :
  no_latin1_rescue root ->
  result_map fst (Cli.main series_sum root)
  = result_map (fun r => fst (fst r))
      (App.generate_workbook_bytes series_sum root).
Proof.
  intros H.
  pose proof (App_generate_spec series_sum root) as A.
  pose proof (Cli_main_spec series_sum root) as C.
  cbv zeta in A, C. rewrite (requests_same_reader series_sum root H) in A.
  destruct (App.generate_workbook_bytes series_sum root) as [[[w s] l]|e];
    destruct (Cli.main series_sum root) as [[w' out]|e']; cbn [result_map fst].
  - destruct A as [A _]. f_equal. exact (built_from_unique _ _ _ C A).
  - destruct A as [A _]. exfalso. exact (built_from_no_raise _ _ _ A C).
  - exfalso. exact (built_from_no_raise _ _ _ C A).
  - rewrite A in C. exact (eq_sym C).
Qed.

Lemma X16_witness :
  result_map fst (Cli.main F64.sum sample_root)
  = result_map (fun r => fst (fst r))
      (App.generate_workbook_bytes F64.sum sample_root).
Proof.
  apply X16_script_and_app_agree.
  intros item d fname e L R.
  unfold sample_root in L. cbn [lookup] in L.
  destruct (String.eqb "notes.txt" item); [discriminate|].
  destruct (String.eqb "ProjectA" item).
  - inversion L; subst d. clear L.
    unfold read_csv, read_csv_latin1 in *. cbn [lookup] in *.
    destruct (String.eqb "Jan_2024.csv" fname); [discriminate|].
    destruct (String.eqb "Feb_2024.csv" fname); [eexists; reflexivity|].
    destruct (String.eqb "readme.md" fname); [discriminate|].
    eexists; reflexivity.
  - destruct (String.eqb ".git" item); [|discriminate].
    inversion L; subst d. eexists; reflexivity.
Defined.

(** ** File names and labels *)

Lemma str_length_app (p s : string) :
  String.length (p ++ s) = (String.length p + String.length s)%nat.
Proof.
  induction p as [|c p IH]; simpl; [reflexivity|].
  rewrite IH. reflexivity.
Qed.

Lemma lower_app (p s : string) :
  PyStr.lower (p ++ s) = PyStr.lower p ++ PyStr.lower s.
Proof.
  induction p as [|c p IH]; simpl; [reflexivity|].
  rewrite IH. reflexivity.
Qed.

Lemma lower_length (s : string) :
  String.length (PyStr.lower s) = String.length s.
Proof.
  induction s as [|c r IH]; simpl; [reflexivity|].
  rewrite IH. reflexivity.
Qed.

Lemma substring_full (s : string) : substring 0 (String.length s) s = s.
Proof.
  induction s as [|c r IH]; simpl; [reflexivity|].
  rewrite IH. reflexivity.
Qed.

Lemma substring_app_prefix (p s : string) :
  substring 0 (String.length p) (p ++ s) = p.
Proof.
  induction p as [|c p IH]; simpl; [destruct s; reflexivity|].
  rewrite IH. reflexivity.
Qed.

Lemma substring_app_suffix (p s : string) :
  substring (String.length p) (String.length s) (p ++ s) = s.
Proof.
  induction p as [|c p IH]; simpl; [apply substring_full|exact IH].
Qed.

Lemma substring_split (k : nat) (s : string) :
  (k <= String.length s)%nat ->
  s = substring 0 k s ++ substring k (String.length s - k) s.
Proof.
  revert s. induction k as [|k IH]; intros s Hk.
  - rewrite Nat.sub_0_r, substring_full. destruct s; reflexivity.
  - destruct s as [|c r]; simpl in Hk; [lia|].
    simpl. rewrite <- IH by lia. reflexivity.
Qed.

Lemma lower_substring (n m : nat) (s : string) :
  PyStr.lower (substring n m s) = substring n m (PyStr.lower s).
Proof.
  revert n m. induction s as [|c r IH]; intros [|n] [|m]; simpl;
    try reflexivity; try apply IH.
  rewrite IH. reflexivity.
Qed.

Lemma rfind_dot_app (p x : string) :
  rfind_dot (p ++ x)
  = match rfind_dot x with
    | Some i => Some (String.length p + i)%nat
    | None => rfind_dot p
    end.
Proof.
  induction p as [|c p IH]; simpl.
  - destruct (rfind_dot x); reflexivity.
  - rewrite IH. destruct (rfind_dot x); reflexivity.
Qed.

Lemma lower_char_dot (a : ascii) :
  PyStr.lower_char a = "."%char -> a = "."%char.
Proof.
  destruct a as [[] [] [] [] [] [] [] []]; intros H;
    try reflexivity; discriminate H.
Qed.

(** An extension that lowers to ".csv": a dot and three characters that
    are no dots. *)
Lemma csv_extension (ext : string) :
  PyStr.lower ext = ".csv" ->
  String.length ext = 4%nat /\ rfind_dot ext = Some 0%nat.
Proof.
  destruct ext as [|a [|b [|c [|d [|x r]]]]]; simpl; try discriminate.
  intros H. injection H as Ha Hb Hc Hd.
  apply lower_char_dot in Ha. subst a. split; [reflexivity|].
  destruct (Ascii.eqb_spec d ".") as [->|_]; [discriminate Hd|].
  destruct (Ascii.eqb_spec c ".") as [->|_]; [discriminate Hc|].
  destruct (Ascii.eqb_spec b ".") as [->|_]; [discriminate Hb|].
  reflexivity.
Qed.

Lemma is_csv_name_app (body ext : string) :
  PyStr.lower ext = ".csv" -> is_csv_name (body ++ ext) = true.
Proof.
  intros H. unfold is_csv_name, PyStr.endswith.
  rewrite lower_app, H, str_length_app.
  change (String.length ".csv") with 4%nat.
  replace (String.length (PyStr.lower body) + 4 - 4)%nat
    with (String.length (PyStr.lower body)) by lia.
  pose proof (substring_app_suffix (PyStr.lower body) ".csv") as S.
  change (String.length ".csv") with 4%nat in S. rewrite S.
  apply andb_true_iff. split; [apply Nat.leb_le; lia|reflexivity].
Qed.

Lemma is_csv_name_split (fname : string) :
  is_csv_name fname = true ->
  exists body ext, fname = body ++ ext /\ PyStr.lower ext = ".csv".
Proof.
  unfold is_csv_name, PyStr.endswith. rewrite lower_length.
  change (String.length ".csv") with 4%nat.
  intros H. apply andb_true_iff in H. destruct H as [Hl He].
  apply Nat.leb_le in Hl. apply String.eqb_eq in He.
  exists (substring 0 (String.length fname - 4) fname),
         (substring (String.length fname - 4) 4 fname).
  split.
  - pose proof (substring_split (String.length fname - 4) fname) as S.
    replace (String.length fname - (String.length fname - 4))%nat
      with 4%nat in S by lia.
    apply S. lia.
  - rewrite lower_substring. exact He.
Qed.

(** X17: a file name counts as CSV exactly when it ends in an extension
    that lowers to ".csv"; its label is then the name without these four
    characters, except when only dots (or nothing) stand before them: such
    a name, like ".csv", is its own label. *)
Theorem X17_label_of_csv_name :
  (forall fname,
      is_csv_name fname = true <->
      exists body ext, fname = body ++ ext /\ PyStr.lower ext = ".csv")
  /\ (forall body ext,
        PyStr.lower ext = ".csv" ->
        splitext_stem (body ++ ext)
        = if PyStr.all_chars is_dot body then body ++ ext else body).
Proof.
  split.
  - intros fname. split; [apply is_csv_name_split|].
    intros (body & ext & -> & H). apply is_csv_name_app, H.
  - intros body ext H. destruct (csv_extension ext H) as [_ Hr].
    unfold splitext_stem. rewrite rfind_dot_app, Hr, Nat.add_0_r.
    rewrite substring_app_prefix. reflexivity.
Qed.

Lemma X17_witness :
  splitext_stem ("March 2024" ++ ".CSV") = "March 2024"
  /\ splitext_stem ("" ++ ".csv") = ".csv".
Proof.
  destruct X17_label_of_csv_name as [_ H].
  split; rewrite H; reflexivity.
Defined.

(** ** Month Label Orderer: letter case *)

Lemma lower_char_digit (c : ascii) :
  PyStr.is_digit (PyStr.lower_char c) = PyStr.is_digit c.
Proof. destruct c as [[] [] [] [] [] [] [] []]; reflexivity. Qed.

Lemma lower_char_newline (c : ascii) :
  is_newline (PyStr.lower_char c) = is_newline c.
Proof. destruct c as [[] [] [] [] [] [] [] []]; reflexivity. Qed.

Lemma lower_char_hyphen (c : ascii) :
  Ascii.eqb (PyStr.lower_char c) "-" = Ascii.eqb c "-".
Proof. destruct c as [[] [] [] [] [] [] [] []]; reflexivity. Qed.

Lemma lower_char_underscore (c : ascii) :
  Ascii.eqb (PyStr.lower_char c) "_" = Ascii.eqb c "_".
Proof. destruct c as [[] [] [] [] [] [] [] []]; reflexivity. Qed.

Lemma lower_all_chars (p : ascii -> bool) (s : string) :
  (forall c, p (PyStr.lower_char c) = p c) ->
  PyStr.all_chars p (PyStr.lower s) = PyStr.all_chars p s.
Proof.
  intros H. induction s as [|c r IH]; simpl; [reflexivity|].
  rewrite H, IH. reflexivity.
Qed.

Lemma lower_digits_id (s : string) :
  PyStr.all_chars PyStr.is_digit s = true -> PyStr.lower s = s.
Proof.
  induction s as [|c r IH]; simpl; [reflexivity|].
  intros H. apply andb_true_iff in H. destruct H as [Hc Hr].
  rewrite (digit_lower c Hc), (IH Hr). reflexivity.
Qed.

Lemma lower_eqb_one (x : string) (k : ascii) :
  (forall c, Ascii.eqb (PyStr.lower_char c) k = Ascii.eqb c k) ->
  String.eqb (PyStr.lower x) (String k "") = String.eqb x (String k "").
Proof.
  intros H. destruct x as [|c [|c' r]]; simpl; try reflexivity.
  - rewrite H. reflexivity.
  - rewrite H. reflexivity.
Qed.

Lemma lstrip_lower (s : string) :
  PyStr.lstrip (PyStr.lower s) = PyStr.lower (PyStr.lstrip s).
Proof.
  induction s as [|c r IH]; [reflexivity|].
  cbn [PyStr.lower PyStr.lstrip]. rewrite lower_char_space.
  destruct (PyStr.is_space c); [exact IH|reflexivity].
Qed.

Lemma rstrip_lower (s : string) :
  PyStr.rstrip (PyStr.lower s) = PyStr.lower (PyStr.rstrip s).
Proof.
  induction s as [|c r IH]; [reflexivity|].
  cbn [PyStr.lower PyStr.rstrip]. rewrite IH, lower_char_space.
  destruct (PyStr.rstrip r); cbn [PyStr.lower].
  - destruct (PyStr.is_space c); reflexivity.
  - reflexivity.
Qed.

Lemma strip_lower (s : string) :
  PyStr.strip (PyStr.lower s) = PyStr.lower (PyStr.strip s).
Proof. unfold PyStr.strip. rewrite lstrip_lower. apply rstrip_lower. Qed.

Lemma match_year_month_lower (n : string) :
  match_year_month (PyStr.lower n) = match_year_month n.
Proof.
  unfold match_year_month.
  rewrite lower_length, <- !lower_substring, !lower_length.
  rewrite !(lower_all_chars _ _ lower_char_digit).
  rewrite (lower_all_chars _ _ lower_char_newline).
  rewrite (lower_eqb_one _ _ lower_char_hyphen).
  rewrite (lower_eqb_one _ _ lower_char_underscore).
  destruct (_ && _)%bool eqn:E; [|reflexivity].
  repeat (apply andb_true_iff in E; destruct E as [E ?]).
  rewrite !lower_digits_id by assumption. reflexivity.
Qed.

Lemma label_tokens_lower (name : string) :
  label_tokens (PyStr.lower name) = label_tokens name.
Proof.
  unfold label_tokens. rewrite strip_lower, lower_idem. reflexivity.
Qed.

Lemma month_sort_key_lower (name : string) :
  fst (month_sort_key (PyStr.lower name)) = fst (month_sort_key name).
Proof.
  unfold month_sort_key.
  destruct name as [|c r]; [reflexivity|].
  cbn [PyStr.lower PyStr.nonempty negb].
  change (String (PyStr.lower_char c) (PyStr.lower r))
    with (PyStr.lower (String c r)).
  fold (label_tokens (PyStr.lower (String c r))).
  fold (label_tokens (String c r)).
  rewrite label_tokens_lower, strip_lower, match_year_month_lower.
  destruct (match_year_month (PyStr.strip (String c r))) as [[y mo]|];
    [reflexivity|].
  destruct (first_month (label_tokens (String c r))); [|reflexivity].
  destruct (first_year (label_tokens (String c r))) as [y|]; [|reflexivity].
  destruct (negb (y =? 0)); reflexivity.
Qed.

(** X18: the number in the key of a label does not depend on letter case:
    two labels that are equal once lowered get the same number. *)
Theorem X18_key_number_ignores_case (a b : string) :
  PyStr.lower a = PyStr.lower b ->
  fst (month_sort_key a) = fst (month_sort_key b).
Proof.
  intros H. rewrite <- (month_sort_key_lower a), <- (month_sort_key_lower b), H.
  reflexivity.
Qed.

Lemma X18_witness :
  fst (month_sort_key "JANUARY_2024") = fst (month_sort_key "January_2024").
Proof.
  apply X18_key_number_ignores_case. reflexivity.
Defined.

(** ** Duration Parser: decimal literals and their sign *)

Lemma all_chars_app (p : ascii -> bool) (a b : string) :
  PyStr.all_chars p (a ++ b)
  = (PyStr.all_chars p a && PyStr.all_chars p b)%bool.
Proof.
  induction a as [|c r IH]; simpl; [reflexivity|].
  rewrite IH. apply andb_assoc.
Qed.

Lemma plain_not_space (s : string) :
  PyStr.all_chars plain_char s = true ->
  PyStr.all_chars (fun c => negb (PyStr.is_space c)) s = true.
Proof.
  apply all_chars_impl. intros c H. unfold plain_char in H.
  apply andb_true_iff in H. tauto.
Qed.

Lemma replace_plain (s : string) :
  PyStr.all_chars plain_char s = true -> PyStr.replace "," "." s = s.
Proof.
  induction s as [|c r IH]; simpl; [reflexivity|].
  intros H. apply andb_true_iff in H. destruct H as [Hc Hr].
  unfold plain_char in Hc. apply andb_true_iff in Hc. destruct Hc as [_ Hc].
  apply negb_true_iff in Hc. rewrite Hc, (IH Hr). reflexivity.
Qed.

Lemma cleaned_plain (s : string) :
  PyStr.all_chars plain_char s = true -> cleaned s = s.
Proof.
  intros H. unfold cleaned, PyStr.strip.
  rewrite (lstrip_no_space _ (plain_not_space _ H)).
  rewrite (rstrip_no_space _ (plain_not_space _ H)).
  apply replace_plain, H.
Qed.

Lemma digit_plain (c : ascii) : PyStr.is_digit c = true -> plain_char c = true.
Proof.
  intros H. unfold plain_char. rewrite (digit_not_space c H).
  destruct (Ascii.eqb_spec c ",") as [->|]; [discriminate H|reflexivity].
Qed.

Lemma digit_not_sign (c : ascii) : PyStr.is_digit c = true -> is_sign c = false.
Proof.
  intros H. unfold is_sign.
  destruct (Ascii.eqb_spec c "+") as [->|]; [discriminate H|].
  destruct (Ascii.eqb_spec c "-") as [->|]; [discriminate H|reflexivity].
Qed.

Lemma decimal_literal_plain (ip fp : string) :
  PyStr.all_chars PyStr.is_digit ip = true ->
  PyStr.all_chars PyStr.is_digit fp = true ->
  PyStr.all_chars plain_char (decimal_literal ip fp) = true.
Proof.
  intros Hi Hf. unfold decimal_literal.
  pose proof (all_chars_impl _ _ _ digit_plain Hi) as Pi.
  pose proof (all_chars_impl _ _ _ digit_plain Hf) as Pf.
  destruct (PyStr.nonempty fp); [|exact Pi].
  rewrite all_chars_app, Pi. simpl. exact Pf.
Qed.

Lemma span_digits_literal (ip fp : string) :
  PyStr.all_chars PyStr.is_digit ip = true ->
  PyStr.span PyStr.is_digit (decimal_literal ip fp)
  = (ip, if PyStr.nonempty fp then String "." fp else EmptyString).
Proof.
  intros Hi. unfold decimal_literal.
  destruct (PyStr.nonempty fp).
  - induction ip as [|c r IH]; simpl; [reflexivity|].
    simpl in Hi. apply andb_true_iff in Hi. destruct Hi as [Hc Hr].
    rewrite Hc, (IH Hr). reflexivity.
  - induction ip as [|c r IH]; simpl; [reflexivity|].
    simpl in Hi. apply andb_true_iff in Hi. destruct Hi as [Hc Hr].
    rewrite Hc, (IH Hr). reflexivity.
Qed.

(** Matching a literal, with or without a sign in front. *)
Lemma match_decimal_body (neg : bool) (ip fp : string) :
  PyStr.nonempty ip = true ->
  PyStr.all_chars PyStr.is_digit ip = true ->
  PyStr.all_chars PyStr.is_digit fp = true ->
  (let '(ip', rest) := PyStr.span PyStr.is_digit (decimal_literal ip fp) in
   if PyStr.nonempty ip' then
     match rest with
     | EmptyString => Some (neg, ip', EmptyString)
     | String c fp' =>
         if (Ascii.eqb c "." && PyStr.nonempty fp'
             && PyStr.all_chars PyStr.is_digit fp')%bool
         then Some (neg, ip', fp')
         else None
     end
   else None)
  = Some (neg, ip, fp).
Proof.
  intros Hn Hi Hf. rewrite (span_digits_literal ip fp Hi), Hn.
  destruct fp as [|c r]; [reflexivity|].
  cbn [PyStr.nonempty]. rewrite Hf. reflexivity.
Qed.

Lemma match_decimal_unsigned (ip fp : string) :
  PyStr.nonempty ip = true ->
  PyStr.all_chars PyStr.is_digit ip = true ->
  PyStr.all_chars PyStr.is_digit fp = true ->
  match_decimal (decimal_literal ip fp) = Some (false, ip, fp).
Proof.
  intros Hn Hi Hf. unfold match_decimal.
  assert (Hs : match decimal_literal ip fp with
               | String c r =>
                   if is_sign c then (Ascii.eqb c "-", r)
                   else (false, decimal_literal ip fp)
               | EmptyString => (false, decimal_literal ip fp)
               end = (false, decimal_literal ip fp)).
  { destruct ip as [|c r]; [discriminate Hn|].
    simpl in Hi. apply andb_true_iff in Hi. destruct Hi as [Hc _].
    unfold decimal_literal. destruct (PyStr.nonempty fp); simpl;
      rewrite (digit_not_sign c Hc); reflexivity. }
  rewrite Hs. apply match_decimal_body; assumption.
Qed.

Lemma match_decimal_signed (sign : ascii) (ip fp : string) :
  is_sign sign = true ->
  PyStr.nonempty ip = true ->
  PyStr.all_chars PyStr.is_digit ip = true ->
  PyStr.all_chars PyStr.is_digit fp = true ->
  match_decimal (String sign (decimal_literal ip fp))
  = Some (Ascii.eqb sign "-", ip, fp).
Proof.
  intros Hs Hn Hi Hf. unfold match_decimal. rewrite Hs.
  apply match_decimal_body; assumption.
Qed.

Lemma parse_decimal (s : string) (neg : bool) (ip fp : string) :
  match_decimal (cleaned s) = Some (neg, ip, fp) ->
  parse_duration_value (VStr s) = F64.of_decimal neg ip fp.
Proof.
  intros H. apply parse_of_try_ok; [reflexivity|].
  unfold parse_duration_try. cbn [is_number py_str]. fold (cleaned s).
  rewrite H. reflexivity.
Qed.

Lemma round_aux_opp (m e : Z) (l : location) :
  SFopp (binary_round_aux F64.prec F64.emax false m e l)
  = binary_round_aux F64.prec F64.emax true m e l.
Proof.
  unfold binary_round_aux.
  destruct (shr_fexp F64.prec F64.emax m e l) as [mrs' e'].
  destruct (shr_fexp F64.prec F64.emax _ e' loc_Exact) as [mrs'' e''].
  destruct (shr_m mrs''); simpl; try reflexivity.
  destruct (_ <=? _); reflexivity.
Qed.

Lemma of_decimal_opp (ip fp : string) :
  F64.of_decimal true ip fp = float_neg (F64.of_decimal false ip fp).
Proof.
  unfold F64.of_decimal, float_neg.
  destruct (PyStr.int_of_digits (ip ++ fp)) as [|n|n]; try reflexivity.
  unfold F64.of_ratio, F64.div, SFdiv.
  destruct (SFdiv_core_binary _ _ _ _ _ _) as [[mz ez] lz].
  simpl xorb. symmetry. apply round_aux_opp.
Qed.

(** X19: for a decimal literal (digits, or digits "." digits) the parser
    returns the nearest float; a "+" in front changes nothing and a "-"
    in front gives the negated value. *)
Theorem X19_decimal_sign (ip fp : string) :
  PyStr.nonempty ip = true ->
  PyStr.all_chars PyStr.is_digit ip = true ->
  PyStr.all_chars PyStr.is_digit fp = true ->
  let lit := decimal_literal ip fp in
  parse_duration_value (VStr lit) = F64.of_decimal false ip fp
  /\ parse_duration_value (VStr (String "+" lit))
     = parse_duration_value (VStr lit)
  /\ parse_duration_value (VStr (String "-" lit))
     = float_neg (parse_duration_value (VStr lit)).
Proof.
  intros Hn Hi Hf lit. subst lit.
  pose proof (decimal_literal_plain ip fp Hi Hf) as P.
  assert (E0 : parse_duration_value (VStr (decimal_literal ip fp))
               = F64.of_decimal false ip fp).
  { apply parse_decimal. rewrite (cleaned_plain _ P).
    apply match_decimal_unsigned; assumption. }
  split; [exact E0|]. rewrite E0. split.
  - apply parse_decimal. rewrite cleaned_plain by (simpl; exact P).
    apply (match_decimal_signed "+"); try assumption. reflexivity.
  - rewrite <- of_decimal_opp.
    apply parse_decimal. rewrite cleaned_plain by (simpl; exact P).
    apply (match_decimal_signed "-"); try assumption. reflexivity.
Qed.

Lemma X19_witness :
  parse_duration_value (VStr "-7.5") = float_neg (F64.of_ratio false 15 2).
Proof.
  destruct (X19_decimal_sign "7" "5" eq_refl eq_refl eq_refl) as (E & _ & H).
  cbv zeta in H, E. change (decimal_literal "7" "5") with "7.5" in H, E.
  rewrite H, E. vm_compute. reflexivity.
Defined.

(** ** What a sheet shows *)

(** X20: nothing of a project's records is left out of its sheet: for
    every label of the dict the sheet has the row of the label with the
    month total, and one row for each entry of the record. *)
Theorem X20_sheet_shows_every_record
    (mt : dict MonthRecord) (mn : string) (r : MonthRecord) :
  dict_get mt mn = Some r ->
  In [VStr mn; VFloat (total r)] (sheet_rows mt)
  /\ (forall e, In e (entries r) ->
                In [fst e; VFloat (snd e)] (sheet_rows mt)).
Proof.
  intros Hg.
  assert (Hin : In mn (sorted_months (dict_keys mt))).
  { apply (Permutation_in _ (sorted_months_perm _)).
    apply dict_get_in_keys. congruence. }
  assert (Hr : month_of mt mn = r)
    by (unfold month_of; rewrite Hg; reflexivity).
  assert (Hb : forall row, In row (month_block mn r) -> In row (sheet_rows mt)).
  { intros row Hrow. rewrite sheet_rows_blocks. right.
    apply in_or_app. left. apply in_flat_map. exists mn.
    split; [exact Hin|]. rewrite Hr. exact Hrow. }
  split.
  - apply Hb. left. reflexivity.
  - intros e He. apply Hb. right. right. apply in_or_app. left.
    apply (in_map (fun e => [fst e; VFloat (snd e)])). exact He.
Qed.

Lemma X20_witness :
  In [VStr "Feb_2024"; VFloat f5] (sheet_rows sample_months).
Proof.
  destruct (X20_sheet_shows_every_record sample_months "Feb_2024"
              {| total := f5; entries := [] |} eq_refl) as [H _].
  exact H.
Defined.

(** ** A folder without CSV files *)

Lemma App_fold_no_csv (series_sum : list F64.float -> F64.float)
    (p : string) (d : project_dir) (names : list string)
    (acc : dict MonthRecord * list App.log_line) :
  (forall n, In n names -> is_csv_name n = false) ->
  fold_left (App.file_step series_sum p d) names acc = acc.
Proof.
  revert acc. induction names as [|n names IH]; intros acc H; [reflexivity|].
  cbn [fold_left].
  assert (E : App.file_step series_sum p d acc n = acc).
  { unfold App.file_step. destruct acc as [mt logs].
    rewrite (H n (or_introl eq_refl)). reflexivity. }
  rewrite E. apply IH. intros m Hm. apply H. right. exact Hm.
Qed.

(** X21: a project folder that holds no file with a CSV name, an empty
    folder among them, gets no sheet and no summary in [app.py]: the step
    only adds the header line and the "no valid CSV months" line to the
    log. *)
Theorem X21_folder_without_csv
    (series_sum : list F64.float -> F64.float)
    (root : root_dir) (st : App.build_state) (item : string)
    (d : project_dir) :
  lookup root item = Some (Project d) ->
  skipped_name item = false ->
  (forall n, In n (listdir d) -> is_csv_name n = false) ->
  App.project_step series_sum root st item
  = Ok {| App.wb := App.wb st;
          App.added := App.added st;
          App.project_summaries := App.project_summaries st;
          App.logs := (App.logs st
                       ++ [App.LogProcessing item; App.LogNoMonths item])%list |}.
Proof.
  intros L Hs Hn.
  unfold App.project_step, isdir, App.process_project_folder.
  rewrite L, Hs. cbn [negb].
  rewrite App_fold_no_csv.
  - unfold append. rewrite <- app_assoc. reflexivity.
  - intros n Hin. apply Hn.
    apply (Permutation_in _ (Permutation_sym (sorted_str_perm _)) Hin).
Qed.

Lemma X21_witness :
  App.project_step F64.sum [("Empty", Project [("notes.txt", Unreadable)])]
    {| App.wb := new_workbook; App.added := 0;
       App.project_summaries := []; App.logs := [] |} "Empty"
  = Ok {| App.wb := new_workbook; App.added := 0;
          App.project_summaries := [];
          App.logs := [App.LogProcessing "Empty"; App.LogNoMonths "Empty"] |}.
Proof.
  assert (Hn : forall n, In n (listdir [("notes.txt", Unreadable)]) ->
                         is_csv_name n = false).
  { intros n [<-|[]]. reflexivity. }
  exact (X21_folder_without_csv F64.sum
           [("Empty", Project [("notes.txt", Unreadable)])]
           {| App.wb := new_workbook; App.added := 0;
              App.project_summaries := []; App.logs := [] |}
           "Empty" [("notes.txt", Unreadable)] eq_refl eq_refl Hn).
Defined.

(** ** Sheet titles *)

Lemma match_title_lower (v n rest : string) :
  PyStr.lower n = PyStr.lower v ->
  Openpyxl.match_title v (n ++ rest) = Some rest.
Proof.
  revert n. induction v as [|a v IH]; intros [|c n] H; simpl in H;
    try discriminate; [reflexivity|].
  inversion H as [[Hc Hn]]. cbn [String.append Openpyxl.match_title].
  rewrite Hc, Ascii.eqb_refl. apply IH. exact Hn.
Qed.

(** The scan finds a match wherever the title stands first. *)
Lemma findall_counts_found (v a b : string) :
  PyStr.nonempty b = true -> Openpyxl.match_title v b <> None ->
  Openpyxl.findall_counts v 0 (a ++ b) <> [].
Proof.
  intros Hb Hm. induction a as [|x a IH].
  - cbn [String.append]. destruct b as [|c r]; [discriminate Hb|].
    cbn [Openpyxl.findall_counts].
    destruct (Openpyxl.match_title v (String c r)) as [rest|];
      [|contradiction].
    destruct (PyStr.span PyStr.is_digit rest). discriminate.
  - cbn [String.append Openpyxl.findall_counts].
    destruct (Openpyxl.match_title v (String x (a ++ b))) as [rest|];
      [|exact IH].
    destruct (PyStr.span PyStr.is_digit rest). discriminate.
Qed.

Lemma append_assoc (a b c : string) : (a ++ b) ++ c = a ++ b ++ c.
Proof.
  induction a as [|x a IH]; [reflexivity|].
  cbn [String.append]. rewrite IH. reflexivity.
Qed.

Lemma append_empty (a : string) : a ++ EmptyString = a.
Proof.
  induction a as [|x a IH]; [reflexivity|].
  cbn [String.append]. rewrite IH. reflexivity.
Qed.

Lemma join_in (n : string) (names : list string) :
  In n names ->
  exists a rest, PyStr.join "," names = a ++ n ++ rest.
Proof.
  induction names as [|x names IH]; [contradiction|].
  intros [->|Hin].
  - destruct names as [|y names].
    + exists EmptyString, EmptyString. cbn [PyStr.join String.append].
      symmetry. apply append_empty.
    + exists EmptyString. eexists. cbn [PyStr.join String.append]. reflexivity.
  - destruct (IH Hin) as (a & rest & E).
    destruct names as [|y names]; [contradiction|].
    exists (x ++ "," ++ a), rest.
    change (PyStr.join "," (x :: y :: names))
      with (x ++ "," ++ PyStr.join "," (y :: names)).
    rewrite E, !append_assoc. reflexivity.
Qed.

Lemma lower_nonempty (a b : string) :
  PyStr.lower a = PyStr.lower b -> PyStr.nonempty a = PyStr.nonempty b.
Proof. destruct a, b; simpl; intros H; try discriminate; reflexivity. Qed.

Lemma known_title_found (names : list string) (t : string) :
  PyStr.nonempty t = true -> Openpyxl.known_title names t = true ->
  Openpyxl.findall_counts t 0 (PyStr.join "," names) <> [].
Proof.
  intros Ht Hk. unfold Openpyxl.known_title in Hk.
  apply existsb_exists in Hk. destruct Hk as (n & Hin & Hn).
  apply String.eqb_eq in Hn.
  destruct (join_in n names Hin) as (a & rest & ->).
  apply findall_counts_found.
  - destruct n as [|c n]; [|reflexivity].
    rewrite <- (lower_nonempty _ _ Hn) in Ht. discriminate Ht.
  - rewrite (match_title_lower t n rest Hn). discriminate.
Qed.

Lemma highest_from (counts : list Z) (k : Z) :
  k <= fold_left Z.max counts k.
Proof.
  revert k. induction counts as [|c counts IH]; intros k; simpl; [lia|].
  specialize (IH (Z.max k c)). lia.
Qed.

(** X22: a sheet whose title is new to the workbook, letter case ignored,
    gets the title it is asked for; a sheet whose title another sheet
    has, the default sheet [Sheet] among them, gets this title with a
    number from 1 on appended.  So of the project folders [Proj], [proj]
    and [Sheet] the first keeps its name as title and the others get
    [proj1] and [Sheet1]; the number follows the highest one found after
    the title anywhere in the names, so [sheet] beside [MySheet12] gets
    [sheet13]; and a title of 31 characters grows to 32. *)
Theorem X22_duplicate_titles_renamed :
  (forall names t,
      Openpyxl.known_title names t = false ->
      Openpyxl.avoid_duplicate_name names t = Ok t)
  /\ (forall names t t',
        PyStr.nonempty t = true ->
        Openpyxl.known_title names t = true ->
        Openpyxl.avoid_duplicate_name names t = Ok t' ->
        exists n, 1 <= n /\ t' = t ++ PyStr.of_int n)
  /\ Openpyxl.avoid_duplicate_name ["Sheet"] "Sheet" = Ok "Sheet1"
  /\ Openpyxl.avoid_duplicate_name ["Sheet"; "Proj"] "proj" = Ok "proj1"
  /\ Openpyxl.avoid_duplicate_name ["Sheet"; "MySheet12"] "sheet"
     = Ok "sheet13"
  /\ Openpyxl.avoid_duplicate_name
       ["Sheet"; repeat_char "A" 31] (repeat_char "A" 31)
     = Ok (repeat_char "A" 31 ++ "1")
  /\ result_map (fun r => map title (fst (fst r)))
       (App.generate_workbook_bytes F64.sum case_root)
     = Ok ["Proj"; "Sheet1"; "proj1"]
  /\ result_map (fun r => map title (fst r)) (Cli.main F64.sum case_root)
     = Ok ["Proj"; "Sheet1"; "proj1"].
Proof.
  split; [exact avoid_duplicate_new|].
  split; [|vm_compute; repeat split].
  intros names t t' Ht Hk. unfold Openpyxl.avoid_duplicate_name.
  rewrite Hk. pose proof (known_title_found names t Ht Hk) as Hf.
  destruct (Openpyxl.findall_counts t 0 (PyStr.join "," names)) as [|m ms];
    [contradiction|].
  destruct (mapM PyStr.to_int _) as [counts|e]; [|discriminate].
  cbn [bind]. intros E. inversion E.
  exists (Openpyxl.highest counts + 1). split; [|reflexivity].
  unfold Openpyxl.highest. pose proof (highest_from counts 0). lia.
Qed.

Lemma X22_witness :
  exists n, 1 <= n /\ "proj1" = "proj" ++ PyStr.of_int n.
Proof.
  destruct X22_duplicate_titles_renamed as (_ & H & _).
  exact (H ["Sheet"; "Proj"] "proj" "proj1" eq_refl eq_refl eq_refl).
Defined.

(** ** Sheets that the sink refuses *)

(** X23: a run ends with an exception, and returns no workbook, summary
    or log, when the sink refuses the sheet of a project that yields month
    records: its name holds one of the characters [\ * ? : / [ ]] among
    the first 31, or a month label or a description of it holds a control
    character.  A folder named [Site [old]] ends the run with
    [ValueError], a description with the character BEL with
    [IllegalCharacterError].  Both builders. *)
Theorem X23_refused_sheet_ends_run :
  (forall series_sum root,
      forallb (sheet_accepted series_sum App.read_frame root)
        (sheet_projects series_sum App.read_frame root) = false ->
      exists e, App.generate_workbook_bytes series_sum root = Raise e)
  /\ (forall series_sum root,
        forallb (sheet_accepted series_sum read_csv root)
          (sheet_projects series_sum read_csv root) = false ->
        exists e, Cli.main series_sum root = Raise e)
  /\ App.generate_workbook_bytes F64.sum bracket_root = Raise ValueError
  /\ Cli.main F64.sum bracket_root = Raise ValueError
  /\ App.generate_workbook_bytes F64.sum bell_root
     = Raise IllegalCharacterError
  /\ Cli.main F64.sum bell_root = Raise IllegalCharacterError.
Proof.
  split.
  { intros series_sum root Hr.
    pose proof (App_generate_spec series_sum root) as H. cbv zeta in H.
    destruct (App.generate_workbook_bytes series_sum root) as [[[w s] l]|e];
      [|exists e; reflexivity].
    destruct H as (Hb & _). apply built_from_projects in Hb.
    destruct Hb as (_ & _ & Ha). rewrite Ha in Hr. discriminate Hr. }
  split.
  { intros series_sum root Hr.
    pose proof (Cli_main_spec series_sum root) as H. cbv zeta in H.
    destruct (Cli.main series_sum root) as [[w out]|e];
      [|exists e; reflexivity].
    apply built_from_projects in H.
    destruct H as (_ & _ & Ha). rewrite Ha in Hr. discriminate Hr. }
  vm_compute. repeat split.
Qed.

Lemma X23_witness :
  exists e, App.generate_workbook_bytes F64.sum bracket_root = Raise e.
Proof.
  destruct X23_refused_sheet_ends_run as (H & _).
  apply (H F64.sum bracket_root). vm_compute. reflexivity.
Defined.

(** ** Cells *)

Lemma substring_short (n : nat) (s : string) :
  (String.length s <= n)%nat -> substring 0 n s = s.
Proof.
  revert n. induction s as [|c r IH]; intros [|n] H; simpl in *;
    try reflexivity; [lia|].
  rewrite IH by lia. reflexivity.
Qed.

Lemma substring_length_le (n : nat) (s : string) :
  (String.length (substring 0 n s) <= n)%nat.
Proof.
  revert n. induction s as [|c r IH]; intros [|n]; simpl; try lia.
  specialize (IH n). lia.
Qed.

(** X24: a sheet keeps the rows appended to it, row by row and cell by
    cell: a number, a bool, a NumPy scalar or a missing value as it is,
    and a string cut at its first 32767 characters; a string up to this
    length is kept whole.  A description of 32768 characters stands in
    the sheet with 32767. *)
Theorem X24_cells_keep_values :
  (forall wb t content w',
      create_sheet wb t content = Ok w' ->
      exists s,
        w' = (wb ++ [s])%list
        /\ sid s = List.length wb
        /\ cells s = map (map kept_value) content)
  /\ (forall s,
        (String.length s <= Openpyxl.max_cell_length)%nat ->
        kept_value (VStr s) = VStr s)
  /\ (forall s,
        exists s', kept_value (VStr s) = VStr s'
                   /\ (String.length s' <= Openpyxl.max_cell_length)%nat
                   /\ prefix s' s = true)
  /\ (forall v, (forall s, v <> VStr s) -> kept_value v = v)
  /\ map (map cell_size) (sheet_rows (months_or_empty F64.sum read_csv
                                        long_root "Essay"))
     = [ [5; 11]; [8; 0]; [11; 5]; [32768; 0]; []; []; [5; 0] ]%N
  /\ result_map (fun r => map (map (map cell_size)) (map cells (fst (fst r))))
       (App.generate_workbook_bytes F64.sum long_root)
     = Ok [ [ [5; 11]; [8; 0]; [11; 5]; [32767; 0]; []; []; [5; 0] ] ]%N.
Proof.
  split.
  { intros wb t content w' H. rewrite create_sheet_spec in H.
    destruct (valid_title _); [|discriminate H].
    destruct (Openpyxl.avoid_duplicate_name _ _) as [t'|e]; [|discriminate H].
    cbn [bind] in H. destruct (legal_rows content); [|discriminate H].
    inversion H. eexists. repeat split. }
  split.
  { intros s H. unfold kept_value. rewrite substring_short by exact H.
    reflexivity. }
  split.
  { intros s. eexists. split; [reflexivity|].
    split; [apply substring_length_le|].
    generalize Openpyxl.max_cell_length. intros n. revert n.
    induction s as [|c r IH]; intros [|n]; simpl; try reflexivity.
    destruct (ascii_dec c c) as [_|N]; [apply IH|contradiction]. }
  split.
  { intros v H. destruct v; try reflexivity. exfalso. exact (H s eq_refl). }
  split; vm_compute; reflexivity.
Qed.

Lemma X24_witness :
  kept_value (VStr "call") = VStr "call".
Proof.
  destruct X24_cells_keep_values as (_ & H & _).
  apply H. apply Nat.leb_le. vm_compute. reflexivity.
Defined.
